(** * The tool-calling conversation loop of the analysis agent

    A shallow embedding of [analysis/client.py] ([MCPClient]) and of the
    request handler [analysis_agent] of [main.py], followed by the
    properties of the conversation loop stated in the specification.

    The Python code talks to three collaborators: the MCP session (the Tool
    Registry: [get_prompt], [list_tools], [call_tool]), the Anthropic client
    (the Model Gateway: [messages.create]) and the exit stack that owns the
    registry connection.  They are gathered in a [World] of deterministic
    oracles; every call to one of them may return a value or raise.  The
    program itself is written in a state-and-exception monad whose state
    holds the local variables of [process_query] and a log of every
    observable step. *)

From Stdlib Require Import List String Ascii Arith Bool Lia.
Import ListNotations.

Local Open Scope string_scope.
Local Open Scope list_scope.

(** ** Python outcomes *)

Module Py.

(** The exceptions the modelled code can end with.  [ExternalError] stands
    for whatever a collaborator (mcp, anthropic, the exit stack) raises. *)
Inductive exn : Type :=
| ValueError (msg : string)
| IndexError (msg : string)
| AttributeError (msg : string)
| ExternalError (msg : string).

(** The outcome of running a piece of Python: a value, an exception, or
    no outcome within the iteration budget of [while True]. *)
Inductive Res (A : Type) : Type :=
| Ret (a : A)
| Raise (e : exn)
| Diverge.

Arguments Ret {A} a.
Arguments Raise {A} e.
Arguments Diverge {A}.

(** [str.endswith]. *)
Definition endswith (s suffix : string) : bool :=
  let n := String.length s in
  let m := String.length suffix in
  if Nat.leb m n then String.eqb (substring (n - m) m s) suffix else false.

End Py.
Import Py.

(** ** Data model *)

Inductive Role : Type := user | assistant.

(** The [input] of a tool call: a mapping from argument names to values. *)
Definition Args : Type := list (string * string).

(** A content block of a Model Gateway response, classified by its [type]
    attribute as the loop does: ['text'], ['tool_use'], anything else. *)
Inductive ContentBlock : Type :=
| TextBlock (text : string)
| ToolUseBlock (id : string) (name : string) (input : Args)
| OtherBlock (type : string).

(** An element of the [content] list of a message sent to the gateway: a
    response block passed back as it is, or the [tool_result] dictionary
    built by the loop (keys [type], [tool_use_id] and [content]). *)
Inductive Param : Type :=
| BlockParam (b : ContentBlock)
| ToolResultParam (tool_use_id : string) (content : list string).

Inductive Content : Type :=
| Str (s : string)
| Blocks (l : list Param).

Record Message : Type := mkMessage { role : Role; content : Content }.

(** [tool.name], [tool.description], [tool.inputSchema]. *)
Record Tool : Type := mkTool
  { tool_name : string; tool_description : string; tool_inputSchema : string }.

(** The dictionaries of [available_tools]. *)
Record ToolParam : Type := mkToolParam
  { tp_name : string; tp_description : string; tp_input_schema : string }.

(** The keyword arguments of [anthropic.messages.create]; [system] and
    [tools] are absent ([None]) when the call does not pass them. *)
Record Request : Type := mkRequest
  { model : string;
    max_tokens : nat;
    system : option string;
    req_messages : list Message;
    tools : option (list ToolParam) }.

Record Response : Type := mkResponse
  { resp_content : list ContentBlock; stop_reason : string }.

(** The result of [session.call_tool]: the registry reports a failed tool
    with [isError] set and the error text as [content]. *)
Record CallToolResult : Type := mkCallToolResult
  { isError : bool; result_content : list string }.

(** The result of [session.get_prompt]: the [content.text] of each message,
    where there is one. *)
Definition GetPromptResult : Type := list (option string).

(** An entry of the local list [final_text]. *)
Inductive FinalText : Type :=
| FinalTextBlock (text : string)
| FinalCallingTool (tool_name : string) (tool_args : Args).

(** ** Observable steps *)

Inductive Event : Type :=
| EvInit (user_id ticket_id : string)
| EvStdioClient (command : string) (args : list string) (env : list (string * string))
| EvClientSession
| EvInitialize
| EvListTools
| EvGetPrompt (name : string)
| EvCreate (req : Request)
| EvCallTool (name : string) (args : Args)
| EvTranscript (m : Message)
| EvLogInfo (msg : string)
| EvPrint (s : string)
| EvAclose.

(** ** The collaborators *)

Record World : Type := mkWorld
  { (** [MCPClient(user_id, ticket_id)]: creates log directories and files *)
    init_client : Res unit;
    (** entering [stdio_client(server_params)]: launches the registry *)
    stdio_client : string -> list string -> Res unit;
    (** entering [ClientSession(stdio, write)] *)
    client_session : Res unit;
    (** [session.initialize()]: the handshake *)
    initialize : Res unit;
    (** [session.list_tools()]; the index counts the earlier calls *)
    list_tools : nat -> Res (list Tool);
    (** [session.get_prompt(name)] *)
    get_prompt : string -> Res GetPromptResult;
    (** [session.call_tool(name, args)]; the index counts the earlier calls *)
    call_tool : nat -> string -> Args -> Res CallToolResult;
    (** [anthropic.messages.create(...)]; the index counts the earlier calls *)
    messages_create : nat -> Request -> Res Response;
    (** [exit_stack.aclose()] *)
    aclose : Res unit }.

(** ** Program state and monad *)

(** [log] holds the steps taken so far, the newest first. *)
Record St : Type := mkSt
  { messages : list Message;
    final_text : list FinalText;
    log : list Event }.

Definition initial : St := mkSt [] [] [].

(** The steps in the order they were taken. *)
Definition events (st : St) : list Event := rev (log st).

Definition is_create (e : Event) : bool :=
  match e with EvCreate _ => true | _ => false end.
Definition is_call_tool (e : Event) : bool :=
  match e with EvCallTool _ _ => true | _ => false end.
Definition is_list_tools (e : Event) : bool :=
  match e with EvListTools => true | _ => false end.
Definition is_aclose (e : Event) : bool :=
  match e with EvAclose => true | _ => false end.

Definition count (p : Event -> bool) (l : list Event) : nat :=
  List.length (filter p l).

Definition M (A : Type) : Type := St -> Res A * St.

Definition ret {A} (a : A) : M A := fun st => (Ret a, st).
Definition raise {A} (e : exn) : M A := fun st => (Raise e, st).
Definition diverge {A} : M A := fun st => (Diverge, st).

Definition bind {A B} (m : M A) (k : A -> M B) : M B :=
  fun st =>
    match m st with
    | (Ret a, st') => k a st'
    | (Raise e, st') => (Raise e, st')
    | (Diverge, st') => (Diverge, st')
    end.

Notation "x <- m ;; k" := (bind m (fun x => k))
  (at level 61, m at next level, right associativity).
Notation "m ;;; k" := (bind m (fun _ => k))
  (at level 61, right associativity).

(** Record a step. *)
Definition emit (e : Event) : M unit :=
  fun st => (Ret tt, mkSt (messages st) (final_text st) (e :: log st)).

(** Call a collaborator: the call is recorded, then its outcome is the
    outcome of the statement. *)
Definition perform {A} (e : Event) (r : Res A) : M A :=
  fun st => (r, mkSt (messages st) (final_text st) (e :: log st)).

(** [messages = [m]] and [messages.append(m)]. *)
Definition set_messages (m : Message) : M unit :=
  fun st => (Ret tt, mkSt [m] (final_text st) (EvTranscript m :: log st)).
Definition messages_append (m : Message) : M unit :=
  fun st => (Ret tt, mkSt (messages st ++ [m]) (final_text st) (EvTranscript m :: log st)).
Definition get_messages : M (list Message) :=
  fun st => (Ret (messages st), st).

(** [final_text = []] and [final_text.append(x)]. *)
Definition reset_final_text : M unit :=
  fun st => (Ret tt, mkSt (messages st) [] (log st)).
Definition final_text_append (x : FinalText) : M unit :=
  fun st => (Ret tt, mkSt (messages st) (final_text st ++ [x]) (log st)).

(** ** analysis/client.py: class MCPClient *)

Module MCPClient.

(** The attributes of the client the modelled methods read. *)
Record Client : Type := mkClient { user_id : string; ticket_id : string }.

Definition claude : string := "claude-3-5-sonnet-20241022".

(** The gateway calls of the loop pass [messages] and [tools]; the
    summary call passes [system] and [messages]. *)
Definition loop_request (msgs : list Message) (available_tools : list ToolParam)
  : Request :=
  mkRequest claude 1000 None msgs (Some available_tools).

Definition summary_system (query : string) : string :=
  ("Provide a summary of the analysis conducted for the query: " ++ query
     ++ " based on the below messages")%string.

Definition summary_request (query : string) (msgs : list Message) : Request :=
  mkRequest claude 1000 (Some (summary_system query)) msgs None.

Definition is_summary_request (req : Request) : bool :=
  match system req with Some _ => true | None => false end.

Definition is_loop_create (e : Event) : bool :=
  match e with EvCreate req => negb (is_summary_request req) | _ => false end.
Definition is_summary_create (e : Event) : bool :=
  match e with EvCreate req => is_summary_request req | _ => false end.

(** [self.anthropic.messages.create(...)] *)
Definition create (w : World) (req : Request) : M Response :=
  fun st => perform (EvCreate req) (messages_create w (count is_create (log st)) req) st.

(** [await self.session.call_tool(tool_name, tool_args)] *)
Definition session_call_tool (w : World) (name : string) (args : Args)
  : M CallToolResult :=
  fun st =>
    perform (EvCallTool name args) (call_tool w (count is_call_tool (log st)) name args) st.

(** [await self.session.list_tools()] *)
Definition session_list_tools (w : World) : M (list Tool) :=
  fun st => perform EvListTools (list_tools w (count is_list_tools (log st))) st.

(** [await self.session.get_prompt(name)] *)
Definition session_get_prompt (w : World) (name : string) : M GetPromptResult :=
  perform (EvGetPrompt name) (get_prompt w name).

(** Lines 57-77.  The server script is launched by [stdio_client]; nothing
    is contacted before it. *)
Definition connect_to_server (w : World) (self : Client)
    (server_script_path : string) : M unit :=
  let is_python := endswith server_script_path ".py" in
  let is_js := endswith server_script_path ".js" in
  if negb (is_python || is_js) then
    raise (ValueError "Server script must be a .py or .js file")
  else
    let command := if is_python then "python3" else "node" in
    perform (EvStdioClient command [server_script_path] [("USER_ID", user_id self)])
            (stdio_client w command [server_script_path]) ;;;
    perform EvClientSession (client_session w) ;;;
    perform EvInitialize (initialize w) ;;;
    response <- session_list_tools w ;;
    ret tt.

(** How one pass of [for content in response.content] ends: by [break]
    with the next response, or by running into the [else] clause. *)
Inductive ForExit : Type :=
| ForBreak (response : Response)
| ForElse.

(** Lines 121-159: the [for] loop from the block [blocks] on, with the
    current value of [assistant_message_content]. *)
Fixpoint for_content (w : World) (available_tools : list ToolParam)
    (blocks : list ContentBlock) (assistant_message_content : list Param)
  : M ForExit :=
  match blocks with
  | [] => ret ForElse
  | content :: rest =>
      match content with
      | TextBlock text =>
          (* logger.debug is below the logger's level INFO *)
          final_text_append (FinalTextBlock text) ;;;
          for_content w available_tools rest
            (assistant_message_content ++ [BlockParam content])
      | ToolUseBlock id tool_name tool_args =>
          emit (EvLogInfo ("Tool use detected: " ++ tool_name)%string) ;;;
          result <- session_call_tool w tool_name tool_args ;;
          final_text_append (FinalCallingTool tool_name tool_args) ;;;
          let assistant_message_content :=
            assistant_message_content ++ [BlockParam content] in
          messages_append (mkMessage assistant (Blocks assistant_message_content)) ;;;
          messages_append
            (mkMessage user (Blocks [ToolResultParam id (result_content result)])) ;;;
          msgs <- get_messages ;;
          response <- create w (loop_request msgs available_tools) ;;
          ret (ForBreak response)
      | OtherBlock _ =>
          for_content w available_tools rest assistant_message_content
      end
  end.

(** Lines 119-162: [while True], with a budget of iterations. *)
Fixpoint while_true (fuel : nat) (w : World) (available_tools : list ToolParam)
    (response : Response) : M unit :=
  match fuel with
  | O => diverge
  | S fuel' =>
      exit <- for_content w available_tools (resp_content response) [] ;;
      match exit with
      | ForBreak response' => while_true fuel' w available_tools response'
      | ForElse => ret tt
      end
  end.

(** Lines 86-92: the text of the first prompt message, never used later. *)
Definition prompt_text_of (system_prompt : GetPromptResult) : option string :=
  match system_prompt with
  | message :: _ => message
  | [] => None
  end.

(** Lines 81-162: everything up to the exit of the loop. *)
Definition conversation (fuel : nat) (w : World) (query : string) : M unit :=
  system_prompt <- session_get_prompt w "analysis_system_prompt" ;;
  let prompt_text := prompt_text_of system_prompt in
  set_messages (mkMessage user (Str query)) ;;;
  response <- session_list_tools w ;;
  let available_tools :=
    map (fun tool => mkToolParam (tool_name tool) (tool_description tool)
                                 (tool_inputSchema tool)) response in
  msgs <- get_messages ;;
  response <- create w (loop_request msgs available_tools) ;;
  reset_final_text ;;;
  while_true fuel w available_tools response.

(** Lines 164-172: the summary call and [response_summary.content[0].text]. *)
Definition summarize (w : World) (query : string) : M string :=
  msgs <- get_messages ;;
  response_summary <- create w (summary_request query msgs) ;;
  match resp_content response_summary with
  | [] => raise (IndexError "list index out of range")
  | TextBlock response_text :: _ =>
      emit (EvPrint response_text) ;;;
      ret response_text
  | _ :: _ => raise (AttributeError "text")
  end.

Definition process_query (fuel : nat) (w : World) (query : string) : M string :=
  conversation fuel w query ;;;
  summarize w query.

(** [await self.exit_stack.aclose()] *)
Definition cleanup (w : World) : M unit :=
  perform EvAclose (aclose w).

End MCPClient.

(** ** main.py: the request handler *)

Module Main.
Import MCPClient.

Record AnalysisRequest : Type := mkAnalysisRequest
  { req_user_id : string; description : string; req_ticket_id : string }.

(** [try: body finally: handler]: the handler runs when the body returns
    and when it raises; an exception of the handler replaces the outcome
    of the body. *)
Definition try_finally {A} (body : M A) (handler : M unit) : M A :=
  fun st =>
    match body st with
    | (Diverge, st') => (Diverge, st')
    | (r, st') =>
        match handler st' with
        | (Ret _, st'') => (r, st'')
        | (Raise e, st'') => (Raise e, st'')
        | (Diverge, st'') => (Diverge, st'')
        end
    end.

Definition default_server_script_path : string := "analysisagent/server.py".

(** Lines 164-171. *)
Definition analysis_agent (fuel : nat) (w : World) (request : AnalysisRequest)
  : M string :=
  perform (EvInit (req_user_id request) (req_ticket_id request)) (init_client w) ;;;
  let client := mkClient (req_user_id request) (req_ticket_id request) in
  try_finally
    (connect_to_server w client default_server_script_path ;;;
     process_query fuel w (description request))
    (cleanup w).

End Main.

(** ** Stub collaborators *)

Module Stub.
Import MCPClient.

(** The tool [read_file] of [analysis/server.py], as the catalog lists it. *)
Definition read_file : Tool :=
  mkTool "read_file" "Read a file from the specified path." "{file_path: string}".

Definition tool_call_turn : Response :=
  mkResponse [ToolUseBlock "toolu_01" "read_file" [("file_path", "/a.txt")]] "tool_use".

Definition done_turn : Response :=
  mkResponse [TextBlock "done"] "end_turn".

(** A gateway that answers its calls with the responses of a script, in
    order, and with [last] once the script is used up. *)
Definition scripted (script : list Response) (last : Response)
    (k : nat) (req : Request) : Res Response :=
  Ret (nth k script last).

(** A registry and gateway that never raise: one tool [read_file] that
    returns [hello], and the gateway [gateway]. *)
Definition world (gateway : nat -> Request -> Res Response)
    (tool : nat -> string -> Args -> Res CallToolResult) : World :=
  {| init_client := Ret tt;
     stdio_client := fun _ _ => Ret tt;
     client_session := Ret tt;
     initialize := Ret tt;
     list_tools := fun _ => Ret [read_file];
     get_prompt := fun _ => Ret [Some "You are a seasoned Salesforce expert"];
     call_tool := tool;
     messages_create := gateway;
     aclose := Ret tt |}.

Definition hello : nat -> string -> Args -> Res CallToolResult :=
  fun _ _ _ => Ret (mkCallToolResult false ["hello"]).

(** The scenario of the specification: a tool call, then the text [done],
    then the summary. *)
Definition scenario (summary : Response) : World :=
  world (scripted [tool_call_turn; done_turn] summary) hello.

(** A turn that asks for two tools at once, after some text. *)
Definition two_tool_calls : Response :=
  mkResponse
    [TextBlock "Let me look at the file.";
     ToolUseBlock "toolu_01" "read_file" [("file_path", "/a.txt")];
     ToolUseBlock "toolu_02" "retrieve_metadata" [("metadata_type", "Flow")]]
    "tool_use".

Definition summary_turn : Response :=
  mkResponse [TextBlock "The file says hello."] "end_turn".

(** A gateway whose first turn is the text [done]. *)
Definition direct_answer : World :=
  world (scripted [done_turn] summary_turn) hello.

(** Summary responses with a second block and with no block. *)
Definition two_block_summary : Response :=
  mkResponse [TextBlock "The file says hello."; TextBlock "Anything else?"] "end_turn".

Definition empty_summary : Response := mkResponse [] "end_turn".

(** A registry that cannot be launched. *)
Definition unlaunchable : World :=
  {| init_client := Ret tt;
     stdio_client := fun _ _ => Raise (ExternalError "No such file or directory");
     client_session := Ret tt;
     initialize := Ret tt;
     list_tools := fun _ => Ret [read_file];
     get_prompt := fun _ => Ret [];
     call_tool := hello;
     messages_create := scripted [] done_turn;
     aclose := Ret tt |}.

Definition list_files : Main.AnalysisRequest :=
  Main.mkAnalysisRequest "u1" "list files" "t1".

(** A tool whose invocation raises. *)
Definition failing : nat -> string -> Args -> Res CallToolResult :=
  fun _ _ _ => Raise (ExternalError "tool failed").

(** A tool whose failure the registry reports in its result. *)
Definition reporting : nat -> string -> Args -> Res CallToolResult :=
  fun _ _ _ => Ret (mkCallToolResult true ["Error executing tool read_file"]).

End Stub.

(** ** Vocabulary of the properties *)

Import MCPClient.

Definition is_tool_use (b : ContentBlock) : bool :=
  match b with ToolUseBlock _ _ _ => true | _ => false end.

(** The response contains a tool-invocation request. *)
Definition has_tool_use (r : Response) : bool :=
  existsb is_tool_use (resp_content r).

(** What a run of text and other blocks adds to [assistant_message_content]
    and to [final_text]. *)
Fixpoint text_params (blocks : list ContentBlock) : list Param :=
  match blocks with
  | [] => []
  | TextBlock text :: rest => BlockParam (TextBlock text) :: text_params rest
  | _ :: rest => text_params rest
  end.

Fixpoint text_entries (blocks : list ContentBlock) : list FinalText :=
  match blocks with
  | [] => []
  | TextBlock text :: rest => FinalTextBlock text :: text_entries rest
  | _ :: rest => text_entries rest
  end.

(** The state after [final_text] has grown by [l]. *)
Definition add_final (st : St) (l : list FinalText) : St :=
  mkSt (messages st) (final_text st ++ l) (log st).

Definition tool_use_detected (name : string) : Event :=
  EvLogInfo ("Tool use detected: " ++ name)%string.

(** The pending assistant turn and the tool-result turn of one tool call. *)
Definition assistant_turn (pending : list Param) (id name : string) (input : Args)
  : Message :=
  mkMessage assistant (Blocks (pending ++ [BlockParam (ToolUseBlock id name input)])).

Definition tool_result_turn (id : string) (result : CallToolResult) : Message :=
  mkMessage user (Blocks [ToolResultParam id (result_content result)]).

(** The state right after [call_tool] was called for the block
    [ToolUseBlock id name input]. *)
Definition after_call (st : St) (name : string) (input : Args) : St :=
  mkSt (messages st) (final_text st)
       (EvCallTool name input :: tool_use_detected name :: log st).

(** The state after the whole branch of a tool call, up to and including the
    next gateway call. *)
Definition after_round (st : St) (available_tools : list ToolParam)
    (pending : list Param) (id name : string) (input : Args)
    (result : CallToolResult) : St :=
  let a := assistant_turn pending id name input in
  let u := tool_result_turn id result in
  mkSt (messages st ++ [a; u])
       (final_text st ++ [FinalCallingTool name input])
       (EvCreate (loop_request (messages st ++ [a; u]) available_tools)
          :: EvTranscript u :: EvTranscript a
          :: EvCallTool name input :: tool_use_detected name :: log st).

Definition returns {A} (r : Res A) : Prop := exists a, r = Ret a.

(** The registry answers every call of the conversation: it may report a
    failed tool in its result, it does not raise. *)
Definition registry_returns (w : World) : Prop :=
  (forall name, returns (get_prompt w name)) /\
  (forall k, returns (list_tools w k)) /\
  (forall k name args, returns (call_tool w k name args)).

(** The gateway answers its [k]-th call with a turn that requests a tool,
    respectively with a turn that requests none. *)
Definition tool_call_at (w : World) (k : nat) : Prop :=
  forall req, exists resp,
    messages_create w k req = Ret resp /\ has_tool_use resp = true.

Definition tool_free_at (w : World) (k : nat) : Prop :=
  forall req, exists resp,
    messages_create w k req = Ret resp /\ has_tool_use resp = false.

(** The number of [tool_use] blocks with identifier [id] in a turn. *)
Definition requests (id : string) (l : list Param) : nat :=
  List.length
    (filter (fun p => match p with
                      | BlockParam (ToolUseBlock id' _ _) => String.eqb id' id
                      | _ => false
                      end) l).

(** Every [tool_result] block of the transcript answers exactly one
    [tool_use] block of the turn right before it, an assistant turn. *)
Definition transcript_ok (ms : list Message) : Prop :=
  forall i m l id c,
    nth_error ms i = Some m ->
    content m = Blocks l ->
    In (ToolResultParam id c) l ->
    exists j l',
      i = S j /\
      nth_error ms j = Some (mkMessage assistant (Blocks l')) /\
      requests id l' = 1.

(** The transcripts the loop builds: the query, then pairs of an assistant
    turn ending in the one tool call and the turn with its result. *)
Inductive loop_transcript : list Message -> Prop :=
| lt_query (query : string) :
    loop_transcript [mkMessage user (Str query)]
| lt_round ms blocks id name input result :
    loop_transcript ms ->
    loop_transcript
      (ms ++ [assistant_turn (text_params blocks) id name input;
              tool_result_turn id result]).

(** The same run with the error flag of every tool result cleared. *)
Definition as_success (r : Res CallToolResult) : Res CallToolResult :=
  match r with
  | Ret result => Ret (mkCallToolResult false (result_content result))
  | Raise e => Raise e
  | Diverge => Diverge
  end.

Definition mask_errors (w : World) : World :=
  {| init_client := init_client w;
     stdio_client := stdio_client w;
     client_session := client_session w;
     initialize := initialize w;
     list_tools := list_tools w;
     get_prompt := get_prompt w;
     call_tool := fun k name args => as_success (call_tool w k name args);
     messages_create := messages_create w;
     aclose := aclose w |}.

(** [e] is the step taken right after [p].  The transcript grows by an
    assistant turn only right after the call of the tool it requests, by a
    tool-result turn only right after the assistant turn it answers, and a
    gateway call of the loop comes right after the catalog was fetched or
    right after a tool-result turn was added. *)
Definition step_ok (p e : Event) : Prop :=
  match e with
  | EvTranscript (mkMessage assistant c) =>
      exists pending id name input,
        c = Blocks (pending ++ [BlockParam (ToolUseBlock id name input)]) /\
        p = EvCallTool name input
  | EvTranscript (mkMessage user (Blocks l)) =>
      exists pending id name input c,
        l = [ToolResultParam id c] /\
        p = EvTranscript (assistant_turn pending id name input)
  | EvCreate req =>
      is_summary_request req = false ->
      p = EvListTools \/
      exists id c, p = EvTranscript (mkMessage user (Blocks [ToolResultParam id c]))
  | _ => True
  end.


(** The same on a log, newest first. *)
Fixpoint chain (l : list Event) : Prop :=
  match l with
  | e :: tl =>
      match tl with
      | p :: _ => step_ok p e
      | [] => True
      end /\ chain tl
  | [] => True
  end.

(** The state with one more step in its log. *)
Definition push (e : Event) (st : St) : St :=
  mkSt (messages st) (final_text st) (e :: log st).

(** [available_tools] for a catalog. *)
Definition catalog (ts : list Tool) : list ToolParam :=
  map (fun tool => mkToolParam (tool_name tool) (tool_description tool)
                               (tool_inputSchema tool)) ts.

Definition query_turn (query : string) : Message := mkMessage user (Str query).

Definition get_system_prompt : Event := EvGetPrompt "analysis_system_prompt".

(** The states of [process_query] before the loop: after the prompt was
    asked for, after the catalog was asked for, after the first gateway
    call, and at the entry of the loop. *)
Definition asked_prompt (st : St) : St := push get_system_prompt st.

Definition asked_catalog (st : St) (query : string) : St :=
  mkSt [query_turn query] (final_text st)
       (EvListTools :: EvTranscript (query_turn query) :: log (asked_prompt st)).

Definition asked_gateway (st : St) (query : string) (available_tools : list ToolParam)
  : St :=
  push (EvCreate (loop_request [query_turn query] available_tools))
       (asked_catalog st query).

Definition started (st : St) (query : string) (available_tools : list ToolParam)
  : St :=
  mkSt [query_turn query] []
       (log (asked_gateway st query available_tools)).

(** The states of the loop that follow a gateway call: the entry, and from
    there any number of text blocks and completed tool calls. *)
Inductive loop_state (st0 : St) (query : string) (available_tools : list ToolParam)
  : St -> Prop :=
| ls_started :
    loop_state st0 query available_tools (started st0 query available_tools)
| ls_texts st l :
    loop_state st0 query available_tools st ->
    loop_state st0 query available_tools (add_final st l)
| ls_round st blocks id name input result :
    loop_state st0 query available_tools st ->
    loop_state st0 query available_tools
      (after_round st available_tools (text_params blocks) id name input result).

(** The summary call on the transcript of [st], and the state after the
    summary was printed. *)
Definition asked_summary (st : St) (query : string) : St :=
  push (EvCreate (summary_request query (messages st))) st.

Definition printed (st : St) (query : string) (response_text : string) : St :=
  push (EvPrint response_text) (asked_summary st query).

(** The states [process_query] can end in when it is started in [st0]. *)
Inductive final_state (st0 : St) (query : string) : St -> Prop :=
| fs_prompt :
    final_state st0 query (asked_prompt st0)
| fs_catalog :
    final_state st0 query (asked_catalog st0 query)
| fs_gateway available_tools :
    final_state st0 query (asked_gateway st0 query available_tools)
| fs_loop available_tools st :
    loop_state st0 query available_tools st ->
    final_state st0 query st
| fs_call available_tools st name input :
    loop_state st0 query available_tools st ->
    final_state st0 query (after_call st name input)
| fs_summary available_tools st :
    loop_state st0 query available_tools st ->
    final_state st0 query (asked_summary st query)
| fs_printed available_tools st response_text :
    loop_state st0 query available_tools st ->
    final_state st0 query (printed st query response_text).

(** What the steps [new] of a run, newest first, satisfy: they are in
    order, none of them closes the exit stack, and every gateway call
    carries a transcript of the loop. *)
Definition good_steps (new : list Event) : Prop :=
  chain new /\
  count is_aclose new = 0 /\
  forall req, In (EvCreate req) new -> loop_transcript (req_messages req).



(** ** Vocabulary of the further properties *)

(** The world [w] with a registry whose prompts all have the messages [p]. *)
Definition with_prompt (w : World) (p : GetPromptResult) : World :=
  {| init_client := init_client w;
     stdio_client := stdio_client w;
     client_session := client_session w;
     initialize := initialize w;
     list_tools := list_tools w;
     get_prompt := fun _ => Ret p;
     call_tool := call_tool w;
     messages_create := messages_create w;
     aclose := aclose w |}.



(** The transcript [ms2] is [ms1] with more turns at its end. *)
Definition extends (ms1 ms2 : list Message) : Prop :=
  exists more, ms2 = ms1 ++ more.

(** In a log, newest first: the transcript of every gateway call extends
    the transcripts of the calls before it. *)
Fixpoint growing (l : list Event) : Prop :=
  match l with
  | [] => True
  | EvCreate req :: before =>
      (forall req', In (EvCreate req') before ->
                    extends (req_messages req') (req_messages req)) /\
      growing before
  | _ :: before => growing before
  end.

(** The roles of a transcript alternate, from a user turn to a user turn. *)
Definition alternating (ms : list Message) : Prop :=
  (forall i m, nth_error ms i = Some m ->
               role m = if Nat.even i then user else assistant) /\
  Nat.odd (List.length ms) = true.

(** An assistant turn of the transcript: text blocks, then one tool request. *)
Definition texts_then_request (m : Message) : Prop :=
  exists texts id name input,
    content m =
    Blocks (map (fun text => BlockParam (TextBlock text)) texts
              ++ [BlockParam (ToolUseBlock id name input)]).

(** A user turn of the transcript: the query, or one tool result. *)
Definition query_or_result (m : Message) : Prop :=
  (exists query, content m = Str query) \/
  (exists id c, content m = Blocks [ToolResultParam id c]).

(** The texts of the text blocks of a response. *)
Fixpoint texts_of (blocks : list ContentBlock) : list string :=
  match blocks with
  | [] => []
  | TextBlock text :: rest => text :: texts_of rest
  | _ :: rest => texts_of rest
  end.

(** Further stub collaborators. *)
Module Cases.

(** A registry that fails to list its tools. *)
Definition no_catalog : World :=
  {| init_client := Ret tt;
     stdio_client := fun _ _ => Ret tt;
     client_session := Ret tt;
     initialize := Ret tt;
     list_tools := fun _ => Raise (ExternalError "connection closed");
     get_prompt := fun _ => Ret [];
     call_tool := Stub.hello;
     messages_create := Stub.scripted [] Stub.done_turn;
     aclose := Ret tt |}.


(** A session whose exit stack fails to close. *)
Definition cleanup_fails : World :=
  {| init_client := Ret tt;
     stdio_client := fun _ _ => Ret tt;
     client_session := Ret tt;
     initialize := Ret tt;
     list_tools := fun _ => Ret [Stub.read_file];
     get_prompt := fun _ => Ret [];
     call_tool := Stub.hello;
     messages_create := Stub.scripted [Stub.done_turn] Stub.summary_turn;
     aclose := Raise (ExternalError "Attempted to exit cancel scope in a different task") |}.

End Cases.

(** ** Effects of the code outside the loop *)

(** The tools of [analysis/server.py] and the handlers of the OAuth flow in
    [main.py] keep no state and run no unbounded loop: a computation is its
    outcome together with the steps it took, oldest first. *)
Module Eff.

Inductive Out (X A : Type) : Type :=
| Val (a : A)
| Exc (x : X).

Arguments Val {X A} a.
Arguments Exc {X A} x.

Definition W (E X A : Type) : Type := (Out X A * list E)%type.

Definition ret {E X A} (a : A) : W E X A := (Val a, []).
Definition raise {E X A} (x : X) : W E X A := (Exc x, []).

Definition bind {E X A B} (m : W E X A) (k : A -> W E X B) : W E X B :=
  match m with
  | (Val a, l1) => let (r, l2) := k a in (r, l1 ++ l2)
  | (Exc x, l1) => (Exc x, l1)
  end.

(** A step whose outcome is given from outside. *)
Definition perform {E X A} (e : E) (r : Out X A) : W E X A := (r, [e]).
Definition emit {E X} (e : E) : W E X unit := (Val tt, [e]).

(** An outcome given from outside that is no step of its own, such as a
    method of an object at hand. *)
Definition lift {E X A} (r : Out X A) : W E X A := (r, []).

(** [try: body except Exception as e: handler(e)] *)
Definition try_except {E X A} (body : W E X A) (handler : X -> W E X A) : W E X A :=
  match body with
  | (Exc x, l1) => let (r, l2) := handler x in (r, l1 ++ l2)
  | (Val a, l1) => (Val a, l1)
  end.

(** [async with ctx: body], for a context manager that does not suppress
    exceptions: the body runs once the context is entered; the context is
    left when the body returned and when it raised, and an exception of
    leaving replaces the outcome of the body. *)
Definition with_context {E X A} (enter : E) (entered : Out X unit)
    (leave : E) (left : Out X unit) (body : W E X A) : W E X A :=
  match entered with
  | Exc x => (Exc x, [enter])
  | Val _ =>
      let (r, l) := body in
      match left with
      | Exc x => (Exc x, enter :: l ++ [leave])
      | Val _ => (r, enter :: l ++ [leave])
      end
  end.

End Eff.

Notation "x <~ m ;; k" := (Eff.bind m (fun x => k))
  (at level 61, m at next level, right associativity).
Notation "m ~;; k" := (Eff.bind m (fun _ => k))
  (at level 61, right associativity).

(** ** JSON values *)

Module Json.

(** What [response.json()] returns: [None], a truth value, an integer, a
    string, a list or a dictionary.  Numbers with a fraction are left out. *)
#[local] Unset Elimination Schemes.
Inductive t : Type :=
| JNull
| JBool (b : bool)
| JInt (n : BinNums.Z)
| JStr (s : string)
| JList (l : list t)
| JDict (l : list (string * t)).
#[local] Set Elimination Schemes.

(** The truth value of a Python object, as [not data] tests it. *)
Definition truthy (j : t) : bool :=
  match j with
  | JNull => false
  | JBool b => b
  | JInt BinNums.Z0 => false
  | JInt _ => true
  | JStr s => negb (String.eqb s "")
  | JList l => match l with [] => false | _ => true end
  | JDict l => match l with [] => false | _ => true end
  end.

End Json.

(** ** analysis/server.py *)

Module Server.
Import Eff Json.

Definition API_BASE : string := "http://3.22.181.115".

(** [str(e)] for the exceptions of the model: their message. *)
Definition str_exn (e : exn) : string :=
  match e with
  | ValueError msg | IndexError msg | AttributeError msg | ExternalError msg => msg
  end.

(** What the code does with a response of [httpx]. *)
Record HttpResponse : Type := mkHttpResponse
  { raise_for_status : Out exn unit;
    json : Out exn Json.t }.

(** The HTTP client and the built-in [str]. *)
Record Http : Type := mkHttp
  { (** entering and leaving [httpx.AsyncClient()] *)
    client_enter : Out exn unit;
    client_exit : Out exn unit;
    (** [client.get(url, ...)] and [client.post(url, ..., json=data)] *)
    http_get : string -> Out exn HttpResponse;
    http_post : string -> Json.t -> Out exn HttpResponse;
    (** [str(data)] *)
    str : Json.t -> string }.

Inductive Step : Type :=
| SvEnter
| SvGet (url : string) (headers : list (string * string)) (timeout : nat)
| SvPost (url : string) (headers : list (string * string)) (body : Json.t) (timeout : nat)
| SvPrint (msg : string)
| SvExit.

Definition headers : list (string * string) :=
  [("accept", "application/json"); ("Content-Type", "application/json")].

(** Lines 14-30.  [None] is [JNull]. *)
Definition make_request (h : Http) (url method : string) (data : Json.t)
  : W Step exn Json.t :=
  with_context SvEnter (client_enter h) SvExit (client_exit h)
    (try_except
       (response <~
          (if String.eqb method "GET"
           then perform (SvGet url headers 30) (http_get h url)
           else perform (SvPost url headers data 30) (http_post h url data)) ;;
        lift (raise_for_status response) ~;;
        lift (json response))
       (fun e =>
          emit (SvPrint ("Error making request: " ++ str_exn e)%string) ~;;
          ret JNull)).

(** [f"{user_id}"] for [user_id = os.environ.get("USER_ID")]. *)
Definition format_user_id (user_id : option string) : string :=
  match user_id with
  | Some s => s
  | None => "None"
  end.

Definition unable_to_read : string :=
  "Unable to read file. Please check the file path and try again.".

(** Lines 33-46. *)
Definition read_file (h : Http) (user_id : option string) (file_path : string)
  : W Step exn string :=
  let url := (API_BASE ++ "/read_file/" ++ format_user_id user_id
                ++ "?file_path=" ++ file_path)%string in
  data <~ make_request h url "GET" JNull ;;
  if negb (truthy data) then ret unable_to_read
  else ret (str h data).

(** Lines 49-68. *)
Definition retrieve_metadata (h : Http) (user_id : option string)
    (metadata_type file_name : string) : W Step exn string :=
  let url := (API_BASE ++ "/retrieve_metadata/" ++ format_user_id user_id)%string in
  let data := JDict [("metadata_type", JStr metadata_type);
                     ("file_name", JStr file_name)] in
  response <~ make_request h url "POST" data ;;
  if negb (truthy response)
  then ret ("Unable to retrieve " ++ metadata_type
              ++ " metadata. Please check the parameters and try again.")%string
  else ret (str h response).

(** The default of the parameter [file_name]. *)
Definition any_file_name : string := "*".

(** [os.environ.get(name)] in a process launched with the environment [env]. *)
Fixpoint environ_get (env : list (string * string)) (name : string) : option string :=
  match env with
  | [] => None
  | (k, v) :: rest => if String.eqb k name then Some v else environ_get rest name
  end.

Definition is_get (s : Step) : bool :=
  match s with SvGet _ _ _ => true | _ => false end.
Definition is_post (s : Step) : bool :=
  match s with SvPost _ _ _ _ => true | _ => false end.

End Server.

(** ** main.py: the Salesforce OAuth flow *)

From Stdlib Require DecimalString.

Module OAuth.
Import Eff Json.

(** [str(n)] for a natural number. *)
Definition str_nat (n : nat) : string :=
  DecimalString.NilEmpty.string_of_uint (Nat.to_uint n).

(** The exceptions of the flow: FastAPI's [HTTPException], [httpx.ReadTimeout],
    and any other [Exception], by the name of its class. *)
Inductive exc : Type :=
| HTTPException (status_code : nat) (detail : string)
| ReadTimeout (msg : string)
| Error (class msg : string).

(** A response of [httpx]: the attributes and methods the code reads. *)
Record Response : Type := mkResponse
  { status_code : nat;
    json : Out exc Json.t;
    headers_repr : string;
    text : string }.

(** The settings of [config.settings], the codecs and built-ins the flow
    uses, and the services it talks to. *)
Record Web : Type := mkWeb
  { CLIENT_ID : string;
    CLIENT_SECRET : string;
    REDIRECT_URI : string;
    FRONTEND_URL : string;
    (** [base64.b64encode(json.dumps(d).encode()).decode()] *)
    encode_state : Json.t -> string;
    (** [json.loads(base64.b64decode(s.encode()).decode())] *)
    decode_state : string -> Out exc Json.t;
    (** [str(httpx.QueryParams(params))] *)
    query_string : list (string * string) -> string;
    (** [str(x)] for a JSON value, [str(e)], [type(e)] and
        [traceback.format_exc()] for an exception *)
    str_json : Json.t -> string;
    str_exc : exc -> string;
    type_repr : exc -> string;
    format_exc : exc -> string;
    (** entering and leaving the [k]-th [httpx.AsyncClient] of a request *)
    client_enter : nat -> Out exc unit;
    client_exit : nat -> Out exc unit;
    (** [client.post(token_url, data=token_data)] *)
    token_post : string -> list (string * string) -> Out exc Response;
    (** [db.update_user_salesforce_tokens(user_id, access, refresh, instance)] *)
    db_update : Json.t -> Json.t -> Json.t -> Json.t -> Out exc unit;
    (** [client.post(url, headers=headers, json={})] on the given attempt *)
    new_user_post : nat -> string -> Out exc Response }.

Inductive Step : Type :=
| OaEnter (k : nat)
| OaExit (k : nat)
| OaTokenPost (url : string) (data : list (string * string))
| OaDbUpdate (user_id access_token refresh_token instance_url : Json.t)
| OaNewUserPost (url : string) (headers : list (string * string))
| OaSleep (seconds : nat)
| OaPrint (msg : string).

Definition API_BASE : string := "http://3.22.181.115".

(** [d[key]] for a dictionary of strings. *)
Fixpoint getitem (d : list (string * string)) (key : string) : Out exc string :=
  match d with
  | [] => Exc (Error "KeyError" key)
  | (k, v) :: rest => if String.eqb k key then Val v else getitem rest key
  end.

(** The name of the type of a JSON value, for the message of an
    [AttributeError]. *)
Definition type_name (j : Json.t) : string :=
  match j with
  | JNull => "NoneType"
  | JBool _ => "bool"
  | JInt _ => "int"
  | JStr _ => "str"
  | JList _ => "list"
  | JDict _ => "dict"
  end.

Fixpoint lookup (l : list (string * Json.t)) (key : string) : Json.t :=
  match l with
  | [] => JNull
  | (k, v) :: rest => if String.eqb k key then v else lookup rest key
  end.

(** [x.get(key)]: the value, or [None], for a dictionary (whose keys are
    distinct); an [AttributeError] for any other value. *)
Definition get (x : Json.t) (key : string) : Out exc Json.t :=
  match x with
  | JDict l => Val (lookup l key)
  | _ => Exc (Error "AttributeError"
                ("'" ++ type_name x ++ "' object has no attribute 'get'"))
  end.

(** [x == "sandbox"] for a JSON value. *)
Definition is_sandbox (environment : Json.t) : bool :=
  match environment with
  | JStr s => String.eqb s "sandbox"
  | _ => false
  end.

(** Lines 41-51. *)
Definition get_salesforce_urls (environment : Json.t) : list (string * string) :=
  if is_sandbox environment then
    [("auth_url", "https://test.salesforce.com/services/oauth2/authorize");
     ("token_url", "https://test.salesforce.com/services/oauth2/token")]
  else
    [("auth_url", "https://login.salesforce.com/services/oauth2/authorize");
     ("token_url", "https://login.salesforce.com/services/oauth2/token")].

(** Lines 53-71: the URL of the redirect response. *)
Definition connect_to_salesforce (w : Web) (environment userId : string)
  : W Step exc string :=
  let state_data := JDict [("userId", JStr userId); ("environment", JStr environment)] in
  let state := encode_state w state_data in
  let params := [("response_type", "code");
                 ("client_id", CLIENT_ID w);
                 ("redirect_uri", REDIRECT_URI w);
                 ("scope", "full refresh_token");
                 ("state", state)] in
  let urls := get_salesforce_urls (JStr environment) in
  auth_url <~ lift (getitem urls "auth_url") ;;
  ret (auth_url ++ "?" ++ query_string w params)%string.

(** [f"{x}"] for a JSON value. *)
Definition format (w : Web) (x : Json.t) : string :=
  match x with
  | JStr s => s
  | _ => str_json w x
  end.

(** [not x] for an optional query parameter. *)
Definition missing (x : option string) : bool :=
  match x with
  | None => true
  | Some s => String.eqb s ""
  end.

Definition headers : list (string * string) :=
  [("accept", "application/json"); ("Content-Type", "application/json")].

Definition headers_text : string :=
  "{'accept': 'application/json', 'Content-Type': 'application/json'}".

Definition print (msg : string) : W Step exc unit := emit (OaPrint msg).

(** Lines 125-154: the iterations of [for attempt in range(3)] that are
    left, [attempts] being the values of [attempt] still to come. *)
Fixpoint new_user_attempts (w : Web) (url : string) (attempts : list nat)
  : W Step exc unit :=
  match attempts with
  | [] => ret tt
  | attempt :: rest =>
      match new_user_post w attempt url with
      | Val new_user_response =>
          emit (OaNewUserPost url headers) ~;;
          print ("Response status: " ++ str_nat (status_code new_user_response)) ~;;
          print ("Response headers: " ++ headers_repr new_user_response) ~;;
          print ("Response content: " ++ text new_user_response) ~;;
          if Nat.eqb (status_code new_user_response) 200 then ret tt
          else if Nat.leb 500 (status_code new_user_response) then
            print ("Server error, attempt " ++ str_nat (attempt + 1) ++ " of 3") ~;;
            (if Nat.ltb attempt 2 then emit (OaSleep 1) else ret tt) ~;;
            new_user_attempts w url rest
          else
            print ("Warning: Failed to call new_user endpoint: "
                     ++ str_nat (status_code new_user_response)) ~;;
            print ("Response content: " ++ text new_user_response) ~;;
            ret tt
      | Exc (ReadTimeout msg) =>
          emit (OaNewUserPost url headers) ~;;
          print ("Timeout on attempt " ++ str_nat (attempt + 1) ++ " of 3") ~;;
          (if Nat.ltb attempt 2 then emit (OaSleep 1) else ret tt) ~;;
          new_user_attempts w url rest
      | Exc e =>
          emit (OaNewUserPost url headers) ~;;
          print ("Unexpected error on attempt " ++ str_nat (attempt + 1) ++ ": "
                   ++ str_exc w e) ~;;
          ret tt
      end
  end.

(** Lines 115-160: the call of the [new_user] endpoint, whose failures are
    printed and dropped. *)
Definition call_new_user (w : Web) (user_id : Json.t) : W Step exc unit :=
  let url := (API_BASE ++ "/new_user/" ++ format w user_id)%string in
  try_except
    (print ("Making request to: " ++ url) ~;;
     print ("With headers: " ++ headers_text) ~;;
     with_context (OaEnter 1) (client_enter w 1) (OaExit 1) (client_exit w 1)
       (new_user_attempts w url [0; 1; 2]))
    (fun e =>
       print ("Warning: Error calling new_user endpoint: " ++ str_exc w e) ~;;
       print ("Error type: " ++ type_repr w e) ~;;
       print ("Traceback: " ++ format_exc w e) ~;;
       ret tt).

(** Lines 81-90: the user id and the environment held by the state. *)
Definition read_state (w : Web) (state : string) : W Step exc (Json.t * Json.t) :=
  try_except
    (state_data <~ lift (decode_state w state) ;;
     user_id <~ lift (get state_data "userId") ;;
     environment <~ lift (get state_data "environment") ;;
     if negb (truthy user_id) || negb (truthy environment)
     then raise (HTTPException 400 "Invalid state parameter")
     else ret (user_id, environment))
    (fun e => raise (HTTPException 400 ("Invalid state parameter: " ++ str_exc w e))).

Definition token_data (w : Web) (code : string) : list (string * string) :=
  [("grant_type", "authorization_code");
   ("client_id", CLIENT_ID w);
   ("client_secret", CLIENT_SECRET w);
   ("redirect_uri", REDIRECT_URI w);
   ("code", code)].

(** The string of a query parameter that is not missing. *)
Definition value (x : option string) : string :=
  match x with
  | Some s => s
  | None => ""
  end.

(** Lines 73-162: the URL of the redirect response. *)
Definition oauth_callback (w : Web) (code state : option string)
  : W Step exc string :=
  if missing code || missing state
  then raise (HTTPException 400 "Missing required parameters")
  else
    let code := value code in
    let state := value state in
    state_data <~ read_state w state ;;
    let user_id := fst state_data in
    let environment := snd state_data in
    let urls := get_salesforce_urls environment in
    with_context (OaEnter 0) (client_enter w 0) (OaExit 0) (client_exit w 0)
      (token_url <~ lift (getitem urls "token_url") ;;
       response <~ perform (OaTokenPost token_url (token_data w code))
                     (token_post w token_url (token_data w code)) ;;
       if negb (Nat.eqb (status_code response) 200)
       then raise (HTTPException 400 "Failed to obtain access token")
       else
         token_response <~ lift (json response) ;;
         access_token <~ lift (get token_response "access_token") ;;
         refresh_token <~ lift (get token_response "refresh_token") ;;
         instance_url <~ lift (get token_response "instance_url") ;;
         perform (OaDbUpdate user_id access_token refresh_token instance_url)
           (db_update w user_id access_token refresh_token instance_url) ~;;
         call_new_user w user_id ~;;
         ret (FRONTEND_URL w ++ "/excel-tasks")%string).

Definition is_new_user_post (s : Step) : bool :=
  match s with OaNewUserPost _ _ => true | _ => false end.
Definition is_sleep (s : Step) : bool :=
  match s with OaSleep _ => true | _ => false end.
Definition is_db_update (s : Step) : bool :=
  match s with OaDbUpdate _ _ _ _ => true | _ => false end.
Definition is_token_post (s : Step) : bool :=
  match s with OaTokenPost _ _ => true | _ => false end.

End OAuth.

(** Vocabulary of the OAuth flow. *)
Module Flow.
Import Eff Json OAuth.

(** The attempt is tried again: the endpoint answered with a status of 500
    or more, or the request timed out. *)
Definition retryable (r : Out exc Response) : bool :=
  match r with
  | Val response =>
      negb (Nat.eqb (status_code response) 200) && Nat.leb 500 (status_code response)
  | Exc (ReadTimeout _) => true
  | Exc _ => false
  end.

Definition times (p : Step -> bool) (l : list Step) : nat :=
  List.length (filter p l).

(** The state holds a user id and an environment that count as true. *)
Definition state_holds (w : Web) (state : string) (user_id environment : Json.t) : Prop :=
  exists d,
    decode_state w state = Val (JDict d) /\
    user_id = lookup d "userId" /\
    environment = lookup d "environment" /\
    truthy user_id = true /\
    truthy environment = true.

Definition token_url_of (environment : Json.t) : string :=
  if is_sandbox environment
  then "https://test.salesforce.com/services/oauth2/token"
  else "https://login.salesforce.com/services/oauth2/token".

Definition auth_url_of (environment : Json.t) : string :=
  if is_sandbox environment
  then "https://test.salesforce.com/services/oauth2/authorize"
  else "https://login.salesforce.com/services/oauth2/authorize".

End Flow.

(** Stub services for the OAuth flow. *)
Module WebCases.
Import Eff Json OAuth.

Definition answer (status : nat) (body : Json.t) : Response :=
  mkResponse status (Val body) "Headers({})" "".

Definition tokens : Json.t :=
  JDict [("access_token", JStr "00D...");
         ("refresh_token", JStr "5Aep...");
         ("instance_url", JStr "https://na1.salesforce.com")].

(** A toy codec for the state: the user id and the environment joined by a
    bar; it decodes what it encoded for the one state the examples use. *)
Definition encode (d : Json.t) : string :=
  match d with
  | JDict [(_, JStr u); (_, JStr e)] => (u ++ "|" ++ e)%string
  | _ => "?"
  end.

Definition decode (s : string) : Out exc Json.t :=
  if String.eqb s "u1|sandbox"
  then Val (JDict [("userId", JStr "u1"); ("environment", JStr "sandbox")])
  else Exc (Error "JSONDecodeError" "Expecting value").

Definition show_exc (e : exc) : string :=
  match e with
  | HTTPException status detail => detail
  | ReadTimeout msg => msg
  | Error class msg => msg
  end.

(** Services where the token exchange answers with [token_status] and the
    [new_user] endpoint answers its attempts as [new_user] says. *)
Definition web (token_status : nat) (new_user : nat -> Out exc Response) : Web :=
  {| CLIENT_ID := "client";
     CLIENT_SECRET := "secret";
     REDIRECT_URI := "https://api.example.com/oauth/callback";
     FRONTEND_URL := "https://app.example.com";
     encode_state := encode;
     decode_state := decode;
     query_string := fun params => "response_type=code";
     str_json := fun _ => "1";
     str_exc := show_exc;
     type_repr := fun _ => "<class 'Exception'>";
     format_exc := show_exc;
     client_enter := fun _ => Val tt;
     client_exit := fun _ => Val tt;
     token_post := fun _ _ => Val (answer token_status tokens);
     db_update := fun _ _ _ _ => Val tt;
     new_user_post := fun attempt _ => new_user attempt |}.

(** The endpoint is down twice, then answers. *)
Definition recovering (attempt : nat) : Out exc Response :=
  match attempt with
  | 0 => Val (answer 503 JNull)
  | 1 => Exc (ReadTimeout "timed out")
  | _ => Val (answer 200 JNull)
  end.

(** The endpoint refuses the request. *)
Definition refusing (attempt : nat) : Out exc Response :=
  Val (answer 404 JNull).

End WebCases.

(** The request [make_request] sends, and what the service answers. *)
Definition request_step (url method : string) (data : Json.t) : Server.Step :=
  if String.eqb method "GET" then Server.SvGet url Server.headers 30
  else Server.SvPost url Server.headers data 30.

Definition response_to (h : Server.Http) (url method : string) (data : Json.t)
  : Eff.Out exn Server.HttpResponse :=
  if String.eqb method "GET" then Server.http_get h url
  else Server.http_post h url data.

(** The request was answered with a response whose status is no error and
    whose body parses to [j]. *)
Definition answered (r : Eff.Out exn Server.HttpResponse) (j : Json.t) : Prop :=
  exists response,
    r = Eff.Val response /\
    Server.raise_for_status response = Eff.Val tt /\
    Server.json response = Eff.Val j.

(** The request, the check of the status or the parsing of the body raised
    [e]. *)
Definition failed (r : Eff.Out exn Server.HttpResponse) (e : exn) : Prop :=
  r = Eff.Exc e \/
  exists response,
    r = Eff.Val response /\
    (Server.raise_for_status response = Eff.Exc e \/
     (Server.raise_for_status response = Eff.Val tt /\
      Server.json response = Eff.Exc e)).

(** Stub HTTP services for the tools. *)
Module HttpCases.
Import Eff Json Server.

Definition ok (body : Json.t) : HttpResponse :=
  mkHttpResponse (Val tt) (Val body).

Definition not_found : HttpResponse :=
  mkHttpResponse (Exc (ExternalError "Client error '404 Not Found'")) (Val JNull).

(** [str] for the values the stubs return. *)
Definition show (j : Json.t) : string :=
  match j with
  | JStr s => s
  | JDict [] => "{}"
  | _ => "{'content': 'hello'}"
  end.

(** A service that answers every request with [body]. *)
Definition serving (body : Json.t) : Http :=
  mkHttp (Val tt) (Val tt) (fun _ => Val (ok body)) (fun _ _ => Val (ok body)) show.

(** A service that answers every request with status 404. *)
Definition missing : Http :=
  mkHttp (Val tt) (Val tt) (fun _ => Val not_found) (fun _ _ => Val not_found) show.

End HttpCases.

(** * Properties *)

(** ** Counting steps *)

Lemma count_cons p e l :
  count p (e :: l) = if p e then S (count p l) else count p l.
Proof. unfold count; cbn. now destruct (p e). Qed.

Lemma count_app p l1 l2 : count p (l1 ++ l2) = count p l1 + count p l2.
Proof. unfold count. now rewrite filter_app, length_app. Qed.

Lemma count_rev p l : count p (rev l) = count p l.
Proof.
  induction l as [|e l IH]; [reflexivity|].
  cbn [rev]. rewrite count_app, IH, !count_cons. unfold count at 2; cbn.
  destruct (p e); lia.
Qed.

(** Evaluate the counters over the known steps at the head of a log. *)
Ltac counts :=
  cbn [log started asked_gateway asked_catalog asked_prompt asked_summary printed
       push add_final after_round after_call];
  repeat rewrite count_cons;
  cbn [is_create is_call_tool is_list_tools is_aclose is_loop_create
       is_summary_create get_system_prompt tool_use_detected].

(** ** The scan of one response *)

Lemma add_final_nil st : add_final st [] = st.
Proof. destruct st; unfold add_final; cbn. now rewrite app_nil_r. Qed.

Lemma add_final_app st l1 l2 :
  add_final (add_final st l1) l2 = add_final st (l1 ++ l2).
Proof. unfold add_final; cbn. now rewrite app_assoc. Qed.

Section Scan.
Variable w : World.
Variable available_tools : list ToolParam.

(** Blocks before the first tool call only feed the pending turn and
    [final_text]. *)
Lemma for_content_texts pre : forall rest pending st,
  existsb is_tool_use pre = false ->
  for_content w available_tools (pre ++ rest) pending st =
  for_content w available_tools rest (pending ++ text_params pre)
    (add_final st (text_entries pre)).
Proof.
  induction pre as [|b pre IH]; intros rest pending st Hpre; cbn [app].
  - cbn. now rewrite app_nil_r, add_final_nil.
  - cbn in Hpre. apply orb_false_iff in Hpre as [Hb Hpre].
    destruct b as [text|id name input|ty]; try discriminate; cbn.
    + rewrite IH by assumption.
      rewrite <- app_assoc. cbn [app].
      f_equal. apply (add_final_app st [FinalTextBlock text]).
    + now apply IH.
Qed.

(** A response without tool call runs into the [else] clause. *)
Lemma for_content_tool_free blocks pending st :
  existsb is_tool_use blocks = false ->
  for_content w available_tools blocks pending st =
  (Ret ForElse, add_final st (text_entries blocks)).
Proof.
  intros H. rewrite <- (app_nil_r blocks) at 1.
  now rewrite for_content_texts.
Qed.

(** The branch of a tool call, by the outcomes of the two calls it makes. *)
Lemma for_content_tool_use id name input rest pending st :
  for_content w available_tools (ToolUseBlock id name input :: rest) pending st =
  match call_tool w (count is_call_tool (log st)) name input with
  | Ret result =>
      let st' := after_round st available_tools pending id name input result in
      match messages_create w (count is_create (log st))
              (loop_request (messages st') available_tools) with
      | Ret response => (Ret (ForBreak response), st')
      | Raise e => (Raise e, st')
      | Diverge => (Diverge, st')
      end
  | Raise e => (Raise e, after_call st name input)
  | Diverge => (Diverge, after_call st name input)
  end.
Proof.
  cbn. unfold bind, emit, session_call_tool, perform, final_text_append,
    messages_append, get_messages, create, perform, ret; cbn.
  destruct (call_tool w _ name input) as [result|e|]; try reflexivity.
  cbn. unfold after_round, assistant_turn, tool_result_turn; cbn.
  rewrite <- app_assoc; cbn [app].
  destruct (messages_create w _ _) as [response|e|]; reflexivity.
Qed.

End Scan.

Lemma first_tool_use_split blocks :
  existsb is_tool_use blocks = true ->
  exists pre id name input rest,
    blocks = pre ++ ToolUseBlock id name input :: rest /\
    existsb is_tool_use pre = false.
Proof.
  induction blocks as [|b blocks IH]; cbn; intros H; [discriminate|].
  destruct b as [text|id name input|ty]; cbn in H.
  - destruct (IH H) as (pre & id & name & input & rest & -> & Hpre).
    now exists (TextBlock text :: pre), id, name, input, rest.
  - now exists [], id, name, input, blocks.
  - destruct (IH H) as (pre & id & name & input & rest & -> & Hpre).
    now exists (OtherBlock ty :: pre), id, name, input, rest.
Qed.

Lemma events_after_call st name input :
  events (after_call st name input) =
  events st ++ [tool_use_detected name; EvCallTool name input].
Proof. unfold events; cbn. now rewrite <- app_assoc. Qed.

Lemma events_after_round st available_tools pending id name input result :
  events (after_round st available_tools pending id name input result) =
  events st ++
    [tool_use_detected name; EvCallTool name input;
     EvTranscript (assistant_turn pending id name input);
     EvTranscript (tool_result_turn id result);
     EvCreate (loop_request
                 (messages st ++ [assistant_turn pending id name input;
                                  tool_result_turn id result])
                 available_tools)].
Proof. unfold events; cbn. now rewrite <- !app_assoc. Qed.

(** ** One iteration of the loop *)

Section Iteration.
Variable w : World.
Variable available_tools : list ToolParam.

Lemma while_true_tool_free fuel response st :
  has_tool_use response = false ->
  while_true (S fuel) w available_tools response st =
  (Ret tt, add_final st (text_entries (resp_content response))).
Proof.
  intros H. cbn. unfold bind.
  now rewrite for_content_tool_free.
Qed.

Lemma while_true_tool_use fuel response st pre id name input rest :
  resp_content response = pre ++ ToolUseBlock id name input :: rest ->
  existsb is_tool_use pre = false ->
  while_true (S fuel) w available_tools response st =
  match call_tool w (count is_call_tool (log st)) name input with
  | Ret result =>
      let st' := after_round (add_final st (text_entries pre)) available_tools
                   (text_params pre) id name input result in
      match messages_create w (count is_create (log st))
              (loop_request (messages st') available_tools) with
      | Ret response' => while_true fuel w available_tools response' st'
      | Raise e => (Raise e, st')
      | Diverge => (Diverge, st')
      end
  | Raise e => (Raise e, after_call (add_final st (text_entries pre)) name input)
  | Diverge => (Diverge, after_call (add_final st (text_entries pre)) name input)
  end.
Proof.
  intros Hc Hpre. cbn [while_true]. unfold bind at 1.
  rewrite Hc, for_content_texts by assumption.
  rewrite for_content_tool_use. cbn [add_final log app].
  destruct (call_tool w _ name input) as [result|e|]; try reflexivity.
  cbv zeta.
  destruct (messages_create w _ _) as [response'|e|]; reflexivity.
Qed.

End Iteration.

(** C2, as the code has it.  When a response of the gateway contains
    tool-invocation requests, the iteration executes the first of them and
    nothing after it: whatever blocks [rest] follow the first [tool_use]
    block, the first step is the call of the tool with the arguments of that
    block.  When the call returns, the transcript grows by the pending
    assistant turn (the text blocks met so far and the [tool_use] block) and
    by a user turn whose only block is the [tool_result] carrying the
    identifier of the request, and the next step is the next gateway call,
    on which the loop goes on.  When the call raises, the iteration ends
    there with that exception: no turn is appended and no gateway call
    follows; when it does not return, neither does the iteration. *)
Theorem first_tool_use_only
    (fuel : nat) (w : World) (available_tools : list ToolParam)
    (response : Response) (st : St)
    (pre : list ContentBlock) (id name : string) (input : Args)
    (rest : list ContentBlock) :
  resp_content response = pre ++ ToolUseBlock id name input :: rest ->
  existsb is_tool_use pre = false ->
  (forall result,
      call_tool w (count is_call_tool (log st)) name input = Ret result ->
      exists st',
        let a := mkMessage assistant
                   (Blocks (text_params pre ++ [BlockParam (ToolUseBlock id name input)])) in
        let u := mkMessage user (Blocks [ToolResultParam id (result_content result)]) in
        let next := loop_request (messages st ++ [a; u]) available_tools in
        messages st' = messages st ++ [a; u] /\
        events st' =
          events st ++ [EvLogInfo ("Tool use detected: " ++ name)%string;
                        EvCallTool name input;
                        EvTranscript a; EvTranscript u; EvCreate next] /\
        while_true (S fuel) w available_tools response st =
          match messages_create w (count is_create (log st)) next with
          | Ret response' => while_true fuel w available_tools response' st'
          | Raise e => (Raise e, st')
          | Diverge => (Diverge, st')
          end) /\
  (forall e,
      call_tool w (count is_call_tool (log st)) name input = Raise e ->
      exists st',
        while_true (S fuel) w available_tools response st = (Raise e, st') /\
        messages st' = messages st /\
        events st' =
          events st ++ [EvLogInfo ("Tool use detected: " ++ name)%string;
                        EvCallTool name input]) /\
  (call_tool w (count is_call_tool (log st)) name input = Diverge ->
   fst (while_true (S fuel) w available_tools response st) = Diverge).
Proof.
  intros Hc Hpre.
  pose proof (while_true_tool_use w available_tools fuel response st
                pre id name input rest Hc Hpre) as Hstep.
  split; [|split].
  - intros result Hcall.
    exists (after_round (add_final st (text_entries pre)) available_tools
              (text_params pre) id name input result).
    cbv zeta. split; [reflexivity|]. split.
    + now rewrite events_after_round.
    + now rewrite Hstep, Hcall.
  - intros e Hcall.
    exists (after_call (add_final st (text_entries pre)) name input).
    split; [now rewrite Hstep, Hcall|].
    split; [reflexivity|now rewrite events_after_call].
  - intros Hcall. now rewrite Hstep, Hcall.
Qed.

Lemma first_tool_use_only_witness :
  let w := Stub.world (Stub.scripted [] Stub.done_turn) Stub.hello in
  let pre := [TextBlock "Let me look at the file."] in
  let rest := [ToolUseBlock "toolu_02" "retrieve_metadata" [("metadata_type", "Flow")]] in
  let input := [("file_path", "/a.txt")] in
  let a := mkMessage assistant
             (Blocks [BlockParam (TextBlock "Let me look at the file.");
                      BlockParam (ToolUseBlock "toolu_01" "read_file" input)]) in
  let u := mkMessage user (Blocks [ToolResultParam "toolu_01" ["hello"]]) in
  resp_content Stub.two_tool_calls = pre ++ ToolUseBlock "toolu_01" "read_file" input :: rest /\
  existsb is_tool_use pre = false /\
  call_tool w 0 "read_file" input = Ret (mkCallToolResult false ["hello"]) /\
  exists st',
    messages st' = [a; u] /\
    events st' =
      [EvLogInfo "Tool use detected: read_file"; EvCallTool "read_file" input;
       EvTranscript a; EvTranscript u; EvCreate (loop_request [a; u] [])] /\
    while_true 2 w [] Stub.two_tool_calls initial = while_true 1 w [] Stub.done_turn st'.
Proof.
  cbv zeta. split; [reflexivity|]. split; [reflexivity|]. split; [reflexivity|].
  exact (proj1 (first_tool_use_only 1
                  (Stub.world (Stub.scripted [] Stub.done_turn) Stub.hello) []
                  Stub.two_tool_calls initial
                  [TextBlock "Let me look at the file."] "toolu_01" "read_file"
                  [("file_path", "/a.txt")]
                  [ToolUseBlock "toolu_02" "retrieve_metadata" [("metadata_type", "Flow")]]
                  eq_refl eq_refl)
           (mkCallToolResult false ["hello"]) eq_refl).
Defined.

(** C2, as it is stated, fails: the gateway answers the query with a turn
    that holds two tool-invocation requests, and the invocation of the first
    tool raises.  The run ends with that exception right after the call: the
    transcript is still the query alone, with no assistant turn and no
    [tool_result] turn, and no further gateway call is made. *)
Lemma tool_request_leaves_no_turn :
  let w := Stub.world (Stub.scripted [Stub.two_tool_calls; Stub.done_turn] Stub.summary_turn)
             Stub.failing in
  let run := process_query 2 w "list files" initial in
  has_tool_use Stub.two_tool_calls = true /\
  fst run = Raise (ExternalError "tool failed") /\
  messages (snd run) = [query_turn "list files"] /\
  count is_create (events (snd run)) = 1 /\
  count is_call_tool (events (snd run)) = 1.
Proof. cbv zeta. repeat split. Qed.

(** ** The whole conversation *)

Section Conversation.
Variable w : World.

(** [conversation] by the outcomes of the calls before the loop. *)
Lemma conversation_eq fuel query st :
  conversation fuel w query st =
  match get_prompt w "analysis_system_prompt" with
  | Ret _ =>
      match list_tools w (count is_list_tools (log st)) with
      | Ret ts =>
          match messages_create w (count is_create (log st))
                  (loop_request [query_turn query] (catalog ts)) with
          | Ret response =>
              while_true fuel w (catalog ts) response (started st query (catalog ts))
          | Raise e => (Raise e, asked_gateway st query (catalog ts))
          | Diverge => (Diverge, asked_gateway st query (catalog ts))
          end
      | Raise e => (Raise e, asked_catalog st query)
      | Diverge => (Diverge, asked_catalog st query)
      end
  | Raise e => (Raise e, asked_prompt st)
  | Diverge => (Diverge, asked_prompt st)
  end.
Proof.
  unfold conversation, bind, session_get_prompt, session_list_tools, set_messages,
    get_messages, create, reset_final_text, perform; cbn.
  destruct (get_prompt w _) as [p|e|]; reflexivity.
Qed.

(** [summarize] by the outcome of the summary call. *)
Lemma summarize_eq query st :
  summarize w query st =
  match messages_create w (count is_create (log st))
          (summary_request query (messages st)) with
  | Ret response_summary =>
      match resp_content response_summary with
      | [] => (Raise (IndexError "list index out of range"), asked_summary st query)
      | TextBlock response_text :: _ =>
          (Ret response_text, printed st query response_text)
      | _ :: _ => (Raise (AttributeError "text"), asked_summary st query)
      end
  | Raise e => (Raise e, asked_summary st query)
  | Diverge => (Diverge, asked_summary st query)
  end.
Proof.
  unfold summarize, bind, get_messages, create, perform; cbn.
  destruct (messages_create w _ _) as [r|e|]; try reflexivity.
  destruct (resp_content r) as [|[text|id name input|ty] more]; reflexivity.
Qed.

Lemma process_query_eq fuel query st :
  process_query fuel w query st =
  match conversation fuel w query st with
  | (Ret _, st') => summarize w query st'
  | (Raise e, st') => (Raise e, st')
  | (Diverge, st') => (Diverge, st')
  end.
Proof. reflexivity. Qed.

End Conversation.

(** ** The scenario of the specification *)

(** C1.  A catalog with the one tool [read_file]; the gateway answers its
    first call with the one request [read_file({file_path: "/a.txt"})], its
    second call with the text [done] and its third call with the summary;
    the registry returns [hello].  Then [process_query] calls the gateway
    twice in the loop and once for the summary, calls [read_file] once, and
    returns the text of the summary. *)
Theorem scenario_read_file
    (fuel : nat) (w : World) (st : St) (tool : Tool) (prompt : GetPromptResult)
    (turn1 turn2 summary : Response) (id : string) (result : CallToolResult)
    (response_text : string) (more : list ContentBlock) :
  get_prompt w "analysis_system_prompt" = Ret prompt ->
  list_tools w (count is_list_tools (log st)) = Ret [tool] ->
  tool_name tool = "read_file" ->
  (forall req, messages_create w (count is_create (log st)) req = Ret turn1) ->
  resp_content turn1 = [ToolUseBlock id "read_file" [("file_path", "/a.txt")]] ->
  (forall req, messages_create w (1 + count is_create (log st)) req = Ret turn2) ->
  resp_content turn2 = [TextBlock "done"] ->
  (forall req, messages_create w (2 + count is_create (log st)) req = Ret summary) ->
  resp_content summary = TextBlock response_text :: more ->
  call_tool w (count is_call_tool (log st)) "read_file" [("file_path", "/a.txt")]
    = Ret result ->
  result_content result = ["hello"] ->
  exists st' new,
    process_query (S (S fuel)) w "list files" st = (Ret response_text, st') /\
    events st' = events st ++ new /\
    count is_loop_create new = 2 /\
    count is_summary_create new = 1 /\
    filter is_call_tool new = [EvCallTool "read_file" [("file_path", "/a.txt")]].
Proof.
  intros Hprompt Hcatalog Hname H1 Hc1 H2 Hc2 H3 Hc3 Hcall Hhello.
  rewrite process_query_eq, conversation_eq, Hprompt, Hcatalog, H1.
  rewrite (while_true_tool_use w _ (S fuel) turn1 _ [] id "read_file"
             [("file_path", "/a.txt")] []) by (assumption || reflexivity).
  counts. rewrite Hcall. cbv zeta.
  rewrite (H2 _ : messages_create w (S (count is_create (log st))) _ = _).
  rewrite while_true_tool_free by (unfold has_tool_use; now rewrite Hc2).
  rewrite summarize_eq. counts.
  rewrite (H3 _ : messages_create w (S (S (count is_create (log st)))) _ = _), Hc3.
  eexists; eexists. split; [reflexivity|].
  unfold events.
  cbn [printed asked_summary push log rev add_final after_round started
       asked_gateway asked_catalog asked_prompt].
  rewrite <- !app_assoc. cbn [app]. split; [reflexivity|].
  repeat split.
Qed.

Lemma scenario_read_file_witness :
  exists st' new,
    process_query 2 (Stub.scenario Stub.summary_turn) "list files" initial =
      (Ret "The file says hello.", st') /\
    events st' = events initial ++ new /\
    count is_loop_create new = 2 /\
    count is_summary_create new = 1 /\
    filter is_call_tool new = [EvCallTool "read_file" [("file_path", "/a.txt")]].
Proof.
  eapply (scenario_read_file 0 (Stub.scenario Stub.summary_turn) initial
            Stub.read_file _ Stub.tool_call_turn Stub.done_turn Stub.summary_turn
            "toolu_01" (mkCallToolResult false ["hello"]) "The file says hello." []);
    reflexivity.
Defined.

(** ** Termination of the loop *)

Section Termination.
Variable w : World.
Variable available_tools : list ToolParam.
Hypothesis tools_return : forall k name args, returns (call_tool w k name args).

(** A turn that requests a tool costs one iteration and one gateway call. *)
Lemma while_true_round (P : Response -> Prop) fuel response st :
  has_tool_use response = true ->
  (forall req, exists response',
      messages_create w (count is_create (log st)) req = Ret response' /\ P response') ->
  exists st' response',
    while_true (S fuel) w available_tools response st =
      while_true fuel w available_tools response' st' /\
    count is_create (log st') = S (count is_create (log st)) /\
    P response'.
Proof.
  intros Hresp Hnext.
  destruct (first_tool_use_split _ Hresp)
    as (pre & id & name & input & rest & Hc & Hpre).
  rewrite (while_true_tool_use w _ fuel response st pre id name input rest Hc Hpre).
  destruct (tools_return (count is_call_tool (log st)) name input) as [result ->].
  cbv zeta.
  match goal with
  | |- context [messages_create w _ ?req] =>
      destruct (Hnext req) as (response' & -> & HP)
  end.
  eexists; exists response'. split; [reflexivity|]. split; [now counts|assumption].
Qed.

Lemma while_true_exits n : forall fuel response st,
  has_tool_use response = true ->
  (forall k, k < n -> tool_call_at w (count is_create (log st) + k)) ->
  tool_free_at w (count is_create (log st) + n) ->
  S n < fuel ->
  exists st',
    while_true fuel w available_tools response st = (Ret tt, st') /\
    count is_create (log st') = count is_create (log st) + S n.
Proof.
  induction n as [|n IH]; intros fuel response st Hresp Hcalls Hfree Hfuel.
  - destruct fuel as [|[|fuel]]; try lia.
    rewrite Nat.add_0_r in Hfree.
    destruct (while_true_round (fun r => has_tool_use r = false) (S fuel)
                response st Hresp Hfree) as (st' & response' & -> & Hcount & Hfree').
    rewrite while_true_tool_free by assumption.
    eexists; split; [reflexivity|]. cbn [add_final log]. lia.
  - destruct fuel as [|fuel]; try lia.
    assert (Hcall : tool_call_at w (count is_create (log st))).
    { rewrite <- (Nat.add_0_r (count _ _)). apply Hcalls. lia. }
    destruct (while_true_round (fun r => has_tool_use r = true) fuel
                response st Hresp Hcall) as (st' & response' & -> & Hcount & Hcall').
    destruct (IH fuel response' st' Hcall') as (st'' & -> & Hcount'').
    + intros k Hk. rewrite Hcount.
      replace (S (count is_create (log st)) + k)
        with (count is_create (log st) + S k) by lia.
      apply Hcalls. lia.
    + rewrite Hcount.
      now replace (S (count is_create (log st)) + n)
        with (count is_create (log st) + S n) by lia.
    + lia.
    + eexists; split; [reflexivity|]. lia.
Qed.

(** While every turn requests a tool, no budget of iterations is enough. *)
Lemma while_true_diverges fuel : forall response st,
  has_tool_use response = true ->
  (forall k, tool_call_at w (count is_create (log st) + k)) ->
  fst (while_true fuel w available_tools response st) = Diverge.
Proof.
  induction fuel as [|fuel IH]; intros response st Hresp Hcalls; [reflexivity|].
  assert (Hcall : tool_call_at w (count is_create (log st))).
  { rewrite <- (Nat.add_0_r (count _ _)). apply Hcalls. }
  destruct (while_true_round (fun r => has_tool_use r = true) fuel
              response st Hresp Hcall) as (st' & response' & -> & Hcount & Hcall').
  apply IH; [assumption|].
  intros k. rewrite Hcount.
  replace (S (count is_create (log st)) + k)
    with (count is_create (log st) + S k) by lia.
  apply Hcalls.
Qed.

End Termination.

Section Failure.
Variable w : World.
Variable available_tools : list ToolParam.

(** After [n] turns whose tool calls return, a tool call that raises ends
    the loop with its exception. *)
Lemma while_true_raises e n : forall fuel response st,
  has_tool_use response = true ->
  (forall k, k < n -> tool_call_at w (count is_create (log st) + k)) ->
  (forall k name args,
      k < n -> returns (call_tool w (count is_call_tool (log st) + k) name args)) ->
  (forall name args,
      call_tool w (count is_call_tool (log st) + n) name args = Raise e) ->
  n < fuel ->
  exists st',
    while_true fuel w available_tools response st = (Raise e, st') /\
    count is_create (log st') = count is_create (log st) + n.
Proof.
  induction n as [|n IH]; intros fuel response st Hresp Hcalls Hret Hraise Hfuel;
    (destruct fuel as [|fuel]; [lia|]);
    destruct (first_tool_use_split _ Hresp)
      as (pre & id & name & input & rest & Hc & Hpre);
    rewrite (while_true_tool_use w _ fuel response st pre id name input rest Hc Hpre).
  - specialize (Hraise name input). rewrite Nat.add_0_r in Hraise. rewrite Hraise.
    eexists; split; [reflexivity|]. counts. lia.
  - destruct (Hret 0 name input) as [result Hresult]; [lia|].
    rewrite Nat.add_0_r in Hresult. rewrite Hresult. cbv zeta.
    assert (Hcall : tool_call_at w (count is_create (log st))).
    { rewrite <- (Nat.add_0_r (count _ _)). apply Hcalls. lia. }
    match goal with
    | |- context [messages_create w _ ?req] =>
        destruct (Hcall req) as (response' & -> & Hresp')
    end.
    match goal with
    | |- context [while_true fuel w available_tools response' ?s] =>
        destruct (IH fuel response' s Hresp') as (st' & -> & Hcount)
    end.
    + intros k Hk. counts.
      replace (S (count is_create (log st)) + k)
        with (count is_create (log st) + S k) by lia.
      apply Hcalls. lia.
    + intros k name' args Hk. counts.
      replace (S (count is_call_tool (log st)) + k)
        with (count is_call_tool (log st) + S k) by lia.
      apply Hret. lia.
    + intros name' args. counts.
      replace (S (count is_call_tool (log st)) + n)
        with (count is_call_tool (log st) + S n) by lia.
      apply Hraise.
    + lia.
    + eexists; split; [reflexivity|]. revert Hcount. counts. lia.
Qed.

End Failure.

(** C3, as the code has it.  While the calls of the registry return: when
    the gateway answers its first [N] calls with turns that request a tool
    and the next call with a turn that requests none, the loop is left after
    [N + 1] gateway calls (any budget above [N] iterations is enough); when
    every answer of the gateway requests a tool, the loop is never left,
    whatever the budget of iterations, and [process_query] does not return.
    A tool call that raises ends the loop as well, with no turn of the
    gateway free of tool requests: when the first [N] tool calls return and
    the next one raises, the loop and [process_query] end with that
    exception after [N + 1] gateway calls. *)
Theorem loop_terminates_iff_tool_free_turn (w : World) (query : string) (st : St) :
  (registry_returns w ->
   (forall N fuel,
       (forall k, k < N -> tool_call_at w (count is_create (log st) + k)) ->
       tool_free_at w (count is_create (log st) + N) ->
       N < fuel ->
       exists st',
         conversation fuel w query st = (Ret tt, st') /\
         count is_create (log st') = count is_create (log st) + N + 1) /\
   ((forall k, tool_call_at w (count is_create (log st) + k)) ->
    forall fuel,
      fst (conversation fuel w query st) = Diverge /\
      fst (process_query fuel w query st) = Diverge)) /\
  (forall N fuel e,
      returns (get_prompt w "analysis_system_prompt") ->
      returns (list_tools w (count is_list_tools (log st))) ->
      (forall k, k <= N -> tool_call_at w (count is_create (log st) + k)) ->
      (forall k name args,
          k < N -> returns (call_tool w (count is_call_tool (log st) + k) name args)) ->
      (forall name args,
          call_tool w (count is_call_tool (log st) + N) name args = Raise e) ->
      N < fuel ->
      exists st',
        conversation fuel w query st = (Raise e, st') /\
        process_query fuel w query st = (Raise e, st') /\
        count is_create (log st') = count is_create (log st) + N + 1).
Proof.
  split.
  - intros (Hprompt & Hcatalog & Htools). split.
    + intros N fuel Hcalls Hfree Hfuel.
      rewrite conversation_eq.
      destruct (Hprompt "analysis_system_prompt") as [p ->].
      destruct (Hcatalog (count is_list_tools (log st))) as [ts ->].
      destruct N as [|N].
      * rewrite Nat.add_0_r in Hfree.
        destruct (Hfree (loop_request [query_turn query] (catalog ts)))
          as (response & -> & Hresp).
        destruct fuel as [|fuel]; [lia|].
        rewrite while_true_tool_free by assumption.
        eexists; split; [reflexivity|]. counts. lia.
      * assert (Hcall : tool_call_at w (count is_create (log st))).
        { rewrite <- (Nat.add_0_r (count _ _)). apply Hcalls. lia. }
        destruct (Hcall (loop_request [query_turn query] (catalog ts)))
          as (response & -> & Hresp).
        destruct (while_true_exits w (catalog ts) Htools N fuel response
                    (started st query (catalog ts)) Hresp) as (st' & -> & Hcount).
        -- intros k Hk. counts.
           replace (S (count is_create (log st)) + k)
             with (count is_create (log st) + S k) by lia.
           apply Hcalls. lia.
        -- counts.
           now replace (S (count is_create (log st)) + N)
             with (count is_create (log st) + S N) by lia.
        -- lia.
        -- eexists; split; [reflexivity|]. revert Hcount. counts. lia.
    + intros Hcalls fuel.
      assert (H : fst (conversation fuel w query st) = Diverge).
      { rewrite conversation_eq.
        destruct (Hprompt "analysis_system_prompt") as [p ->].
        destruct (Hcatalog (count is_list_tools (log st))) as [ts ->].
        assert (Hcall : tool_call_at w (count is_create (log st))).
        { rewrite <- (Nat.add_0_r (count _ _)). apply Hcalls. }
        destruct (Hcall (loop_request [query_turn query] (catalog ts)))
          as (response & -> & Hresp).
        apply (while_true_diverges w (catalog ts) Htools); [assumption|].
        intros k. counts.
        replace (S (count is_create (log st)) + k)
          with (count is_create (log st) + S k) by lia.
        apply Hcalls. }
      split; [assumption|].
      rewrite process_query_eq.
      destruct (conversation fuel w query st) as [[[]|e|] st']; cbn in H;
        try discriminate; reflexivity.
  - intros N fuel e [p Hprompt] [ts Hcatalog] Hcalls Hret Hraise Hfuel.
    assert (H : exists st',
               conversation fuel w query st = (Raise e, st') /\
               count is_create (log st') = count is_create (log st) + N + 1).
    { rewrite conversation_eq, Hprompt, Hcatalog.
      assert (Hcall : tool_call_at w (count is_create (log st))).
      { rewrite <- (Nat.add_0_r (count _ _)). apply Hcalls. lia. }
      destruct (Hcall (loop_request [query_turn query] (catalog ts)))
        as (response & -> & Hresp).
      destruct (while_true_raises w (catalog ts) e N fuel response
                  (started st query (catalog ts)) Hresp) as (st' & -> & Hcount).
      - intros k Hk. counts.
        replace (S (count is_create (log st)) + k)
          with (count is_create (log st) + S k) by lia.
        apply Hcalls. lia.
      - intros k name args Hk. counts. now apply Hret.
      - intros name args. counts. apply Hraise.
      - assumption.
      - eexists; split; [reflexivity|]. revert Hcount. counts. lia. }
    destruct H as (st' & Hconv & Hcount).
    exists st'. split; [assumption|]. split; [|assumption].
    now rewrite process_query_eq, Hconv.
Qed.

Lemma stub_registry_returns gateway :
  registry_returns (Stub.world gateway Stub.hello).
Proof. repeat split; intros; eexists; reflexivity. Qed.

Lemma loop_terminates_iff_tool_free_turn_witness :
  let always := Stub.world (Stub.scripted [] Stub.tool_call_turn) Stub.hello in
  let broken := Stub.world (Stub.scripted [] Stub.tool_call_turn) Stub.failing in
  registry_returns (Stub.scenario Stub.summary_turn) /\
  registry_returns always /\
  (exists st',
      conversation 2 (Stub.scenario Stub.summary_turn) "list files" initial = (Ret tt, st') /\
      count is_create (log st') = 2) /\
  (forall fuel, fst (process_query fuel always "list files" initial) = Diverge) /\
  (exists st',
      conversation 1 broken "list files" initial
        = (Raise (ExternalError "tool failed"), st') /\
      process_query 1 broken "list files" initial
        = (Raise (ExternalError "tool failed"), st') /\
      count is_create (log st') = 1).
Proof.
  cbv zeta.
  split; [apply stub_registry_returns|]. split; [apply stub_registry_returns|].
  split; [|split].
  - apply (proj1 (proj1 (loop_terminates_iff_tool_free_turn
                           (Stub.scenario Stub.summary_turn) "list files" initial)
                    (stub_registry_returns _)) 1 2).
    + intros k Hk req. assert (k = 0) as -> by lia.
      exists Stub.tool_call_turn. split; reflexivity.
    + intros req. exists Stub.done_turn. split; reflexivity.
    + lia.
  - intros fuel.
    apply (proj2 (proj1 (loop_terminates_iff_tool_free_turn
                           (Stub.world (Stub.scripted [] Stub.tool_call_turn) Stub.hello)
                           "list files" initial)
                    (stub_registry_returns _))).
    intros k req. exists Stub.tool_call_turn. split; [|reflexivity].
    cbn. unfold Stub.scripted. now destruct k.
  - apply (proj2 (loop_terminates_iff_tool_free_turn
                    (Stub.world (Stub.scripted [] Stub.tool_call_turn) Stub.failing)
                    "list files" initial) 0 1 (ExternalError "tool failed")).
    + eexists; reflexivity.
    + eexists; reflexivity.
    + intros k Hk req. assert (k = 0) as -> by lia.
      exists Stub.tool_call_turn. split; reflexivity.
    + intros k name args Hk. lia.
    + reflexivity.
    + lia.
Defined.

(** C3, as it is stated, fails: every answer of the gateway requests a tool,
    and the invocation of the tool raises.  No answer is free of tool
    requests, yet the loop is left, with the exception of the tool, after a
    single gateway call, whatever the budget of iterations. *)
Lemma tool_failure_leaves_loop :
  let w := Stub.world (Stub.scripted [] Stub.tool_call_turn) Stub.failing in
  (forall k, tool_call_at w k) /\
  (forall fuel,
      let run := conversation (S fuel) w "list files" initial in
      fst run = Raise (ExternalError "tool failed") /\
      count is_create (events (snd run)) = 1 /\
      fst (process_query (S fuel) w "list files" initial)
        = Raise (ExternalError "tool failed")).
Proof.
  cbv zeta. split.
  - intros k req. exists Stub.tool_call_turn. split; [|reflexivity].
    cbn. unfold Stub.scripted. now destruct k.
  - intros fuel. repeat split.
Qed.

(** ** The states a run can end in *)

Section Reach.
Variable w : World.
Variable st0 : St.
Variable query : string.

Lemma while_true_state available_tools fuel : forall response st,
  loop_state st0 query available_tools st ->
  match while_true fuel w available_tools response st with
  | (Ret _, st') => loop_state st0 query available_tools st'
  | (_, st') =>
      loop_state st0 query available_tools st' \/
      exists st'' name input,
        loop_state st0 query available_tools st'' /\ st' = after_call st'' name input
  end.
Proof.
  induction fuel as [|fuel IH]; intros response st Hst; [now left|].
  destruct (has_tool_use response) eqn:Hresp.
  - destruct (first_tool_use_split _ Hresp)
      as (pre & id & name & input & rest & Hc & Hpre).
    rewrite (while_true_tool_use w _ fuel response st pre id name input rest Hc Hpre).
    pose proof (ls_texts _ _ _ _ (text_entries pre) Hst) as Hst1.
    destruct (call_tool w _ name input) as [result|e|];
      [|right; now exists (add_final st (text_entries pre)), name, input ..].
    cbv zeta.
    pose proof (ls_round _ _ _ _ pre id name input result Hst1) as Hst2.
    destruct (messages_create w _ _) as [response'|e|]; [now apply IH|now left ..].
  - rewrite while_true_tool_free by assumption.
    now apply ls_texts.
Qed.

(** Where [conversation] returns, the loop was left in one of its states. *)
Lemma conversation_state fuel st' :
  conversation fuel w query st0 = (Ret tt, st') ->
  exists available_tools, loop_state st0 query available_tools st'.
Proof.
  rewrite conversation_eq.
  destruct (get_prompt w _) as [p|e|]; try discriminate.
  destruct (list_tools w _) as [ts|e|]; try discriminate.
  destruct (messages_create w _ _) as [response|e|]; try discriminate.
  intros H. exists (catalog ts).
  pose proof (while_true_state (catalog ts) fuel response _
                (ls_started st0 query (catalog ts))) as Hw.
  now rewrite H in Hw.
Qed.

Lemma process_query_final fuel :
  final_state st0 query (snd (process_query fuel w query st0)).
Proof.
  rewrite process_query_eq, conversation_eq.
  destruct (get_prompt w _) as [p|e|]; try apply fs_prompt.
  destruct (list_tools w _) as [ts|e|]; try apply fs_catalog.
  destruct (messages_create w _ _) as [response|e|]; try apply fs_gateway.
  pose proof (while_true_state (catalog ts) fuel response _
                (ls_started st0 query (catalog ts))) as Hw.
  destruct (while_true fuel w (catalog ts) response _) as [[[]|e|] st'].
  - rewrite summarize_eq.
    destruct (messages_create w _ _) as [r|e|]; try now apply (fs_summary _ _ (catalog ts)).
    destruct (resp_content r) as [|[text|id name input|ty] more];
      try now apply (fs_summary _ _ (catalog ts)).
    now apply (fs_printed _ _ (catalog ts)).
  - destruct Hw as [Hw|(st'' & name & input & Hw & ->)]; cbn [snd].
    + now apply (fs_loop _ _ (catalog ts)).
    + now apply (fs_call _ _ (catalog ts)).
  - destruct Hw as [Hw|(st'' & name & input & Hw & ->)]; cbn [snd].
    + now apply (fs_loop _ _ (catalog ts)).
    + now apply (fs_call _ _ (catalog ts)).
Qed.

End Reach.

(** ** Transcripts *)

Lemma text_params_no_result blocks id c :
  ~ In (ToolResultParam id c) (text_params blocks).
Proof.
  induction blocks as [|[text|id' name input|ty] blocks IH]; cbn; try assumption.
  - tauto.
  - intros [H|H]; [discriminate|contradiction].
Qed.

Lemma requests_text_params blocks id : requests id (text_params blocks) = 0.
Proof.
  unfold requests in *.
  induction blocks as [|[text|id' name input|ty] blocks IH]; cbn; auto.
Qed.

Lemma requests_assistant_turn blocks id name input :
  requests id (text_params blocks ++ [BlockParam (ToolUseBlock id name input)]) = 1.
Proof.
  unfold requests. rewrite filter_app, length_app.
  fold (requests id (text_params blocks)). rewrite requests_text_params.
  cbn. now rewrite String.eqb_refl.
Qed.

(** The transcripts of the loop answer every request in the next turn. *)
Lemma loop_transcript_ok ms : loop_transcript ms -> transcript_ok ms.
Proof.
  induction 1 as [query|ms blocks id name input result Hms IH];
    intros i m l id' c Hi Hm Hin.
  - destruct i as [|i]; cbn in Hi.
    + injection Hi as <-. discriminate.
    + now destruct i.
  - destruct (Nat.lt_ge_cases i (List.length ms)) as [Hlt|Hge].
    + rewrite nth_error_app1 in Hi by assumption.
      destruct (IH i m l id' c Hi Hm Hin) as (j & l' & -> & Hj & Hreq).
      exists j, l'. repeat split; try assumption.
      rewrite nth_error_app1 by lia. assumption.
    + rewrite nth_error_app2 in Hi by assumption.
      destruct (i - List.length ms) as [|[|k]] eqn:Hk; cbn in Hi.
      * injection Hi as <-. cbn in Hm. injection Hm as <-.
        apply in_app_or in Hin as [Hin|[Hin|[]]]; [|discriminate].
        now apply text_params_no_result in Hin.
      * injection Hi as <-. cbn in Hm. injection Hm as <-.
        destruct Hin as [Hin|[]]. injection Hin as <- <-.
        exists (List.length ms), (text_params blocks ++ [BlockParam (ToolUseBlock id name input)]).
        split; [lia|]. split; [|apply requests_assistant_turn].
        rewrite nth_error_app2 by lia. now rewrite Nat.sub_diag.
      * now destruct k.
Qed.

(** ** Invariants of the log *)



Section Invariants.
Variable st0 : St.
Variable query : string.

Lemma loop_state_inv available_tools st :
  loop_state st0 query available_tools st ->
  loop_transcript (messages st) /\
  exists rest,
    log st = (EvCreate (loop_request (messages st) available_tools) :: rest) ++ log st0 /\
    good_steps (EvCreate (loop_request (messages st) available_tools) :: rest).
Proof.
  induction 1 as [|st l Hst IH|st blocks id name input result Hst IH].
  - split; [apply lt_query|].
    exists [EvListTools; EvTranscript (query_turn query); get_system_prompt].
    split; [reflexivity|]. repeat split.
    + intros _. now left.
    + intros req [Hreq|[Hreq|[Hreq|[Hreq|[]]]]]; try discriminate.
      injection Hreq as <-. apply lt_query.
  - assumption.
  - destruct IH as (Hms & rest & Hlog & Hchain & Hclose & Hcreates).
    split; [now apply lt_round|].
    exists (EvTranscript (tool_result_turn id result)
              :: EvTranscript (assistant_turn (text_params blocks) id name input)
              :: EvCallTool name input :: tool_use_detected name
              :: EvCreate (loop_request (messages st) available_tools) :: rest).
    split; [cbn [after_round log messages]; now rewrite Hlog|].
    split; [|split].
    + cbn [after_round messages chain]. repeat split; try apply Hchain.
      * intros _. right. now exists id, (result_content result).
      * now exists (text_params blocks), id, name, input, (result_content result).
      * now exists (text_params blocks), id, name, input.
    + cbn [after_round messages]. revert Hclose. counts. lia.
    + cbn [after_round messages].
      intros req [Hreq|[Hreq|[Hreq|[Hreq|[Hreq|Hreq]]]]]; try discriminate.
      * injection Hreq as <-. now apply lt_round.
      * now apply Hcreates.
Qed.

Lemma final_state_inv st :
  final_state st0 query st ->
  exists new, log st = new ++ log st0 /\ good_steps new.
Proof.
  intros [| |available_tools|available_tools st' Hst|available_tools st' name input Hst
          |available_tools st' Hst|available_tools st' response_text Hst].
  - exists [get_system_prompt]. split; [reflexivity|]. repeat split.
    intros req [Hreq|[]]; discriminate.
  - exists [EvListTools; EvTranscript (query_turn query); get_system_prompt].
    split; [reflexivity|]. repeat split.
    intros req [Hreq|[Hreq|[Hreq|[]]]]; discriminate.
  - exists [EvCreate (loop_request [query_turn query] available_tools);
            EvListTools; EvTranscript (query_turn query); get_system_prompt].
    split; [reflexivity|]. repeat split.
    + intros _. now left.
    + intros req [Hreq|[Hreq|[Hreq|[Hreq|[]]]]]; try discriminate.
      injection Hreq as <-. apply lt_query.
  - destruct (loop_state_inv _ _ Hst) as (_ & rest & Hlog & Hgood). eauto.
  - destruct (loop_state_inv _ _ Hst) as (_ & rest & Hlog & Hchain & Hclose & Hcreates).
    eexists. split; [cbn [after_call log]; rewrite Hlog; now rewrite !app_comm_cons|].
    split; [|split].
    + split; [exact I|]. split; [exact I|assumption].
    + revert Hclose. counts. lia.
    + intros req [Hreq|[Hreq|Hreq]]; try discriminate. now apply Hcreates.
  - destruct (loop_state_inv _ _ Hst) as (Hms & rest & Hlog & Hchain & Hclose & Hcreates).
    eexists. split; [cbn [asked_summary push log]; rewrite Hlog; now rewrite !app_comm_cons|].
    split; [|split].
    + split; [discriminate|assumption].
    + revert Hclose. counts. lia.
    + intros req [Hreq|Hreq]; [injection Hreq as <-; assumption|now apply Hcreates].
  - destruct (loop_state_inv _ _ Hst) as (Hms & rest & Hlog & Hchain & Hclose & Hcreates).
    eexists. split; [cbn [printed asked_summary push log]; rewrite Hlog; now rewrite !app_comm_cons|].
    split; [|split].
    + split; [exact I|]. split; [discriminate|assumption].
    + revert Hclose. counts. lia.
    + intros req [Hreq|[Hreq|Hreq]]; try discriminate;
        [injection Hreq as <-; assumption|now apply Hcreates].
Qed.

End Invariants.

(** ** Every run *)

Section Runs.
Variable w : World.
Variable query : string.

Lemma process_query_steps fuel st :
  exists new,
    events (snd (process_query fuel w query st)) = events st ++ rev new /\
    good_steps new.
Proof.
  destruct (final_state_inv _ _ _ (process_query_final w st query fuel))
    as (new & Hlog & Hgood).
  exists new. split; [|assumption].
  unfold events. now rewrite Hlog, rev_app_distr.
Qed.

Lemma process_query_ret fuel st response_text st' :
  process_query fuel w query st = (Ret response_text, st') ->
  exists st1,
    conversation fuel w query st = (Ret tt, st1) /\
    st' = printed st1 query response_text.
Proof.
  rewrite process_query_eq.
  destruct (conversation fuel w query st) as [[[]|e|] st1]; try discriminate.
  rewrite summarize_eq.
  destruct (messages_create w _ _) as [r|e|]; try discriminate.
  destruct (resp_content r) as [|[text|id name input|ty] more]; try discriminate.
  intros H. injection H as <- <-. now exists st1.
Qed.

End Runs.

(** C5.  In every transcript the loop produces -- the transcript passed to
    each gateway call of a run of [process_query], and the transcript a run
    that returns ends with -- every [tool_result] block carries the
    identifier of exactly one [tool_use] block of the turn right before it,
    and that turn is an assistant turn. *)
Theorem tool_result_answers_prior_turn
    (fuel : nat) (w : World) (query : string) (st : St) :
  (exists new,
      events (snd (process_query fuel w query st)) = events st ++ new /\
      forall req, In (EvCreate req) new -> transcript_ok (req_messages req)) /\
  (forall response_text st',
      process_query fuel w query st = (Ret response_text, st') ->
      transcript_ok (messages st')).
Proof.
  split.
  - destruct (process_query_steps w query fuel st) as (new & Hev & _ & _ & Hcreates).
    exists (rev new). split; [assumption|].
    intros req Hin. apply loop_transcript_ok, Hcreates. now apply in_rev.
  - intros response_text st' H.
    apply process_query_ret in H as (st1 & Hconv & ->).
    apply conversation_state in Hconv as (available_tools & Hst1).
    apply loop_transcript_ok. now apply (loop_state_inv _ _ _ _ Hst1).
Qed.

Lemma tool_result_answers_prior_turn_witness :
  transcript_ok
    (messages (snd (process_query 2 (Stub.scenario Stub.summary_turn)
                      "list files" initial))).
Proof.
  exact (proj2 (tool_result_answers_prior_turn 2 (Stub.scenario Stub.summary_turn)
                  "list files" initial)
           "The file says hello."
           (snd (process_query 2 (Stub.scenario Stub.summary_turn) "list files" initial))
           eq_refl).
Defined.



(** ** The summary *)

(** C7, as the code has it.  When the loop is left, [process_query] makes
    one more gateway call: its system instruction asks for a summary of the
    analysis conducted for [query], it passes no tools, and its messages are
    the transcript at the exit of the loop; the text of the answer is
    printed and returned.  That transcript is the one the last gateway call
    of the loop was made with: the turn that call returned, the one without
    tool request, is not added to it. *)
Theorem summary_after_loop
    (fuel : nat) (w : World) (query : string) (st st1 : St)
    (response_summary : Response) (response_text : string)
    (more : list ContentBlock) :
  conversation fuel w query st = (Ret tt, st1) ->
  messages_create w (count is_create (log st1))
    (mkRequest "claude-3-5-sonnet-20241022" 1000
       (Some ("Provide a summary of the analysis conducted for the query: " ++ query
                ++ " based on the below messages")%string)
       (messages st1) None) = Ret response_summary ->
  resp_content response_summary = TextBlock response_text :: more ->
  exists st2,
    process_query fuel w query st = (Ret response_text, st2) /\
    events st2 =
      events st1 ++ [EvCreate (summary_request query (messages st1));
                     EvPrint response_text] /\
    exists available_tools evs,
      events st1 = evs ++ [EvCreate (loop_request (messages st1) available_tools)].
Proof.
  intros Hconv Hsummary Hcontent.
  exists (printed st1 query response_text). split; [|split].
  - rewrite process_query_eq, Hconv, summarize_eq.
    unfold summary_request, summary_system, claude.
    now rewrite Hsummary, Hcontent.
  - unfold events; cbn. now rewrite <- app_assoc.
  - apply conversation_state in Hconv as (available_tools & Hst1).
    destruct (loop_state_inv _ _ _ _ Hst1) as (_ & rest & Hlog & _).
    exists available_tools, (rev (rest ++ log st)).
    unfold events. now rewrite Hlog.
Qed.

Lemma summary_after_loop_witness :
  let st1 := snd (conversation 1 Stub.direct_answer "list files" initial) in
  exists st2,
    process_query 1 Stub.direct_answer "list files" initial
      = (Ret "The file says hello.", st2) /\
    events st2 =
      events st1 ++ [EvCreate (summary_request "list files" (messages st1));
                     EvPrint "The file says hello."] /\
    exists available_tools evs,
      events st1 = evs ++ [EvCreate (loop_request (messages st1) available_tools)].
Proof.
  exact (summary_after_loop 1 Stub.direct_answer "list files" initial
           (snd (conversation 1 Stub.direct_answer "list files" initial))
           Stub.summary_turn "The file says hello." [] eq_refl eq_refl eq_refl).
Defined.

(** C7, as it is stated, fails: when the gateway answers the query with the
    text [done] at once, the one summary call is made with the query turn
    alone; no assistant turn is among its messages. *)
Lemma summary_omits_final_turn :
  let st := snd (process_query 1 Stub.direct_answer "list files" initial) in
  count is_summary_create (events st) = 1 /\
  forall req,
    In (EvCreate req) (events st) ->
    is_summary_request req = true ->
    ~ exists m, In m (req_messages req) /\ role m = assistant.
Proof.
  cbv zeta. split; [reflexivity|].
  intros req Hin Hsum (m & Hm & Hrole).
  cbn in Hin.
  destruct Hin as [Hin|[Hin|[Hin|[Hin|[Hin|[Hin|[]]]]]]]; try discriminate;
    injection Hin as <-; try discriminate.
  destruct Hm as [<-|[]]. discriminate.
Qed.

(** C10.  What [process_query] returns once the loop is left is decided by
    the first block of the summary response alone: its text when it is a
    text block, whatever blocks follow it, and an [IndexError] when the
    response has no block. *)
Theorem returns_first_block_text
    (fuel : nat) (w : World) (query : string) (st st1 : St)
    (response_summary : Response) :
  conversation fuel w query st = (Ret tt, st1) ->
  messages_create w (count is_create (log st1))
    (summary_request query (messages st1)) = Ret response_summary ->
  (forall response_text more,
      resp_content response_summary = TextBlock response_text :: more ->
      fst (process_query fuel w query st) = Ret response_text) /\
  (resp_content response_summary = [] ->
   fst (process_query fuel w query st) = Raise (IndexError "list index out of range")).
Proof.
  intros Hconv Hsummary.
  rewrite process_query_eq, Hconv, summarize_eq, Hsummary.
  split.
  - intros response_text more ->. reflexivity.
  - intros ->. reflexivity.
Qed.

Lemma returns_first_block_text_witness :
  fst (process_query 1 (Stub.world (Stub.scripted [Stub.done_turn] Stub.two_block_summary)
                          Stub.hello) "list files" initial)
    = Ret "The file says hello." /\
  fst (process_query 1 (Stub.world (Stub.scripted [Stub.done_turn] Stub.empty_summary)
                          Stub.hello) "list files" initial)
    = Raise (IndexError "list index out of range").
Proof.
  split.
  - exact (proj1 (returns_first_block_text 1
                    (Stub.world (Stub.scripted [Stub.done_turn] Stub.two_block_summary)
                       Stub.hello)
                    "list files" initial _ Stub.two_block_summary eq_refl eq_refl)
             "The file says hello." [TextBlock "Anything else?"] eq_refl).
  - exact (proj2 (returns_first_block_text 1
                    (Stub.world (Stub.scripted [Stub.done_turn] Stub.empty_summary)
                       Stub.hello)
                    "list files" initial _ Stub.empty_summary eq_refl eq_refl)
             eq_refl).
Defined.

(** ** Tool failures *)

Section Masked.
Variable w : World.

Lemma for_content_mask_errors available_tools blocks : forall pending st,
  for_content (mask_errors w) available_tools blocks pending st =
  for_content w available_tools blocks pending st.
Proof.
  induction blocks as [|[text|id name input|ty] blocks IH]; intros pending st.
  - reflexivity.
  - cbn. unfold bind. cbn. apply IH.
  - rewrite !for_content_tool_use. cbn [mask_errors call_tool messages_create].
    destruct (call_tool w _ name input) as [result|e|]; reflexivity.
  - cbn. apply IH.
Qed.

Lemma while_true_mask_errors available_tools fuel : forall response st,
  while_true fuel (mask_errors w) available_tools response st =
  while_true fuel w available_tools response st.
Proof.
  induction fuel as [|fuel IH]; intros response st; [reflexivity|].
  cbn [while_true]. unfold bind. rewrite for_content_mask_errors.
  destruct (for_content w _ _ _ _) as [[[response'|]|e|] st']; try reflexivity.
  apply IH.
Qed.

Lemma process_query_mask_errors fuel query st :
  process_query fuel (mask_errors w) query st = process_query fuel w query st.
Proof.
  rewrite !process_query_eq, !conversation_eq.
  cbn [mask_errors get_prompt list_tools messages_create].
  destruct (get_prompt w _) as [p|e|]; try reflexivity.
  destruct (list_tools w _) as [ts|e|]; try reflexivity.
  destruct (messages_create w _ _) as [response|e|]; try reflexivity.
  rewrite while_true_mask_errors.
  destruct (while_true fuel w _ _ _) as [[[]|e|] st']; reflexivity.
Qed.

End Masked.

(** C4, as the code has it.  A failure that the registry reports in the
    result of the call (the flag [isError]) is handled as a success is: the
    flag is never read, so a run is the same run with every flag cleared,
    and the content of the result goes into the [tool_result] turn, after
    which the next gateway call is made.  A failure that [call_tool] raises
    is not caught: the iteration ends with that exception right after the
    call, the transcript unchanged, and nothing in [process_query] handles
    an exception of the loop. *)
Theorem tool_failure_reported_or_raised (fuel : nat) (w : World) :
  (forall query st,
      process_query fuel (mask_errors w) query st = process_query fuel w query st) /\
  (forall available_tools response st pre id name input rest,
      resp_content response = pre ++ ToolUseBlock id name input :: rest ->
      existsb is_tool_use pre = false ->
      (forall result,
          call_tool w (count is_call_tool (log st)) name input = Ret result ->
          isError result = true ->
          exists st',
            let a := assistant_turn (text_params pre) id name input in
            let u := mkMessage user (Blocks [ToolResultParam id (result_content result)]) in
            let next := loop_request (messages st ++ [a; u]) available_tools in
            events st' =
              events st ++ [tool_use_detected name; EvCallTool name input;
                            EvTranscript a; EvTranscript u; EvCreate next] /\
            while_true (S fuel) w available_tools response st =
              match messages_create w (count is_create (log st)) next with
              | Ret response' => while_true fuel w available_tools response' st'
              | Raise e => (Raise e, st')
              | Diverge => (Diverge, st')
              end) /\
      (forall e,
          call_tool w (count is_call_tool (log st)) name input = Raise e ->
          exists st',
            while_true (S fuel) w available_tools response st = (Raise e, st') /\
            messages st' = messages st /\
            events st' = events st ++ [tool_use_detected name; EvCallTool name input])) /\
  (forall query st e st',
      conversation fuel w query st = (Raise e, st') ->
      process_query fuel w query st = (Raise e, st')).
Proof.
  split; [intros; apply process_query_mask_errors|]. split.
  - intros available_tools response st pre id name input rest Hc Hpre. split.
    + intros result Hcall _.
      exists (after_round (add_final st (text_entries pre)) available_tools
                (text_params pre) id name input result).
      cbv zeta. split; [now rewrite events_after_round|].
      rewrite (while_true_tool_use w available_tools fuel response st
                 pre id name input rest) by assumption.
      now rewrite Hcall.
    + intros e Hcall.
      exists (after_call (add_final st (text_entries pre)) name input).
      split; [|split; [reflexivity|now rewrite events_after_call]].
      rewrite (while_true_tool_use w available_tools fuel response st
                 pre id name input rest) by assumption.
      now rewrite Hcall.
  - intros query st e st' H. now rewrite process_query_eq, H.
Qed.

Lemma tool_failure_reported_or_raised_witness :
  let reported := Stub.world (Stub.scripted [] Stub.done_turn) Stub.reporting in
  let raised := Stub.world (Stub.scripted [] Stub.done_turn) Stub.failing in
  let input := [("file_path", "/a.txt")] in
  let a := mkMessage assistant (Blocks [BlockParam (ToolUseBlock "toolu_01" "read_file" input)]) in
  let u := mkMessage user
             (Blocks [ToolResultParam "toolu_01" ["Error executing tool read_file"]]) in
  (exists st',
      events st' =
        [EvLogInfo "Tool use detected: read_file"; EvCallTool "read_file" input;
         EvTranscript a; EvTranscript u; EvCreate (loop_request [a; u] [])] /\
      while_true 2 reported [] Stub.tool_call_turn initial =
        while_true 1 reported [] Stub.done_turn st') /\
  (exists st',
      while_true 2 raised [] Stub.tool_call_turn initial
        = (Raise (ExternalError "tool failed"), st') /\
      messages st' = [] /\
      events st' = [EvLogInfo "Tool use detected: read_file"; EvCallTool "read_file" input]).
Proof.
  cbv zeta. split.
  - exact (proj1 (proj1 (proj2 (tool_failure_reported_or_raised 1
                                  (Stub.world (Stub.scripted [] Stub.done_turn) Stub.reporting)))
                    [] Stub.tool_call_turn initial [] "toolu_01" "read_file"
                    [("file_path", "/a.txt")] [] eq_refl eq_refl)
             (mkCallToolResult true ["Error executing tool read_file"]) eq_refl eq_refl).
  - exact (proj2 (proj1 (proj2 (tool_failure_reported_or_raised 1
                                  (Stub.world (Stub.scripted [] Stub.done_turn) Stub.failing)))
                    [] Stub.tool_call_turn initial [] "toolu_01" "read_file"
                    [("file_path", "/a.txt")] [] eq_refl eq_refl)
             (ExternalError "tool failed") eq_refl).
Defined.

(** C4, as it is stated, fails: in the scenario of the specification with a
    tool whose invocation raises, [process_query] ends with the exception of
    the tool; no [tool_result] turn is added to the transcript and no
    further gateway call is made. *)
Lemma tool_failure_aborts_run :
  let w := Stub.world (Stub.scripted [Stub.tool_call_turn; Stub.done_turn] Stub.summary_turn)
             Stub.failing in
  let run := process_query 2 w "list files" initial in
  fst run = Raise (ExternalError "tool failed") /\
  messages (snd run) = [query_turn "list files"] /\
  count is_create (events (snd run)) = 1 /\
  exists evs, events (snd run) = evs ++ [EvCallTool "read_file" [("file_path", "/a.txt")]].
Proof.
  cbv zeta. repeat split. eexists. cbn. 
  match goal with |- ?l = _ => change l with (firstn 5 l ++ skipn 5 l) end.
  reflexivity.
Qed.

(** ** Opening and closing the session *)

Lemma substring_0_length s : substring 0 (String.length s) s = s.
Proof. induction s as [|c s IH]; cbn; [reflexivity|now rewrite IH]. Qed.

Lemma substring_append_r p : forall s,
  substring (String.length p) (String.length s) (p ++ s)%string = s.
Proof.
  induction p as [|c p IH]; intros s; cbn; [apply substring_0_length|apply IH].
Qed.

Lemma substring_split n : forall s m,
  n + m = String.length s ->
  s = (substring 0 n s ++ substring n m s)%string.
Proof.
  induction n as [|n IH]; intros s m H.
  - cbn in H. subst m. rewrite substring_0_length. now destruct s.
  - destruct s as [|c s]; [discriminate|]. cbn in H. cbn.
    f_equal. apply IH. lia.
Qed.

Lemma length_append s1 s2 :
  String.length (s1 ++ s2)%string = String.length s1 + String.length s2.
Proof. induction s1 as [|c s1 IH]; cbn; [reflexivity|now rewrite IH]. Qed.

(** [endswith] is [str.endswith]: the string is something followed by the
    suffix. *)
Lemma endswith_spec s suffix :
  endswith s suffix = true <-> exists p, s = (p ++ suffix)%string.
Proof.
  unfold endswith. split.
  - destruct (Nat.leb_spec (String.length suffix) (String.length s)) as [Hle|];
      [|discriminate].
    intros H. apply String.eqb_eq in H.
    exists (substring 0 (String.length s - String.length suffix) s).
    rewrite <- H at 2. apply substring_split. lia.
  - intros [p ->]. rewrite length_append.
    replace (String.length suffix <=? String.length p + String.length suffix)%nat
      with true by (symmetry; apply Nat.leb_le; lia).
    replace (String.length p + String.length suffix - String.length suffix)
      with (String.length p) by lia.
    rewrite substring_append_r. apply String.eqb_refl.
Qed.

(** C8.  For a server script path that ends neither in [.py] nor in [.js],
    [connect_to_server] raises the [ValueError] (the specification's
    [ValidationError]) in the state it was called in: the registry was not
    launched and no handshake was attempted. *)
Theorem connect_rejects_other_scripts
    (w : World) (self : Client) (server_script_path : string) (st : St) :
  endswith server_script_path ".py" = false ->
  endswith server_script_path ".js" = false ->
  connect_to_server w self server_script_path st =
    (Raise (ValueError "Server script must be a .py or .js file"), st).
Proof.
  intros Hpy Hjs. unfold connect_to_server. now rewrite Hpy, Hjs.
Qed.

Lemma connect_rejects_other_scripts_witness :
  connect_to_server (Stub.scenario Stub.summary_turn) (mkClient "u1" "t1")
    "analysisagent/server.rb" initial =
    (Raise (ValueError "Server script must be a .py or .js file"), initial).
Proof.
  exact (connect_rejects_other_scripts (Stub.scenario Stub.summary_turn)
           (mkClient "u1" "t1") "analysisagent/server.rb" initial eq_refl eq_refl).
Defined.

Lemma connect_to_server_steps w self server_script_path st :
  exists new,
    log (snd (connect_to_server w self server_script_path st)) = new ++ log st /\
    count is_aclose new = 0.
Proof.
  unfold connect_to_server.
  destruct (negb _); [now exists []|].
  unfold bind, perform, session_list_tools, perform, ret. cbn.
  destruct (stdio_client w _ _) as [[]|e|];
    [|now exists [EvStdioClient
                    (if endswith server_script_path ".py" then "python3" else "node")
                    [server_script_path] [("USER_ID", user_id self)]] ..].
  destruct (client_session w) as [[]|e|];
    [|now eexists [EvClientSession; EvStdioClient _ _ _] ..].
  destruct (initialize w) as [[]|e|];
    [|now eexists [EvInitialize; EvClientSession; EvStdioClient _ _ _] ..].
  destruct (list_tools w _) as [ts|e|];
    now eexists [EvListTools; EvInitialize; EvClientSession; EvStdioClient _ _ _].
Qed.

(** C9.  Once the client object exists, every way out of the request handler
    [analysis_agent] -- [process_query] returned, or [connect_to_server] or
    [process_query] raised -- passes through [cleanup] exactly once, as the
    last step of the handler. *)
Theorem cleanup_exactly_once
    (fuel : nat) (w : World) (request : Main.AnalysisRequest) (st st' : St)
    (r : Res string) :
  init_client w = Ret tt ->
  Main.analysis_agent fuel w request st = (r, st') ->
  r <> Diverge ->
  exists body,
    events st' =
      events st ++ EvInit (Main.req_user_id request) (Main.req_ticket_id request)
                 :: body ++ [EvAclose] /\
    count is_aclose body = 0.
Proof.
  intros Hinit Hrun Hr.
  unfold Main.analysis_agent, bind at 1, perform at 1 in Hrun.
  rewrite Hinit in Hrun. unfold Main.try_finally, bind in Hrun.
  set (client := mkClient _ _) in Hrun.
  set (st1 := mkSt _ _ _) in Hrun.
  destruct (connect_to_server_steps w client Main.default_server_script_path st1)
    as (new1 & Hlog1 & Hclose1).
  assert (Hbody : exists new,
             forall rb stb,
               (match connect_to_server w client Main.default_server_script_path st1 with
                | (Ret _, st2) => process_query fuel w (Main.description request) st2
                | (Raise e, st2) => (Raise e, st2)
                | (Diverge, st2) => (Diverge, st2)
                end) = (rb, stb) ->
               log stb = new ++ log st1 /\ count is_aclose new = 0).
  { destruct (connect_to_server w client _ st1) as [[[]|e|] st2]; cbn [snd] in Hlog1.
    - destruct (process_query_steps w (Main.description request) fuel st2)
        as (new2 & Hev2 & _ & Hclose2 & _).
      exists (new2 ++ new1). intros rb stb Heq. rewrite Heq in Hev2. cbn [snd] in Hev2.
      split; [|rewrite count_app; lia].
      unfold events in Hev2. apply (f_equal (@rev Event)) in Hev2.
      rewrite rev_involutive, rev_app_distr, !rev_involutive in Hev2.
      now rewrite Hev2, Hlog1, app_assoc.
    - exists new1. intros rb stb Heq. injection Heq as <- <-. now split.
    - exists new1. intros rb stb Heq. injection Heq as <- <-. now split. }
  destruct Hbody as (new & Hbody).
  destruct (match connect_to_server w client _ st1 with
            | (Ret _, st2) => process_query fuel w (Main.description request) st2
            | (Raise e, st2) => (Raise e, st2)
            | (Diverge, st2) => (Diverge, st2)
            end) as [rb stb] eqn:Heq.
  destruct (Hbody rb stb eq_refl) as (Hlogb & Hcloseb).
  assert (Hst' : log st' = EvAclose :: log stb).
  { unfold cleanup, perform in Hrun.
    destruct rb as [s|e|];
      [destruct (aclose w) as [[]|e'|] | destruct (aclose w) as [[]|e'|] |];
      injection Hrun as <- <-; solve [reflexivity | now contradiction Hr]. }
  exists (rev new). split.
  - unfold events. rewrite Hst', Hlogb. subst st1. cbn [log rev].
    rewrite rev_app_distr. cbn [rev]. now rewrite <- !app_assoc.
  - now rewrite count_rev.
Qed.

Lemma cleanup_exactly_once_witness :
  let returned :=
    Main.analysis_agent 2 (Stub.scenario Stub.summary_turn) Stub.list_files initial in
  let run_raised :=
    Main.analysis_agent 2
      (Stub.world (Stub.scripted [Stub.tool_call_turn] Stub.done_turn) Stub.failing)
      Stub.list_files initial in
  let connect_raised := Main.analysis_agent 2 Stub.unlaunchable Stub.list_files initial in
  (fst returned = Ret "The file says hello." /\
   exists body,
     events (snd returned) = EvInit "u1" "t1" :: body ++ [EvAclose] /\
     count is_aclose body = 0) /\
  (fst run_raised = Raise (ExternalError "tool failed") /\
   exists body,
     events (snd run_raised) = EvInit "u1" "t1" :: body ++ [EvAclose] /\
     count is_aclose body = 0) /\
  (fst connect_raised = Raise (ExternalError "No such file or directory") /\
   exists body,
     events (snd connect_raised) = EvInit "u1" "t1" :: body ++ [EvAclose] /\
     count is_aclose body = 0).
Proof.
  cbv zeta. repeat apply conj; try reflexivity.
  - apply (cleanup_exactly_once 2 (Stub.scenario Stub.summary_turn) Stub.list_files
             initial _ (Ret "The file says hello.")); [reflexivity|reflexivity|discriminate].
  - apply (cleanup_exactly_once 2
             (Stub.world (Stub.scripted [Stub.tool_call_turn] Stub.done_turn) Stub.failing)
             Stub.list_files initial _ (Raise (ExternalError "tool failed")));
      [reflexivity|reflexivity|discriminate].
  - apply (cleanup_exactly_once 2 Stub.unlaunchable Stub.list_files initial _
             (Raise (ExternalError "No such file or directory")));
      [reflexivity|reflexivity|discriminate].
Defined.

(** * Further properties of the client *)

(** ** What a run depends on *)

Section SameCalls.
Variables w1 w2 : World.
Hypothesis same_tools :
  forall k name args, call_tool w1 k name args = call_tool w2 k name args.
Hypothesis same_gateway :
  forall k req, messages_create w1 k req = messages_create w2 k req.

Lemma for_content_same available_tools blocks : forall pending st,
  for_content w1 available_tools blocks pending st =
  for_content w2 available_tools blocks pending st.
Proof.
  induction blocks as [|[text|id name input|ty] blocks IH]; intros pending st.
  - reflexivity.
  - cbn. unfold bind. cbn. apply IH.
  - rewrite !for_content_tool_use, same_tools.
    destruct (call_tool w2 _ name input) as [result|e|]; try reflexivity.
    cbv zeta. now rewrite same_gateway.
  - cbn. apply IH.
Qed.

Lemma while_true_same available_tools fuel : forall response st,
  while_true fuel w1 available_tools response st =
  while_true fuel w2 available_tools response st.
Proof.
  induction fuel as [|fuel IH]; intros response st; [reflexivity|].
  cbn [while_true]. unfold bind. rewrite for_content_same.
  destruct (for_content w2 _ _ _ _) as [[[response'|]|e|] st']; try reflexivity.
  apply IH.
Qed.

End SameCalls.

(** X1.  The system prompt fetched from the registry is never used: what
    the prompt says changes neither a step of [process_query] nor its
    outcome.  No gateway call carries it. *)
Theorem prompt_text_never_used
    (fuel : nat) (w : World) (query : string) (st : St)
    (p p' : GetPromptResult) :
  get_prompt w "analysis_system_prompt" = Ret p ->
  process_query fuel (with_prompt w p') query st = process_query fuel w query st.
Proof.
  intros Hp. rewrite !process_query_eq, !conversation_eq, Hp.
  cbn [with_prompt get_prompt list_tools messages_create].
  destruct (list_tools w _) as [ts|e|]; try reflexivity.
  destruct (messages_create w _ _) as [response|e|]; try reflexivity.
  rewrite (while_true_same (with_prompt w p') w) by reflexivity.
  destruct (while_true fuel w _ _ _) as [[[]|e|] st']; reflexivity.
Qed.

Lemma prompt_text_never_used_witness :
  process_query 2 (with_prompt (Stub.scenario Stub.summary_turn)
                     [Some "Answer in French."]) "list files" initial =
  process_query 2 (Stub.scenario Stub.summary_turn) "list files" initial.
Proof.
  exact (prompt_text_never_used 2 (Stub.scenario Stub.summary_turn) "list files" initial
           [Some "You are a seasoned Salesforce expert"] [Some "Answer in French."]
           eq_refl).
Defined.

(** ** Failures *)

(** X2.  When fetching the prompt or the catalog raises, [process_query]
    raises that exception at once: the gateway is not called and no tool is
    invoked. *)
Theorem setup_failure_stops_before_gateway
    (fuel : nat) (w : World) (query : string) (st : St) (e : exn) :
  (get_prompt w "analysis_system_prompt" = Raise e ->
   exists st',
     process_query fuel w query st = (Raise e, st') /\
     events st' = events st ++ [EvGetPrompt "analysis_system_prompt"]) /\
  (returns (get_prompt w "analysis_system_prompt") ->
   list_tools w (count is_list_tools (log st)) = Raise e ->
   exists st',
     process_query fuel w query st = (Raise e, st') /\
     events st' =
       events st ++ [EvGetPrompt "analysis_system_prompt";
                     EvTranscript (mkMessage user (Str query)); EvListTools]).
Proof.
  split.
  - intros Hp. exists (asked_prompt st).
    rewrite process_query_eq, conversation_eq, Hp. split; reflexivity.
  - intros [p Hp] Hts. exists (asked_catalog st query).
    rewrite process_query_eq, conversation_eq, Hp, Hts. split; [reflexivity|].
    unfold events; cbn. now rewrite <- !app_assoc.
Qed.

Lemma setup_failure_stops_before_gateway_witness :
  exists st',
    process_query 2 Cases.no_catalog "list files" initial
      = (Raise (ExternalError "connection closed"), st') /\
    events st' =
      [EvGetPrompt "analysis_system_prompt";
       EvTranscript (mkMessage user (Str "list files")); EvListTools].
Proof.
  refine (proj2 (setup_failure_stops_before_gateway 2 Cases.no_catalog "list files" initial
                   (ExternalError "connection closed")) _ eq_refl).
  now exists [].
Defined.

Section Origin.
Variable w : World.


End Origin.



(** ** The requests of a run *)

Section MoreInvariants.
Variable st0 : St.
Variable query : string.

Lemma extends_refl ms : extends ms ms.
Proof. exists []. now rewrite app_nil_r. Qed.

Lemma extends_trans ms1 ms2 ms3 : extends ms1 ms2 -> extends ms2 ms3 -> extends ms1 ms3.
Proof. intros [m1 ->] [m2 ->]. exists (m1 ++ m2). now rewrite app_assoc. Qed.

Lemma loop_state_more available_tools st :
  loop_state st0 query available_tools st ->
  exists rest,
    log st = (EvCreate (loop_request (messages st) available_tools) :: rest) ++ log st0 /\
    growing (EvCreate (loop_request (messages st) available_tools) :: rest) /\
    (forall req, In (EvCreate req) rest ->
                 req = loop_request (req_messages req) available_tools) /\
    count is_loop_create rest = count is_call_tool rest /\
    count is_summary_create rest = 0 /\
    List.length (messages st) = 1 + 2 * count is_call_tool rest.
Proof.
  induction 1 as [|st l Hst IH|st blocks id name input result Hst IH].
  - exists [EvListTools; EvTranscript (query_turn query); get_system_prompt].
    split; [reflexivity|]. split; [|split; [|now repeat split]].
    + split; [|exact I]. intros req [H|[H|[H|[]]]]; discriminate.
    + intros req [H|[H|[H|[]]]]; discriminate.
  - assumption.
  - destruct IH as (rest & Hlog & (Hold & Hgrow) & Hshape & Hloops & Hsums & Hlen).
    exists (EvTranscript (tool_result_turn id result)
              :: EvTranscript (assistant_turn (text_params blocks) id name input)
              :: EvCallTool name input :: tool_use_detected name
              :: EvCreate (loop_request (messages st) available_tools) :: rest).
    split; [cbn [after_round log messages]; now rewrite Hlog|].
    cbn [after_round messages]. split; [|split; [|split; [|split]]].
    + split.
      * intros req [H|[H|[H|[H|[H|H]]]]]; try discriminate.
        -- injection H as <-. cbn. now eexists.
        -- apply (extends_trans _ (messages st)); [now apply Hold|].
           cbn. now eexists.
      * cbn [growing]. now split.
    + intros req [H|[H|[H|[H|[H|H]]]]]; try discriminate.
      * now injection H as <-.
      * now apply Hshape.
    + counts. cbn [is_summary_request loop_request system negb]. lia.
    + counts. cbn [is_summary_request loop_request system]. lia.
    + rewrite length_app. counts. cbn [List.length]. lia.
Qed.

End MoreInvariants.

Section Ends.
Variable w : World.
Variable st0 : St.
Variable query : string.

(** Where a run ends, with the catalog it was given. *)
Lemma process_query_ends fuel :
  match process_query fuel w query st0 with
  | (Ret response_text, st') =>
      exists ts st,
        list_tools w (count is_list_tools (log st0)) = Ret ts /\
        loop_state st0 query (catalog ts) st /\
        st' = printed st query response_text
  | (_, st') =>
      st' = asked_prompt st0 \/
      st' = asked_catalog st0 query \/
      exists ts,
        list_tools w (count is_list_tools (log st0)) = Ret ts /\
        (st' = asked_gateway st0 query (catalog ts) \/
         exists st,
           loop_state st0 query (catalog ts) st /\
           (st' = st \/
            (exists name input, st' = after_call st name input) \/
            st' = asked_summary st query))
  end.
Proof.
  rewrite process_query_eq, conversation_eq.
  destruct (get_prompt w _) as [p|e|]; try now left.
  destruct (list_tools w _) as [ts|e|]; try now (right; left).
  destruct (messages_create w _ _) as [response|e|];
    try now (right; right; exists ts; split; [reflexivity|left]).
  pose proof (while_true_state w st0 query (catalog ts) fuel response _
                (ls_started st0 query (catalog ts))) as Hw.
  destruct (while_true fuel w (catalog ts) response _) as [[[]|e|] st'].
  - rewrite summarize_eq.
    destruct (messages_create w _ _) as [r|e|];
      try (right; right; exists ts; split; [reflexivity|right]; exists st'; now auto).
    destruct (resp_content r) as [|[text|id name input|ty] more];
      try (right; right; exists ts; split; [reflexivity|right]; exists st'; now auto).
    now exists ts, st'.
  - right; right. exists ts. split; [reflexivity|right].
    destruct Hw as [Hw|(st'' & name & input & Hw & ->)]; eauto 7.
  - right; right. exists ts. split; [reflexivity|right].
    destruct Hw as [Hw|(st'' & name & input & Hw & ->)]; eauto 7.
Qed.

(** The ways a run can end, by the steps [top] taken after the last state
    of the loop. *)
Lemma process_query_tops fuel :
  let r := fst (process_query fuel w query st0) in
  let st' := snd (process_query fuel w query st0) in
  ((st' = asked_prompt st0 \/ st' = asked_catalog st0 query \/
    exists ts,
      list_tools w (count is_list_tools (log st0)) = Ret ts /\
      st' = asked_gateway st0 query (catalog ts)) /\
   forall response_text, r <> Ret response_text) \/
  exists ts st top,
    list_tools w (count is_list_tools (log st0)) = Ret ts /\
    loop_state st0 query (catalog ts) st /\
    log st' = top ++ log st /\
    messages st' = messages st /\
    (top = [] \/
     (exists name input, top = [EvCallTool name input; tool_use_detected name]) \/
     top = [EvCreate (summary_request query (messages st))] \/
     exists response_text,
       top = [EvPrint response_text; EvCreate (summary_request query (messages st))]) /\
    (forall response_text,
        r = Ret response_text ->
        top = [EvPrint response_text; EvCreate (summary_request query (messages st))]).
Proof.
  cbv zeta. pose proof (process_query_ends fuel) as H.
  destruct (process_query fuel w query st0) as [[t|e|] st']; cbn [fst snd].
  - destruct H as (ts & st & Hts & Hst & ->). right.
    exists ts, st, [EvPrint t; EvCreate (summary_request query (messages st))].
    repeat split; try assumption.
    + right; right; right. now exists t.
    + intros t' H. now injection H as <-.
  - destruct H as [H|[H|(ts & Hts & [H|(st & Hst & [H|[(name & input & H)|H]])])]];
      subst; try (left; split; [solve [eauto 6]|discriminate]); right.
    + exists ts, st, []. repeat split; try assumption; [now left|discriminate].
    + exists ts, st, [EvCallTool name input; tool_use_detected name].
      repeat split; try assumption; [right; left; eauto|discriminate].
    + exists ts, st, [EvCreate (summary_request query (messages st))].
      repeat split; try assumption; [right; right; now left|discriminate].
  - destruct H as [H|[H|(ts & Hts & [H|(st & Hst & [H|[(name & input & H)|H]])])]];
      subst; try (left; split; [solve [eauto 6]|discriminate]); right.
    + exists ts, st, []. repeat split; try assumption; [now left|discriminate].
    + exists ts, st, [EvCallTool name input; tool_use_detected name].
      repeat split; try assumption; [right; left; eauto|discriminate].
    + exists ts, st, [EvCreate (summary_request query (messages st))].
      repeat split; try assumption; [right; right; now left|discriminate].
Qed.

(** The steps of a run, newest first, under the steps [top]. *)
Lemma loop_state_under available_tools st top :
  loop_state st0 query available_tools st ->
  (forall req, In (EvCreate req) top -> req = summary_request query (messages st)) ->
  exists new,
    top ++ log st = new ++ log st0 /\
    growing new /\
    (forall req, In (EvCreate req) new ->
                 req = loop_request (req_messages req) available_tools \/
                 req = summary_request query (req_messages req)) /\
    count is_loop_create new + count is_call_tool top
      = count is_loop_create top + count is_call_tool new + 1 /\
    count is_summary_create new = count is_summary_create top /\
    List.length (messages st) + 2 * count is_call_tool top
      = 1 + 2 * count is_call_tool new.
Proof.
  intros Hst Htop.
  destruct (loop_state_more _ _ _ _ Hst)
    as (rest & Hlog & (Hold & Hgrowing) & Hshape & Hloops & Hsums & Hlen).
  exists (top ++ EvCreate (loop_request (messages st) available_tools) :: rest).
  split; [now rewrite Hlog, <- app_assoc|]. split; [|split; [|split; [|split]]].
  - induction top as [|x top IH].
    + cbn [app growing]. now split.
    + cbn [app]. assert (Htop' : forall req, In (EvCreate req) top ->
                                   req = summary_request query (messages st))
        by (intros req Hin; apply Htop; now right).
      destruct x; cbn [growing]; try now apply IH.
      split; [|now apply IH].
      rewrite (Htop req) by now left. cbn [summary_request req_messages].
      intros req' Hin. apply in_app_or in Hin as [Hin|[Hin|Hin]].
      * rewrite (Htop' req' Hin). apply extends_refl.
      * injection Hin as <-. apply extends_refl.
      * now apply Hold.
  - intros req Hin. apply in_app_or in Hin as [Hin|[Hin|Hin]].
    + right. now rewrite (Htop req Hin).
    + left. now injection Hin as <-.
    + left. now apply Hshape.
  - rewrite !count_app, !count_cons.
    cbn [is_loop_create is_call_tool is_summary_request loop_request system negb]. lia.
  - rewrite !count_app, !count_cons.
    cbn [is_summary_create is_summary_request loop_request system]. lia.
  - rewrite !count_app, !count_cons. cbn [is_call_tool]. lia.
Qed.

Lemma process_query_more fuel :
  exists new,
    log (snd (process_query fuel w query st0)) = new ++ log st0 /\
    growing new /\
    (forall req, In (EvCreate req) new ->
       (exists ts,
           list_tools w (count is_list_tools (log st0)) = Ret ts /\
           req = loop_request (req_messages req) (catalog ts)) \/
       req = summary_request query (req_messages req)) /\
    count is_call_tool new <= count is_loop_create new <= count is_call_tool new + 1 /\
    count is_summary_create new <= 1 /\
    (forall response_text,
        fst (process_query fuel w query st0) = Ret response_text ->
        count is_loop_create new = count is_call_tool new + 1 /\
        count is_summary_create new = 1 /\
        List.length (messages (snd (process_query fuel w query st0)))
          = 1 + 2 * count is_call_tool new).
Proof.
  destruct (process_query_tops fuel)
    as [[Hend Hr]|(ts & st & top & Hts & Hst & Hlog & Hms & Htop & Hret)].
  - destruct Hend as [->|[->|(ts & Hts & ->)]].
    + exists [get_system_prompt].
      repeat split; try (cbn; lia); try (exfalso; eapply Hr; eassumption).
      intros req [H|[]]; discriminate.
    + exists [EvListTools; EvTranscript (query_turn query); get_system_prompt].
      repeat split; try (cbn; lia); try (exfalso; eapply Hr; eassumption).
      intros req [H|[H|[H|[]]]]; discriminate.
    + exists [EvCreate (loop_request [query_turn query] (catalog ts));
              EvListTools; EvTranscript (query_turn query); get_system_prompt].
      repeat split; try (cbn; lia); try (exfalso; eapply Hr; eassumption).
      * intros req [H|[H|[H|[]]]]; discriminate.
      * intros req [H|[H|[H|[H|[]]]]]; try discriminate.
        left. exists ts. split; [assumption|]. now injection H as <-.
  - destruct (loop_state_under (catalog ts) st top Hst)
      as (new & Hnew & Hgrow & Hshape & Hloops & Hsums & Hlen).
    { destruct Htop as [->|[(name & input & ->)|[->|(t & ->)]]].
      - intros req [].
      - intros req [H|[H|[]]]; discriminate.
      - intros req [H|[]]. now injection H as <-.
      - intros req [H|[H|[]]]; [discriminate|now injection H as <-]. }
    exists new. split; [now rewrite Hlog|]. split; [assumption|]. split.
    { intros req Hin. destruct (Hshape req Hin) as [H|H]; [left|now right].
      now exists ts. }
    rewrite Hms.
    assert (Hpr : forall t,
               top = [EvPrint t; EvCreate (summary_request query (messages st))] ->
               count is_loop_create top = 0 /\ count is_call_tool top = 0 /\
               count is_summary_create top = 1) by (intros t ->; now repeat split).
    split; [|split].
    + destruct Htop as [->|[(name & input & ->)|[->|(t & ->)]]];
        revert Hloops; rewrite ?count_cons;
        cbn [is_loop_create is_call_tool tool_use_detected is_summary_request
               summary_request system negb count filter List.length]; lia.
    + rewrite Hsums.
      destruct Htop as [->|[(name & input & ->)|[->|(t & ->)]]]; cbn; lia.
    + intros t Ht. destruct (Hpr t (Hret t Ht)) as (H1 & H2 & H3). lia.
Qed.

End Ends.

Lemma growing_split l1 : forall req before,
  growing (l1 ++ EvCreate req :: before) ->
  forall req', In (EvCreate req') before ->
               extends (req_messages req') (req_messages req).
Proof.
  induction l1 as [|x l1 IH]; intros req before H.
  - now destruct H.
  - cbn [app] in H. destruct x; cbn [growing] in H; try now apply IH.
Qed.

Lemma growing_in_order l :
  growing l ->
  forall evs1 req1 evs2 req2 evs3,
    rev l = evs1 ++ EvCreate req1 :: evs2 ++ EvCreate req2 :: evs3 ->
    extends (req_messages req1) (req_messages req2).
Proof.
  intros H evs1 req1 evs2 req2 evs3 Heq.
  apply (f_equal (@rev Event)) in Heq. rewrite rev_involutive in Heq.
  rewrite rev_app_distr in Heq. cbn [rev] in Heq.
  rewrite rev_app_distr in Heq. cbn [rev] in Heq.
  rewrite <- !app_assoc in Heq. cbn [app] in Heq. subst l.
  apply (growing_split _ _ _ H). apply in_or_app. right. now left.
Qed.

(** X4.  Every gateway call of a run carries the same fixed settings: a call
    of the loop names the model, allows 1000 tokens, gives no system
    instruction and offers the catalog that [list_tools] returned at the
    start of the run (name, description and input schema of each tool);
    the summary call gives the summary instruction and offers no tool. *)
Theorem requests_carry_the_catalog
    (fuel : nat) (w : World) (query : string) (st : St) :
  exists new,
    events (snd (process_query fuel w query st)) = events st ++ new /\
    forall req,
      In (EvCreate req) new ->
      (exists ts,
          list_tools w (count is_list_tools (log st)) = Ret ts /\
          req = mkRequest "claude-3-5-sonnet-20241022" 1000 None (req_messages req)
                  (Some (map (fun t => mkToolParam (tool_name t) (tool_description t)
                                                   (tool_inputSchema t)) ts))) \/
      req = mkRequest "claude-3-5-sonnet-20241022" 1000
              (Some (summary_system query)) (req_messages req) None.
Proof.
  destruct (process_query_more w st query fuel) as (new & Hlog & _ & Hshape & _).
  exists (rev new). split; [unfold events; now rewrite Hlog, rev_app_distr|].
  intros req Hin. apply in_rev in Hin. exact (Hshape req Hin).
Qed.

(** X5.  The transcript is append-only: of any two gateway calls of a run,
    the later one is made with the transcript of the earlier one followed
    by zero or more further turns. *)
Theorem transcript_only_grows
    (fuel : nat) (w : World) (query : string) (st : St) :
  exists new,
    events (snd (process_query fuel w query st)) = events st ++ new /\
    forall evs1 req1 evs2 req2 evs3,
      new = evs1 ++ EvCreate req1 :: evs2 ++ EvCreate req2 :: evs3 ->
      exists more, req_messages req2 = req_messages req1 ++ more.
Proof.
  destruct (process_query_more w st query fuel) as (new & Hlog & Hgrow & _).
  exists (rev new). split; [unfold events; now rewrite Hlog, rev_app_distr|].
  intros evs1 req1 evs2 req2 evs3 Heq.
  exact (growing_in_order new Hgrow _ _ _ _ _ Heq).
Qed.

Lemma transcript_only_grows_witness :
  exists new,
    events (snd (process_query 2 (Stub.scenario Stub.summary_turn) "list files" initial))
      = new /\
    forall evs1 req1 evs2 req2 evs3,
      new = evs1 ++ EvCreate req1 :: evs2 ++ EvCreate req2 :: evs3 ->
      exists more, req_messages req2 = req_messages req1 ++ more.
Proof.
  exact (transcript_only_grows 2 (Stub.scenario Stub.summary_turn) "list files" initial).
Defined.

(** X6.  Tool calls and gateway calls keep step: in every run the loop has
    made as many gateway calls as tool calls, or one more, and at most one
    summary call.  A run that returns has made one gateway call more than
    tool calls in the loop and exactly one summary call, and its transcript
    has the query turn and two turns for each tool call. *)
Theorem calls_keep_step
    (fuel : nat) (w : World) (query : string) (st : St) :
  exists new,
    events (snd (process_query fuel w query st)) = events st ++ new /\
    count is_call_tool new <= count is_loop_create new <= count is_call_tool new + 1 /\
    count is_summary_create new <= 1 /\
    (forall response_text,
        fst (process_query fuel w query st) = Ret response_text ->
        count is_loop_create new = count is_call_tool new + 1 /\
        count is_summary_create new = 1 /\
        List.length (messages (snd (process_query fuel w query st)))
          = 1 + 2 * count is_call_tool new).
Proof.
  destruct (process_query_more w st query fuel)
    as (new & Hlog & _ & _ & Hbounds & Hsum & Hret).
  exists (rev new). split; [unfold events; now rewrite Hlog, rev_app_distr|].
  now rewrite !count_rev.
Qed.

Lemma calls_keep_step_witness :
  let run := process_query 2 (Stub.scenario Stub.summary_turn) "list files" initial in
  exists new,
    events (snd run) = new /\
    count is_loop_create new = count is_call_tool new + 1 /\
    count is_summary_create new = 1 /\
    List.length (messages (snd run)) = 1 + 2 * count is_call_tool new.
Proof.
  cbv zeta.
  destruct (calls_keep_step 2 (Stub.scenario Stub.summary_turn) "list files" initial)
    as (new & Hev & _ & _ & Hret).
  exists new. split; [exact Hev|].
  exact (Hret "The file says hello." eq_refl).
Defined.

(** ** The shape of the transcript *)

Lemma text_params_texts blocks :
  text_params blocks = map (fun text => BlockParam (TextBlock text)) (texts_of blocks).
Proof.
  induction blocks as [|[text|id name input|ty] blocks IH]; cbn; congruence.
Qed.

Lemma loop_transcript_alternating ms : loop_transcript ms -> alternating ms.
Proof.
  induction 1 as [query|ms blocks id name input result Hms [IH Hodd]].
  - split; [|reflexivity]. intros [|[|i]] m Hi; try discriminate.
    now injection Hi as <-.
  - split.
    + intros i m Hi.
      destruct (Nat.lt_ge_cases i (List.length ms)) as [Hlt|Hge].
      * rewrite nth_error_app1 in Hi by assumption. now apply IH.
      * rewrite nth_error_app2 in Hi by assumption.
        replace i with (List.length ms + (i - List.length ms)) by lia.
        destruct (i - List.length ms) as [|[|k]]; cbn in Hi.
        -- injection Hi as <-. rewrite Nat.add_0_r, <- Nat.negb_odd, Hodd. reflexivity.
        -- injection Hi as <-.
           replace (List.length ms + 1) with (S (List.length ms)) by lia.
           rewrite Nat.even_succ, Hodd. reflexivity.
        -- now destruct k.
    + rewrite length_app. cbn [List.length].
      replace (List.length ms + 2) with (S (S (List.length ms))) by lia.
      now rewrite Nat.odd_succ_succ.
Qed.

Lemma loop_transcript_turns ms :
  loop_transcript ms ->
  forall m, In m ms ->
            (role m = assistant -> texts_then_request m) /\
            (role m = user -> query_or_result m).
Proof.
  induction 1 as [query|ms blocks id name input result Hms IH]; intros m Hin.
  - destruct Hin as [<-|[]]. split; [discriminate|]. intros _. left. now exists query.
  - apply in_app_or in Hin as [Hin|[<-|[<-|[]]]]; [now apply IH| |].
    + split; [|discriminate]. intros _.
      exists (texts_of blocks), id, name, input. cbn. now rewrite text_params_texts.
    + split; [discriminate|]. intros _. right. now eexists; eexists.
Qed.

(** X7.  Every transcript a run passes to the gateway starts with a user
    turn, alternates between user and assistant turns and ends with a user
    turn, so it has an odd number of turns. *)
Theorem transcript_roles_alternate
    (fuel : nat) (w : World) (query : string) (st : St) :
  exists new,
    events (snd (process_query fuel w query st)) = events st ++ new /\
    forall req,
      In (EvCreate req) new ->
      (forall i m, nth_error (req_messages req) i = Some m ->
                   role m = if Nat.even i then user else assistant) /\
      Nat.odd (List.length (req_messages req)) = true.
Proof.
  destruct (process_query_steps w query fuel st) as (new & Hev & _ & _ & Hcreates).
  exists (rev new). split; [assumption|].
  intros req Hin. apply in_rev in Hin.
  exact (loop_transcript_alternating _ (Hcreates req Hin)).
Qed.

(** X8.  Of a response only the text blocks before the first tool request
    and that request reach the transcript: in every transcript passed to
    the gateway, an assistant turn is a list of text blocks followed by
    exactly one [tool_use] block, and a user turn is the query or a single
    [tool_result] block.  Blocks of any other type, blocks after the first
    tool request, and the text of a turn without tool request never appear
    in it. *)
Theorem transcript_turn_shapes
    (fuel : nat) (w : World) (query : string) (st : St) :
  exists new,
    events (snd (process_query fuel w query st)) = events st ++ new /\
    forall req m,
      In (EvCreate req) new ->
      In m (req_messages req) ->
      (role m = assistant ->
       exists texts id name input,
         content m =
         Blocks (map (fun text => BlockParam (TextBlock text)) texts
                   ++ [BlockParam (ToolUseBlock id name input)])) /\
      (role m = user ->
       (exists q, content m = Str q) \/
       (exists id c, content m = Blocks [ToolResultParam id c])).
Proof.
  destruct (process_query_steps w query fuel st) as (new & Hev & _ & _ & Hcreates).
  exists (rev new). split; [assumption|].
  intros req m Hin Hm. apply in_rev in Hin.
  exact (loop_transcript_turns _ (Hcreates req Hin) m Hm).
Qed.

(** * Further properties of the session *)

Lemma endswith_py_not_js s :
  endswith s ".py" = true -> endswith s ".js" = false.
Proof.
  unfold endswith. cbn [String.length].
  destruct (Nat.leb 3 (String.length s)); [|discriminate].
  intros H. apply String.eqb_eq in H. now rewrite H.
Qed.

Lemma connect_returns_after_handshake_steps
    (w : World) (self : Client) (server_script_path : string) (st st' : St) :
  connect_to_server w self server_script_path st = (Ret tt, st') ->
  exists command,
    events st' =
      events st ++ [EvStdioClient command [server_script_path]
                      [("USER_ID", user_id self)];
                    EvClientSession; EvInitialize; EvListTools].
Proof.
  unfold connect_to_server.
  destruct (negb _); [discriminate|].
  unfold bind, perform, session_list_tools, perform, ret; cbn.
  destruct (stdio_client w _ _) as [[]|e|]; try discriminate.
  destruct (client_session w) as [[]|e|]; try discriminate.
  destruct (initialize w) as [[]|e|]; try discriminate.
  destruct (list_tools w _) as [ts|e|]; try discriminate.
  intros H; injection H as <-. eexists.
  unfold events; cbn. rewrite <- !app_assoc. reflexivity.
Qed.

(** X9.  [connect_to_server] returns only after the whole handshake: the
    script was launched with [python3] when its path ends in [.py] and with
    [node] when it ends in [.js], with the path as the only argument and
    [USER_ID] as the only variable of the environment; then the session was
    entered and initialized and its tools were listed, in this order. *)
Theorem connect_returns_after_handshake
    (w : World) (self : Client) (server_script_path : string) (st st' : St) :
  connect_to_server w self server_script_path st = (Ret tt, st') ->
  exists command,
    events st' =
      events st ++ [EvStdioClient command [server_script_path]
                      [("USER_ID", user_id self)];
                    EvClientSession; EvInitialize; EvListTools] /\
    ((command = "python3" /\ exists p, server_script_path = (p ++ ".py")%string) \/
     (command = "node" /\ exists p, server_script_path = (p ++ ".js")%string)).
Proof.
  unfold connect_to_server.
  destruct (endswith server_script_path ".py") eqn:Hpy;
    [|destruct (endswith server_script_path ".js") eqn:Hjs; [|discriminate]];
    cbn [negb orb];
    unfold bind, perform, session_list_tools, perform, ret; cbn;
    (destruct (stdio_client w _ _) as [[]|e|]; try discriminate);
    (destruct (client_session w) as [[]|e|]; try discriminate);
    (destruct (initialize w) as [[]|e|]; try discriminate);
    (destruct (list_tools w _) as [ts|e|]; try discriminate);
    intros H; injection H as <-; eexists;
    (split; [unfold events; cbn; rewrite <- !app_assoc; reflexivity|]).
  - left. split; [reflexivity|]. now apply endswith_spec.
  - right. split; [reflexivity|]. now apply endswith_spec.
Qed.

Lemma connect_returns_after_handshake_witness :
  exists command,
    events (snd (connect_to_server (Stub.scenario Stub.summary_turn) (mkClient "u1" "t1")
                   "tools/server.js" initial)) =
      [EvStdioClient command ["tools/server.js"] [("USER_ID", "u1")];
       EvClientSession; EvInitialize; EvListTools] /\
    ((command = "python3" /\ exists p, "tools/server.js" = (p ++ ".py")%string) \/
     (command = "node" /\ exists p, "tools/server.js" = (p ++ ".js")%string)).
Proof.
  exact (connect_returns_after_handshake (Stub.scenario Stub.summary_turn)
           (mkClient "u1" "t1") "tools/server.js" initial
           (snd (connect_to_server (Stub.scenario Stub.summary_turn) (mkClient "u1" "t1")
                   "tools/server.js" initial))
           eq_refl).
Defined.

(** X10.  When [connect_to_server] raises, either the path was refused and
    nothing was done, or the exception is the one of the first step that
    failed -- the launch, the entry of the session, the handshake, the
    listing of the tools -- and no later step was attempted. *)
Theorem connect_stops_at_first_failure
    (w : World) (self : Client) (server_script_path : string) (st st' : St)
    (e : exn) :
  connect_to_server w self server_script_path st = (Raise e, st') ->
  (st' = st /\ e = ValueError "Server script must be a .py or .js file") \/
  exists command,
    let launch := EvStdioClient command [server_script_path]
                    [("USER_ID", user_id self)] in
    (events st' = events st ++ [launch] /\
     stdio_client w command [server_script_path] = Raise e) \/
    (events st' = events st ++ [launch; EvClientSession] /\
     client_session w = Raise e) \/
    (events st' = events st ++ [launch; EvClientSession; EvInitialize] /\
     initialize w = Raise e) \/
    (events st' = events st ++ [launch; EvClientSession; EvInitialize; EvListTools] /\
     list_tools w (count is_list_tools (log st)) = Raise e).
Proof.
  unfold connect_to_server.
  destruct (negb _).
  - intros H. injection H as <- <-. now left.
  - unfold bind, perform, session_list_tools, perform, ret. cbn.
    set (command := if endswith server_script_path ".py" then "python3" else "node").
    intros H. right. exists command. cbv zeta.
    destruct (stdio_client w _ _) as [[]|e1|] eqn:H1; try discriminate.
    2:{ injection H as <- <-. left. split; [|reflexivity]. reflexivity. }
    destruct (client_session w) as [[]|e2|] eqn:H2; try discriminate.
    2:{ injection H as <- <-. right; left. split; [|reflexivity].
        unfold events; cbn. now rewrite <- !app_assoc. }
    destruct (initialize w) as [[]|e3|] eqn:H3; try discriminate.
    2:{ injection H as <- <-. right; right; left. split; [|reflexivity].
        unfold events; cbn. now rewrite <- !app_assoc. }
    destruct (list_tools w _) as [ts|e4|] eqn:H4; try discriminate.
    injection H as <- <-. right; right; right. split.
    + unfold events; cbn. now rewrite <- !app_assoc.
    + revert H4. now counts.
Qed.

Lemma connect_stops_at_first_failure_witness :
  let w := Stub.unlaunchable in
  let e := ExternalError "No such file or directory" in
  let path := "analysisagent/server.py" in
  let st' := snd (connect_to_server w (mkClient "u1" "t1") path initial) in
  (st' = initial /\ e = ValueError "Server script must be a .py or .js file") \/
  exists command,
    let launch := EvStdioClient command [path] [("USER_ID", "u1")] in
    (events st' = events initial ++ [launch] /\
     stdio_client w command [path] = Raise e) \/
    (events st' = events initial ++ [launch; EvClientSession] /\
     client_session w = Raise e) \/
    (events st' = events initial ++ [launch; EvClientSession; EvInitialize] /\
     initialize w = Raise e) \/
    (events st' = events initial ++ [launch; EvClientSession; EvInitialize; EvListTools] /\
     list_tools w (count is_list_tools (log initial)) = Raise e).
Proof.
  exact (connect_stops_at_first_failure Stub.unlaunchable (mkClient "u1" "t1")
           "analysisagent/server.py" initial
           (snd (connect_to_server Stub.unlaunchable (mkClient "u1" "t1")
                   "analysisagent/server.py" initial))
           (ExternalError "No such file or directory") eq_refl).
Defined.

(** * Further properties of the request handler *)

Section Handler.
Variable fuel : nat.
Variable w : World.
Variable request : Main.AnalysisRequest.

(** The body of the [try] statement of the handler. *)
Lemma handler_body_eq st :
  Main.analysis_agent fuel w request st =
  match init_client w with
  | Ret _ =>
      Main.try_finally
        (fun st1 =>
           match connect_to_server w
                   (mkClient (Main.req_user_id request) (Main.req_ticket_id request))
                   Main.default_server_script_path st1 with
           | (Ret _, st2) => process_query fuel w (Main.description request) st2
           | (Raise e, st2) => (Raise e, st2)
           | (Diverge, st2) => (Diverge, st2)
           end)
        (cleanup w)
        (push (EvInit (Main.req_user_id request) (Main.req_ticket_id request)) st)
  | Raise e =>
      (Raise e, push (EvInit (Main.req_user_id request) (Main.req_ticket_id request)) st)
  | Diverge =>
      (Diverge, push (EvInit (Main.req_user_id request) (Main.req_ticket_id request)) st)
  end.
Proof.
  unfold Main.analysis_agent, bind at 1, perform at 1.
  destruct (init_client w) as [[]|e|]; reflexivity.
Qed.

Lemma connect_default_launches self st :
  exists after,
    log (snd (connect_to_server w self Main.default_server_script_path st)) =
    after ++ EvStdioClient "python3" [Main.default_server_script_path]
               [("USER_ID", user_id self)] :: log st.
Proof.
  unfold connect_to_server.
  change (endswith Main.default_server_script_path ".py") with true.
  cbn [negb orb]. unfold bind, perform, session_list_tools, perform, ret. cbn.
  destruct (stdio_client w _ _) as [[]|e|]; [|now exists [] ..].
  destruct (client_session w) as [[]|e|]; [|now exists [EvClientSession] ..].
  destruct (initialize w) as [[]|e|]; [|now exists [EvInitialize; EvClientSession] ..].
  destruct (list_tools w _) as [ts|e|];
    now exists [EvListTools; EvInitialize; EvClientSession].
Qed.

End Handler.

(** X11.  The handler cannot fail the check of the script path: once the
    client object exists, the first thing [analysis_agent] does is launch
    [analysisagent/server.py] with [python3], passing the requester's id as
    [USER_ID]. *)
Theorem handler_launches_python_server
    (fuel : nat) (w : World) (request : Main.AnalysisRequest) (st : St) :
  init_client w = Ret tt ->
  exists rest,
    events (snd (Main.analysis_agent fuel w request st)) =
      events st ++ EvInit (Main.req_user_id request) (Main.req_ticket_id request)
                 :: EvStdioClient "python3" ["analysisagent/server.py"]
                      [("USER_ID", Main.req_user_id request)]
                 :: rest.
Proof.
  intros Hinit. rewrite handler_body_eq, Hinit. unfold Main.try_finally.
  set (client := mkClient _ _). set (st1 := push _ st).
  destruct (connect_default_launches w client st1) as (after & Hafter).
  assert (Hbody : exists top,
             log (snd (match connect_to_server w client
                               Main.default_server_script_path st1 with
                       | (Ret _, st2) => process_query fuel w (Main.description request) st2
                       | (Raise e, st2) => (Raise e, st2)
                       | (Diverge, st2) => (Diverge, st2)
                       end))
             = top ++ EvStdioClient "python3" [Main.default_server_script_path]
                        [("USER_ID", Main.req_user_id request)] :: log st1).
  { destruct (connect_to_server w client _ st1) as [[[]|e|] st2]; cbn [snd] in *;
      [|now exists after ..].
    destruct (process_query_steps w (Main.description request) fuel st2)
      as (new & Hev & _).
    exists (new ++ after). unfold events in Hev.
    apply (f_equal (@rev Event)) in Hev.
    rewrite rev_involutive, rev_app_distr, !rev_involutive in Hev.
    now rewrite Hev, Hafter, <- app_assoc. }
  destruct Hbody as (top & Htop).
  destruct (match connect_to_server w client _ st1 with
            | (Ret _, st2) => process_query fuel w (Main.description request) st2
            | (Raise e, st2) => (Raise e, st2)
            | (Diverge, st2) => (Diverge, st2)
            end) as [rb stb]. cbn [snd] in Htop.
  assert (Hend : exists top',
             log (snd (match rb with
                       | Diverge => (Diverge, stb)
                       | _ => match cleanup w stb with
                              | (Ret _, st'') => (rb, st'')
                              | (Raise e, st'') => (Raise e, st'')
                              | (Diverge, st'') => (Diverge, st'')
                              end
                       end)) = top' ++ log stb).
  { unfold cleanup, perform.
    destruct rb as [s|e|]; [| |now exists []];
      destruct (aclose w) as [[]|e'|]; now exists [EvAclose]. }
  destruct Hend as (top' & Htop').
  exists (rev (top' ++ top)).
  unfold events.
  match goal with
  | |- rev (log (snd ?run)) = _ =>
      replace (log (snd run)) with (top' ++ log stb)
        by (rewrite <- Htop'; destruct rb; reflexivity)
  end.
  rewrite Htop. subst st1. cbn [push log].
  rewrite !rev_app_distr. cbn [rev]. rewrite <- !app_assoc. reflexivity.
Qed.

Lemma handler_launches_python_server_witness :
  exists rest,
    events (snd (Main.analysis_agent 2 (Stub.scenario Stub.summary_turn)
                   Stub.list_files initial)) =
      EvInit "u1" "t1"
        :: EvStdioClient "python3" ["analysisagent/server.py"] [("USER_ID", "u1")]
        :: rest.
Proof.
  exact (handler_launches_python_server 2 (Stub.scenario Stub.summary_turn)
           Stub.list_files initial eq_refl).
Defined.

(** X12.  The handler answers with a summary only when everything went
    well: the client was constructed, the session was opened, the query
    returned that summary, and [cleanup] returned. *)
Theorem handler_returns_only_if_all_succeed
    (fuel : nat) (w : World) (request : Main.AnalysisRequest) (st st' : St)
    (response_text : string) :
  Main.analysis_agent fuel w request st = (Ret response_text, st') ->
  init_client w = Ret tt /\
  aclose w = Ret tt /\
  exists st1 st2,
    connect_to_server w
      (mkClient (Main.req_user_id request) (Main.req_ticket_id request))
      "analysisagent/server.py"
      (push (EvInit (Main.req_user_id request) (Main.req_ticket_id request)) st)
      = (Ret tt, st1) /\
    process_query fuel w (Main.description request) st1 = (Ret response_text, st2) /\
    st' = push EvAclose st2.
Proof.
  rewrite handler_body_eq.
  destruct (init_client w) as [[]|e|]; try discriminate.
  unfold Main.try_finally.
  fold Main.default_server_script_path.
  destruct (connect_to_server w _ _ _) as [[[]|e|] st1]; try discriminate.
  - destruct (process_query fuel w _ st1) as [[s|e|] st2] eqn:Hq; try discriminate;
      unfold cleanup, perform; destruct (aclose w) as [[]|e'|]; try discriminate.
    intros H. injection H as <- <-. repeat split. exists st1, st2. now repeat split.
  - unfold cleanup, perform. destruct (aclose w) as [[]|e'|]; discriminate.
Qed.

Lemma handler_returns_only_if_all_succeed_witness :
  init_client (Stub.scenario Stub.summary_turn) = Ret tt /\
  aclose (Stub.scenario Stub.summary_turn) = Ret tt /\
  exists st1 st2,
    connect_to_server (Stub.scenario Stub.summary_turn) (mkClient "u1" "t1")
      "analysisagent/server.py" (push (EvInit "u1" "t1") initial) = (Ret tt, st1) /\
    process_query 2 (Stub.scenario Stub.summary_turn) "list files" st1
      = (Ret "The file says hello.", st2) /\
    snd (Main.analysis_agent 2 (Stub.scenario Stub.summary_turn) Stub.list_files initial)
      = push EvAclose st2.
Proof.
  exact (handler_returns_only_if_all_succeed 2 (Stub.scenario Stub.summary_turn)
           Stub.list_files initial
           (snd (Main.analysis_agent 2 (Stub.scenario Stub.summary_turn)
                   Stub.list_files initial))
           "The file says hello." eq_refl).
Defined.

(** X13.  Failures around the [try] statement of the handler.  An
    exception raised by [cleanup] becomes the outcome of the handler: it
    replaces the summary that [process_query] returned and any exception
    of the body.  An exception raised while the client is constructed leaves
    the handler before the [try] statement: nothing is launched and
    [cleanup] is not called. *)
Theorem handler_failures_outside_body
    (fuel : nat) (w : World) (request : Main.AnalysisRequest) (st : St) (e : exn) :
  (init_client w = Ret tt ->
   aclose w = Raise e ->
   fst (Main.analysis_agent fuel w request st) = Raise e \/
   fst (Main.analysis_agent fuel w request st) = Diverge) /\
  (init_client w = Raise e ->
   Main.analysis_agent fuel w request st
     = (Raise e, push (EvInit (Main.req_user_id request) (Main.req_ticket_id request)) st)).
Proof.
  split.
  - intros Hinit Hclose. rewrite handler_body_eq, Hinit.
    unfold Main.try_finally, cleanup, perform. rewrite Hclose.
    destruct (connect_to_server w _ _ _) as [[[]|e1|] st1]; auto.
    destruct (process_query fuel w _ st1) as [[s|e2|] st2]; auto.
  - intros Hinit. now rewrite handler_body_eq, Hinit.
Qed.

Lemma handler_failures_outside_body_witness :
  fst (Main.analysis_agent 2 Cases.cleanup_fails Stub.list_files initial)
    = Raise (ExternalError "Attempted to exit cancel scope in a different task") \/
  fst (Main.analysis_agent 2 Cases.cleanup_fails Stub.list_files initial) = Diverge.
Proof.
  exact (proj1 (handler_failures_outside_body 2 Cases.cleanup_fails Stub.list_files initial
                  (ExternalError "Attempted to exit cancel scope in a different task"))
           eq_refl eq_refl).
Defined.

(** * Properties of the tools of the server *)


(** * Properties of the tools of the server *)

Section Tools.
Import Server.
Variable h : Http.
Hypothesis enters : client_enter h = Eff.Val tt.
Hypothesis exits : client_exit h = Eff.Val tt.

(** [make_request] by what happened to the request. *)
Lemma make_request_cases url method data :
  (exists j,
      answered (response_to h url method data) j /\
      make_request h url method data =
        (Eff.Val j, [SvEnter; request_step url method data; SvExit])) \/
  (exists e,
      failed (response_to h url method data) e /\
      make_request h url method data =
        (Eff.Val Json.JNull,
         [SvEnter; request_step url method data;
          SvPrint ("Error making request: " ++ str_exn e)%string; SvExit])).
Proof.
  unfold make_request, Eff.with_context, response_to, request_step.
  rewrite enters, exits.
  destruct (String.eqb method "GET");
    unfold Eff.try_except, Eff.bind, Eff.perform, Eff.lift, Eff.emit, Eff.ret.
  - destruct (http_get h url) as [response|e] eqn:Hr.
    + destruct (raise_for_status response) as [[]|e] eqn:Hs.
      * destruct (json response) as [j|e] eqn:Hj.
        -- left. exists j. split; [now exists response|reflexivity].
        -- right. exists e. split; [right; exists response; now auto|reflexivity].
      * right. exists e. split; [right; exists response; now auto|reflexivity].
    + right. exists e. split; [now left|reflexivity].
  - destruct (http_post h url data) as [response|e] eqn:Hr.
    + destruct (raise_for_status response) as [[]|e] eqn:Hs.
      * destruct (json response) as [j|e] eqn:Hj.
        -- left. exists j. split; [now exists response|reflexivity].
        -- right. exists e. split; [right; exists response; now auto|reflexivity].
      * right. exists e. split; [right; exists response; now auto|reflexivity].
    + right. exists e. split; [now left|reflexivity].
Qed.

End Tools.

(** X14.  [make_request] turns every failure of the request into [None]:
    once the HTTP client is entered and left without error, it returns the
    parsed body when the request was answered, the status was no error and
    the body parsed; when the request, the status check or the parsing
    raised, it prints the exception and returns [None].  It never raises. *)
Theorem make_request_never_raises
    (h : Server.Http) (url method : string) (data : Json.t) :
  Server.client_enter h = Eff.Val tt ->
  Server.client_exit h = Eff.Val tt ->
  exists j,
    fst (Server.make_request h url method data) = Eff.Val j /\
    (answered (response_to h url method data) j \/
     (j = Json.JNull /\
      exists e,
        failed (response_to h url method data) e /\
        In (Server.SvPrint ("Error making request: " ++ Server.str_exn e)%string)
           (snd (Server.make_request h url method data)))).
Proof.
  intros Henter Hexit.
  destruct (make_request_cases h Henter Hexit url method data)
    as [(j & Hj & ->)|(e & He & ->)].
  - exists j. split; [reflexivity|now left].
  - exists Json.JNull. split; [reflexivity|]. right. split; [reflexivity|].
    exists e. split; [assumption|]. cbn. tauto.
Qed.

Lemma make_request_never_raises_witness :
  exists j,
    fst (Server.make_request HttpCases.missing "http://3.22.181.115/read_file/u1" "GET"
           Json.JNull) = Eff.Val j /\
    (answered (response_to HttpCases.missing "http://3.22.181.115/read_file/u1" "GET"
                 Json.JNull) j \/
     (j = Json.JNull /\
      exists e,
        failed (response_to HttpCases.missing "http://3.22.181.115/read_file/u1" "GET"
                  Json.JNull) e /\
        In (Server.SvPrint ("Error making request: " ++ Server.str_exn e)%string)
           (snd (Server.make_request HttpCases.missing "http://3.22.181.115/read_file/u1"
                   "GET" Json.JNull)))).
Proof.
  exact (make_request_never_raises HttpCases.missing "http://3.22.181.115/read_file/u1"
           "GET" Json.JNull eq_refl eq_refl).
Defined.

(** X15.  Only the exact method name [GET] is sent as a GET request; with
    any other method name -- [get], [PUT], the empty string -- the request
    goes out as a POST with [data] as its JSON body. *)
Theorem other_methods_are_posted
    (h : Server.Http) (url method : string) (data : Json.t) :
  method <> "GET" ->
  Server.client_enter h = Eff.Val tt ->
  filter Server.is_get (snd (Server.make_request h url method data)) = [] /\
  In (Server.SvPost url Server.headers data 30)
     (snd (Server.make_request h url method data)).
Proof.
  intros Hm Henter. apply String.eqb_neq in Hm.
  unfold Server.make_request, Eff.with_context. rewrite Henter, Hm.
  unfold Eff.try_except, Eff.bind, Eff.perform, Eff.lift, Eff.emit, Eff.ret.
  destruct (Server.http_post h url data) as [response|e];
    [destruct (Server.raise_for_status response) as [[]|e];
     [destruct (Server.json response) as [j|e]|]|];
    destruct (Server.client_exit h) as [[]|e']; cbn; tauto.
Qed.

Lemma other_methods_are_posted_witness :
  filter Server.is_get
    (snd (Server.make_request (HttpCases.serving (Json.JStr "ok"))
            "http://3.22.181.115/read_file/u1" "get" Json.JNull)) = [] /\
  In (Server.SvPost "http://3.22.181.115/read_file/u1" Server.headers Json.JNull 30)
     (snd (Server.make_request (HttpCases.serving (Json.JStr "ok"))
             "http://3.22.181.115/read_file/u1" "get" Json.JNull)).
Proof.
  apply (other_methods_are_posted (HttpCases.serving (Json.JStr "ok"))
           "http://3.22.181.115/read_file/u1" "get" Json.JNull);
    [discriminate|reflexivity].
Defined.

Section ToolResults.
Import Server.
Variable h : Http.
Hypothesis enters : client_enter h = Eff.Val tt.
Hypothesis exits : client_exit h = Eff.Val tt.

Lemma tool_result_cases url method data (fallback : string) :
  let run :=
    Eff.bind (make_request h url method data)
      (fun j => if negb (Json.truthy j) then Eff.ret fallback
                else Eff.ret (str h j)) in
  filter (fun s => is_get s || is_post s) (snd run) = [request_step url method data] /\
  ((exists j,
       answered (response_to h url method data) j /\
       Json.truthy j = true /\ fst run = Eff.Val (str h j)) \/
   (fst run = Eff.Val fallback /\
    ((exists j, answered (response_to h url method data) j /\ Json.truthy j = false) \/
     exists e, failed (response_to h url method data) e))).
Proof.
  cbv zeta.
  assert (Hstep : (is_get (request_step url method data)
                   || is_post (request_step url method data) = true)%bool)
    by (unfold request_step; now destruct (String.eqb method "GET")).
  destruct (make_request_cases h enters exits url method data)
    as [(j & Hj & ->)|(e & He & ->)]; unfold Eff.bind, Eff.ret.
  - destruct (Json.truthy j) eqn:Ht; cbn [negb fst snd filter app is_get is_post orb];
      rewrite Hstep; (split; [reflexivity|]).
    + left. now exists j.
    + right. split; [reflexivity|]. left. now exists j.
  - cbn [Json.truthy negb fst snd filter app is_get is_post orb].
    rewrite Hstep. split; [reflexivity|]. right. split; [reflexivity|]. right. now exists e.
Qed.

End ToolResults.

(** X16.  The tool [read_file] never raises and never reports an error of
    its own: once the HTTP client is entered and left without error it
    sends exactly one request, a GET of
    [API_BASE/read_file/<user id>?file_path=<file_path>] with the path as
    it was given, and returns a text -- [str] of the parsed body when the
    request was answered with a body that counts as true, and the sentence
    [Unable to read file ...] in every other case. *)
Theorem read_file_returns_text
    (h : Server.Http) (user_id : option string) (file_path : string) :
  Server.client_enter h = Eff.Val tt ->
  Server.client_exit h = Eff.Val tt ->
  let url := ("http://3.22.181.115/read_file/" ++ Server.format_user_id user_id
                ++ "?file_path=" ++ file_path)%string in
  let run := Server.read_file h user_id file_path in
  filter (fun s => Server.is_get s || Server.is_post s) (snd run)
    = [Server.SvGet url Server.headers 30] /\
  ((exists data,
       answered (Server.http_get h url) data /\
       Json.truthy data = true /\ fst run = Eff.Val (Server.str h data)) \/
   (fst run
      = Eff.Val "Unable to read file. Please check the file path and try again." /\
    ((exists data, answered (Server.http_get h url) data /\ Json.truthy data = false) \/
     exists e, failed (Server.http_get h url) e))).
Proof.
  intros Henter Hexit.
  exact (tool_result_cases h Henter Hexit _ "GET" Json.JNull Server.unable_to_read).
Qed.

Lemma read_file_returns_text_witness :
  let h := HttpCases.serving (Json.JDict [("content", Json.JStr "hello")]) in
  let url := "http://3.22.181.115/read_file/u1?file_path=/a.txt" in
  let run := Server.read_file h (Some "u1") "/a.txt" in
  filter (fun s => Server.is_get s || Server.is_post s) (snd run)
    = [Server.SvGet url Server.headers 30] /\
  ((exists data,
       answered (Server.http_get h url) data /\
       Json.truthy data = true /\ fst run = Eff.Val (Server.str h data)) \/
   (fst run
      = Eff.Val "Unable to read file. Please check the file path and try again." /\
    ((exists data, answered (Server.http_get h url) data /\ Json.truthy data = false) \/
     exists e, failed (Server.http_get h url) e))).
Proof.
  exact (read_file_returns_text
           (HttpCases.serving (Json.JDict [("content", Json.JStr "hello")]))
           (Some "u1") "/a.txt" eq_refl eq_refl).
Defined.

(** X17.  The tool [retrieve_metadata] never raises either: it sends one
    POST to [API_BASE/retrieve_metadata/<user id>] whose JSON body holds
    [metadata_type] and [file_name], and returns [str] of the parsed body
    when it counts as true, else the sentence [Unable to retrieve
    <metadata_type> metadata ...]. *)
Theorem retrieve_metadata_returns_text
    (h : Server.Http) (user_id : option string) (metadata_type file_name : string) :
  Server.client_enter h = Eff.Val tt ->
  Server.client_exit h = Eff.Val tt ->
  let url := ("http://3.22.181.115/retrieve_metadata/"
                ++ Server.format_user_id user_id)%string in
  let body := Json.JDict [("metadata_type", Json.JStr metadata_type);
                          ("file_name", Json.JStr file_name)] in
  let run := Server.retrieve_metadata h user_id metadata_type file_name in
  filter (fun s => Server.is_get s || Server.is_post s) (snd run)
    = [Server.SvPost url Server.headers body 30] /\
  ((exists data,
       answered (Server.http_post h url body) data /\
       Json.truthy data = true /\ fst run = Eff.Val (Server.str h data)) \/
   (fst run
      = Eff.Val ("Unable to retrieve " ++ metadata_type
                   ++ " metadata. Please check the parameters and try again.")%string /\
    ((exists data, answered (Server.http_post h url body) data /\
                   Json.truthy data = false) \/
     exists e, failed (Server.http_post h url body) e))).
Proof.
  intros Henter Hexit.
  exact (tool_result_cases h Henter Hexit _ "POST" _ _).
Qed.

Lemma retrieve_metadata_returns_text_witness :
  let h := HttpCases.missing in
  let url := "http://3.22.181.115/retrieve_metadata/None" in
  let body := Json.JDict [("metadata_type", Json.JStr "Flow");
                          ("file_name", Json.JStr "*")] in
  let run := Server.retrieve_metadata h None "Flow" Server.any_file_name in
  filter (fun s => Server.is_get s || Server.is_post s) (snd run)
    = [Server.SvPost url Server.headers body 30] /\
  ((exists data,
       answered (Server.http_post h url body) data /\
       Json.truthy data = true /\ fst run = Eff.Val (Server.str h data)) \/
   (fst run
      = Eff.Val "Unable to retrieve Flow metadata. Please check the parameters and try again." /\
    ((exists data, answered (Server.http_post h url body) data /\
                   Json.truthy data = false) \/
     exists e, failed (Server.http_post h url body) e))).
Proof.
  exact (retrieve_metadata_returns_text HttpCases.missing None "Flow" Server.any_file_name
           eq_refl eq_refl).
Defined.

(** X18.  An answer that is empty counts as a failure: when the service
    answers the request of [read_file] without error but with a body that
    is [null], [false], [0], an empty string, an empty list or an empty
    object, the tool returns [Unable to read file ...] as if the request
    had failed. *)
Theorem read_file_empty_answer
    (h : Server.Http) (user_id : option string) (file_path : string)
    (data : Json.t) :
  Server.client_enter h = Eff.Val tt ->
  Server.client_exit h = Eff.Val tt ->
  answered
    (Server.http_get h
       ("http://3.22.181.115/read_file/" ++ Server.format_user_id user_id
          ++ "?file_path=" ++ file_path)%string) data ->
  data = Json.JNull \/ data = Json.JBool false \/ data = Json.JInt BinNums.Z0 \/
  data = Json.JStr "" \/ data = Json.JList [] \/ data = Json.JDict [] ->
  fst (Server.read_file h user_id file_path)
    = Eff.Val "Unable to read file. Please check the file path and try again.".
Proof.
  intros Henter Hexit (response & Hr & Hs & Hj) Hdata.
  unfold Server.read_file, Server.make_request, Eff.with_context.
  rewrite Henter, Hexit. change (String.eqb "GET" "GET") with true. cbv iota.
  unfold Eff.try_except, Eff.bind, Eff.perform, Eff.lift, Eff.emit, Eff.ret.
  assert (Hr' : Server.http_get h
                  (Server.API_BASE ++ "/read_file/" ++ Server.format_user_id user_id
                     ++ "?file_path=" ++ file_path)%string = Eff.Val response)
    by exact Hr.
  rewrite Hr', Hs, Hj.
  destruct Hdata as [-> | [-> | [-> | [-> | [-> | ->]]]]]; reflexivity.
Qed.

Lemma read_file_empty_answer_witness :
  fst (Server.read_file (HttpCases.serving (Json.JDict [])) (Some "u1") "/a.txt")
    = Eff.Val "Unable to read file. Please check the file path and try again.".
Proof.
  apply (read_file_empty_answer (HttpCases.serving (Json.JDict [])) (Some "u1") "/a.txt"
           (Json.JDict []) eq_refl eq_refl).
  - now exists (HttpCases.ok (Json.JDict [])).
  - now repeat right.
Defined.

(** X19.  The tool reads the files of the requester: the registry process
    that [connect_to_server] launches finds the id of the client in its
    environment variable [USER_ID], so [read_file] run in that process
    requests [API_BASE/read_file/<id of the client>?file_path=...]. *)
Theorem tool_requests_for_the_client
    (w : World) (self : Client) (server_script_path : string) (st st' : St)
    (h : Server.Http) (file_path : string) :
  connect_to_server w self server_script_path st = (Ret tt, st') ->
  Server.client_enter h = Eff.Val tt ->
  exists command env,
    events st' =
      events st ++ [EvStdioClient command [server_script_path] env;
                    EvClientSession; EvInitialize; EvListTools] /\
    Server.environ_get env "USER_ID" = Some (user_id self) /\
    In (Server.SvGet
          ("http://3.22.181.115/read_file/" ++ user_id self
             ++ "?file_path=" ++ file_path)%string Server.headers 30)
       (snd (Server.read_file h (Server.environ_get env "USER_ID") file_path)).
Proof.
  intros Hconnect Henter.
  destruct (connect_returns_after_handshake_steps w self server_script_path st st' Hconnect)
    as (command & Hev).
  exists command, [("USER_ID", user_id self)].
  split; [exact Hev|]. split; [reflexivity|].
  cbn [Server.environ_get]. rewrite String.eqb_refl.
  unfold Server.read_file, Server.make_request, Eff.with_context.
  rewrite Henter. change (String.eqb "GET" "GET") with true. cbv iota.
  unfold Eff.try_except, Eff.bind, Eff.perform, Eff.lift, Eff.emit, Eff.ret.
  cbn [Server.format_user_id].
  destruct (Server.http_get h _) as [response|e];
    [destruct (Server.raise_for_status response) as [[]|e];
     [destruct (Server.json response) as [j|e]|]|];
    destruct (Server.client_exit h) as [[]|e'];
    repeat match goal with
           | |- context [if ?b then _ else _] => destruct b
           end; cbn; tauto.
Qed.

Lemma tool_requests_for_the_client_witness :
  let w := Stub.scenario Stub.summary_turn in
  let st' := snd (connect_to_server w (mkClient "u1" "t1") "analysis/server.py" initial) in
  exists command env,
    events st' =
      [EvStdioClient command ["analysis/server.py"] env;
       EvClientSession; EvInitialize; EvListTools] /\
    Server.environ_get env "USER_ID" = Some "u1" /\
    In (Server.SvGet "http://3.22.181.115/read_file/u1?file_path=/a.txt" Server.headers 30)
       (snd (Server.read_file (HttpCases.serving (Json.JStr "hello"))
               (Server.environ_get env "USER_ID") "/a.txt")).
Proof.
  exact (tool_requests_for_the_client (Stub.scenario Stub.summary_turn)
           (mkClient "u1" "t1") "analysis/server.py" initial
           (snd (connect_to_server (Stub.scenario Stub.summary_turn) (mkClient "u1" "t1")
                   "analysis/server.py" initial))
           (HttpCases.serving (Json.JStr "hello")) "/a.txt" eq_refl eq_refl).
Defined.

(** * Properties of the OAuth flow *)

Section NewUser.
Import OAuth Flow.
Variable w : Web.
Variable url : string.

Lemma times_app p l1 l2 : times p (l1 ++ l2) = times p l1 + times p l2.
Proof. unfold times. now rewrite filter_app, length_app. Qed.

(** The loop over the attempts never raises. *)
Lemma new_user_attempts_return attempts :
  fst (new_user_attempts w url attempts) = Eff.Val tt.
Proof.
  induction attempts as [|attempt rest IH]; [reflexivity|].
  cbn [new_user_attempts].
  destruct (new_user_attempts w url rest) as [r steps']. cbn [fst] in IH. subst r.
  destruct (new_user_post w attempt url) as [response|[status detail|msg|class msg]];
    unfold Eff.bind, Eff.emit, print, Eff.emit, Eff.ret;
    try reflexivity.
  - destruct (Nat.eqb (status_code response) 200); [reflexivity|].
    destruct (Nat.leb 500 (status_code response)); [|reflexivity].
    now destruct (Nat.ltb attempt 2).
  - now destruct (Nat.ltb attempt 2).
Qed.

(** One iteration of the loop over the attempts: one request; the loop goes
    on when the attempt is retryable, after a pause unless it was the
    third attempt. *)
Lemma new_user_attempt attempt rest :
  let steps := snd (new_user_attempts w url (attempt :: rest)) in
  let later := snd (new_user_attempts w url rest) in
  times is_new_user_post steps =
    1 + (if retryable (new_user_post w attempt url)
         then times is_new_user_post later else 0) /\
  times is_sleep steps =
    (if retryable (new_user_post w attempt url)
     then (if Nat.ltb attempt 2 then 1 else 0) + times is_sleep later else 0).
Proof.
  cbv zeta. cbn [new_user_attempts].
  pose proof (new_user_attempts_return rest) as Hret.
  destruct (new_user_attempts w url rest) as [r steps']. cbn [fst snd] in *. subst r.
  destruct (new_user_post w attempt url) as [response|[status detail|msg|class msg]];
    cbn [retryable];
    unfold Eff.bind, Eff.emit, print, Eff.emit, Eff.ret.
  - destruct (Nat.eqb (status_code response) 200); cbn [negb andb]; [now split|].
    destruct (Nat.leb 500 (status_code response)); [|now split].
    destruct (Nat.ltb attempt 2); cbn [fst snd app]; unfold times;
      cbn [filter is_new_user_post is_sleep List.length]; split; reflexivity.
  - now split.
  - destruct (Nat.ltb attempt 2); cbn [fst snd app]; unfold times;
      cbn [filter is_new_user_post is_sleep List.length]; split; reflexivity.
  - now split.
Qed.

End NewUser.

Section Callback.
Import OAuth Flow.
Variable w : Web.

Lemma call_new_user_returns user_id :
  fst (call_new_user w user_id) = Eff.Val tt.
Proof.
  unfold call_new_user, Eff.try_except, Eff.bind, print, Eff.emit, Eff.with_context, Eff.ret.
  destruct (client_enter w 1) as [[]|e]; [|reflexivity].
  pose proof (new_user_attempts_return w
                (API_BASE ++ "/new_user/" ++ format w user_id)%string [0; 1; 2]) as H.
  destruct (new_user_attempts w _ _) as [r steps]. cbn [fst] in H. subst r.
  now destruct (client_exit w 1) as [[]|e].
Qed.

(** The steps of [call_new_user] once its HTTP client is entered. *)
Lemma call_new_user_steps user_id :
  client_enter w 1 = Eff.Val tt ->
  exists before after,
    snd (call_new_user w user_id) =
      before ++ snd (new_user_attempts w
                       (API_BASE ++ "/new_user/" ++ format w user_id)%string [0; 1; 2])
             ++ after /\
    times is_new_user_post before = 0 /\ times is_sleep before = 0 /\
    times is_new_user_post after = 0 /\ times is_sleep after = 0.
Proof.
  intros Henter.
  unfold call_new_user, Eff.try_except, Eff.bind, print, Eff.emit, Eff.with_context, Eff.ret.
  rewrite Henter.
  set (url := (API_BASE ++ "/new_user/" ++ format w user_id)%string).
  pose proof (new_user_attempts_return w url [0; 1; 2]) as Hret.
  destruct (new_user_attempts w url [0; 1; 2]) as [r steps]. cbn [fst snd] in *. subst r.
  exists [OaPrint ("Making request to: " ++ url); OaPrint ("With headers: " ++ headers_text);
          OaEnter 1].
  destruct (client_exit w 1) as [[]|e]; cbn [fst snd app].
  - exists [OaExit 1]. split; [reflexivity|]. now repeat split.
  - exists [OaExit 1;
            OaPrint ("Warning: Error calling new_user endpoint: " ++ str_exc w e);
            OaPrint ("Error type: " ++ type_repr w e);
            OaPrint ("Traceback: " ++ format_exc w e)].
    split; [|now repeat split].
    now rewrite <- app_assoc.
Qed.

(** Reading the state either gives a user id and an environment that count
    as true, or is refused with status 400; it takes no step. *)
Lemma read_state_cases state :
  (exists user_id environment,
      read_state w state = (Eff.Val (user_id, environment), []) /\
      state_holds w state user_id environment) \/
  (exists msg,
      read_state w state =
        (Eff.Exc (HTTPException 400 ("Invalid state parameter: " ++ msg)), [])).
Proof.
  unfold read_state, Eff.try_except, Eff.bind, Eff.lift, Eff.raise, Eff.ret.
  destruct (decode_state w state) as [state_data|e] eqn:Hd; [|right; now eexists].
  destruct state_data as [|b|n|s|l|d]; cbn [get]; try (right; now eexists).
  destruct (Json.truthy (lookup d "userId")) eqn:Hu; cbn [negb orb];
    [|right; now eexists].
  destruct (Json.truthy (lookup d "environment")) eqn:He; cbn [negb];
    [|right; now eexists].
  left. exists (lookup d "userId"), (lookup d "environment").
  split; [reflexivity|]. now exists d.
Qed.

Lemma token_url_found environment :
  getitem (get_salesforce_urls environment) "token_url"
    = Eff.Val (token_url_of environment).
Proof.
  unfold get_salesforce_urls, token_url_of. now destruct (is_sandbox environment).
Qed.

End Callback.

Section ValidCallback.
Import OAuth Flow.
Variable w : Web.

Lemma bind_lift_val {A B} (a : A) (k : A -> Eff.W Step exc B) :
  Eff.bind (Eff.lift (Eff.Val a)) k = k a.
Proof. unfold Eff.bind, Eff.lift. now destruct (k a). Qed.

Lemma bind_val_nil {A B} (a : A) (k : A -> Eff.W Step exc B) :
  Eff.bind (Eff.Val a, []) k = k a.
Proof. unfold Eff.bind. now destruct (k a). Qed.

Lemma read_state_holds s user_id environment :
  state_holds w s user_id environment ->
  read_state w s = (Eff.Val (user_id, environment), []).
Proof.
  intros (d & Hd & -> & -> & Hu & He).
  unfold read_state. rewrite Hd, bind_lift_val. cbn [get].
  rewrite !bind_lift_val, Hu, He. reflexivity.
Qed.

(** The callback for a request that passed the checks. *)
Lemma oauth_callback_valid c s user_id environment :
  c <> "" -> s <> "" ->
  state_holds w s user_id environment ->
  oauth_callback w (Some c) (Some s) =
  Eff.with_context (OaEnter 0) (client_enter w 0) (OaExit 0) (client_exit w 0)
    (Eff.bind
       (Eff.perform (OaTokenPost (token_url_of environment) (token_data w c))
          (token_post w (token_url_of environment) (token_data w c)))
       (fun response =>
          if negb (Nat.eqb (status_code response) 200)
          then Eff.raise (HTTPException 400 "Failed to obtain access token")
          else
            Eff.bind (Eff.lift (json response)) (fun token_response =>
            Eff.bind (Eff.lift (get token_response "access_token")) (fun access_token =>
            Eff.bind (Eff.lift (get token_response "refresh_token")) (fun refresh_token =>
            Eff.bind (Eff.lift (get token_response "instance_url")) (fun instance_url =>
            Eff.bind
              (Eff.perform (OaDbUpdate user_id access_token refresh_token instance_url)
                 (db_update w user_id access_token refresh_token instance_url))
              (fun _ =>
                 Eff.bind (call_new_user w user_id)
                   (fun _ => Eff.ret (FRONTEND_URL w ++ "/excel-tasks")%string)))))))).
Proof.
  intros Hc Hs Hstate.
  unfold oauth_callback. cbn [missing value].
  apply String.eqb_neq in Hc, Hs. rewrite Hc, Hs. cbn [orb].
  rewrite (read_state_holds _ _ _ Hstate), bind_val_nil. cbn [fst snd].
  now rewrite token_url_found, bind_lift_val.
Qed.

(** The steps of the callback, whatever the request. *)
Lemma oauth_callback_steps code state :
  let steps := snd (oauth_callback w code state) in
  steps = [] \/ steps = [OaEnter 0] \/
  exists c s user_id environment middle,
    code = Some c /\ c <> "" /\ state = Some s /\ s <> "" /\
    state_holds w s user_id environment /\
    steps = OaEnter 0
              :: OaTokenPost (token_url_of environment) (token_data w c)
              :: middle ++ [OaExit 0] /\
    (middle = [] \/
     exists access_token refresh_token instance_url,
       middle = [OaDbUpdate user_id access_token refresh_token instance_url] \/
       middle = OaDbUpdate user_id access_token refresh_token instance_url
                  :: snd (call_new_user w user_id)).
Proof.
  cbv zeta.
  destruct code as [c|]; [|now left].
  destruct state as [s|]; [|left; unfold oauth_callback; cbn; now destruct (String.eqb c "")].
  destruct (String.eqb_spec c "") as [->|Hc]; [now left|].
  destruct (String.eqb_spec s "") as [->|Hs];
    [left; unfold oauth_callback; cbn [missing];
     apply String.eqb_neq in Hc; now rewrite Hc|].
  destruct (read_state_cases w s) as [(u & e & Hread & Hstate)|(msg & Hread)].
  2:{ left. unfold oauth_callback. cbn [missing value].
      apply String.eqb_neq in Hc, Hs. rewrite Hc, Hs. cbn [orb].
      now rewrite Hread. }
  rewrite (oauth_callback_valid c s u e Hc Hs Hstate).
  unfold Eff.with_context.
  destruct (client_enter w 0) as [[]|x]; [|right; now left].
  right; right. exists c, s, u, e.
  unfold Eff.bind at 1, Eff.perform at 1.
  destruct (token_post w _ _) as [response|x].
  2:{ exists []. cbn [fst snd app].
      destruct (client_exit w 0) as [[]|x']; repeat split; auto. }
  destruct (Nat.eqb (status_code response) 200); cbn [negb].
  2:{ exists []. unfold Eff.raise. cbn [fst snd app].
      destruct (client_exit w 0) as [[]|x']; repeat split; auto. }
  destruct (json response) as [token_response|x]; [rewrite bind_lift_val|].
  2:{ exists []. unfold Eff.bind, Eff.lift. cbn [fst snd app].
      destruct (client_exit w 0) as [[]|x']; repeat split; auto. }
  destruct (get token_response "access_token") as [access|x]; [rewrite bind_lift_val|].
  2:{ exists []. unfold Eff.bind, Eff.lift. cbn [fst snd app].
      destruct (client_exit w 0) as [[]|x']; repeat split; auto. }
  destruct (get token_response "refresh_token") as [refresh|x]; [rewrite bind_lift_val|].
  2:{ exists []. unfold Eff.bind, Eff.lift. cbn [fst snd app].
      destruct (client_exit w 0) as [[]|x']; repeat split; auto. }
  destruct (get token_response "instance_url") as [instance|x]; [rewrite bind_lift_val|].
  2:{ exists []. unfold Eff.bind, Eff.lift. cbn [fst snd app].
      destruct (client_exit w 0) as [[]|x']; repeat split; auto. }
  unfold Eff.bind at 1, Eff.perform at 1.
  destruct (db_update w u access refresh instance) as [[]|x].
  2:{ exists [OaDbUpdate u access refresh instance]. cbn [fst snd app].
      destruct (client_exit w 0) as [[]|x']; repeat split; eauto 6. }
  pose proof (call_new_user_returns w u) as Hret.
  unfold Eff.bind, Eff.ret.
  destruct (call_new_user w u) as [r steps]. cbn [fst] in Hret. subst r.
  exists (OaDbUpdate u access refresh instance :: steps).
  cbn [fst snd app]. rewrite app_nil_r.
  destruct (client_exit w 0) as [[]|x']; repeat split; eauto 7.
Qed.

End ValidCallback.

Section Policy.
Import OAuth Flow.
Variable w : Web.

Lemma attempts_policy url :
  let tried k := retryable (new_user_post w k url) in
  let steps := snd (new_user_attempts w url [0; 1; 2]) in
  times is_new_user_post steps = (if tried 0 then if tried 1 then 3 else 2 else 1) /\
  times is_sleep steps = times is_new_user_post steps - 1.
Proof.
  cbv zeta.
  destruct (new_user_attempt w url 0 [1; 2]) as (Hp0 & Hs0).
  destruct (new_user_attempt w url 1 [2]) as (Hp1 & Hs1).
  destruct (new_user_attempt w url 2 []) as (Hp2 & Hs2).
  cbv zeta in *. rewrite Hp0, Hs0, Hp1, Hs1, Hp2, Hs2.
  change (snd (new_user_attempts w url [])) with (@nil Step).
  change (times is_new_user_post []) with 0. change (times is_sleep []) with 0.
  destruct (retryable (new_user_post w 0 url)), (retryable (new_user_post w 1 url)),
    (retryable (new_user_post w 2 url)); split; reflexivity.
Qed.

Lemma call_new_user_bounds user_id :
  times is_new_user_post (snd (call_new_user w user_id)) <= 3 /\
  times is_sleep (snd (call_new_user w user_id)) <= 2 /\
  times is_db_update (snd (call_new_user w user_id)) = 0 /\
  times is_token_post (snd (call_new_user w user_id)) = 0.
Proof.
  destruct (client_enter w 1) as [[]|x] eqn:Henter.
  - destruct (call_new_user_steps w user_id Henter)
      as (before & after & Hsteps & Hb1 & Hb2 & Ha1 & Ha2).
    destruct (attempts_policy (API_BASE ++ "/new_user/" ++ format w user_id)%string)
      as (Hposts & Hsleeps).
    cbv zeta in *.
    assert (Hother : forall attempts url,
               times is_db_update (snd (new_user_attempts w url attempts)) = 0 /\
               times is_token_post (snd (new_user_attempts w url attempts)) = 0).
    { induction attempts as [|attempt rest IH]; intros url; [now split|].
      specialize (IH url). cbn [new_user_attempts].
      destruct (new_user_attempts w url rest) as [r steps']. cbn [snd] in IH.
      destruct IH as (IH1 & IH2).
      destruct (new_user_post w attempt url) as [response|[status detail|msg|class msg]];
        unfold Eff.bind, Eff.emit, print, Eff.emit, Eff.ret; try now split.
      - destruct (Nat.eqb (status_code response) 200); [now split|].
        destruct (Nat.leb 500 (status_code response)); [|now split].
        destruct (Nat.ltb attempt 2); cbn [fst snd app]; unfold times in *;
          cbn [filter is_db_update is_token_post]; now split.
      - destruct (Nat.ltb attempt 2); cbn [fst snd app]; unfold times in *;
          cbn [filter is_db_update is_token_post]; now split. }
    revert Hsteps.
    unfold call_new_user, Eff.try_except, Eff.bind, print, Eff.emit, Eff.with_context,
      Eff.ret. rewrite Henter.
    set (url := (API_BASE ++ "/new_user/" ++ format w user_id)%string) in *.
    destruct (Hother [0; 1; 2] url) as (Hdb & Htok).
    pose proof (new_user_attempts_return w url [0; 1; 2]) as Hret.
    destruct (new_user_attempts w url [0; 1; 2]) as [r steps]. cbn [fst snd] in *. subst r.
    intros _.
    destruct (client_exit w 1) as [[]|x]; cbn [fst snd app];
      unfold times in *; rewrite ?filter_app, ?length_app;
      cbn [filter is_new_user_post is_sleep is_db_update is_token_post List.length app];
      rewrite ?filter_app, ?length_app;
      cbn [filter is_new_user_post is_sleep is_db_update is_token_post List.length];
      destruct (retryable (new_user_post w 0 url)), (retryable (new_user_post w 1 url));
      lia.
  - unfold call_new_user, Eff.try_except, Eff.bind, print, Eff.emit, Eff.with_context,
      Eff.ret. rewrite Henter. cbn. repeat split; lia.
Qed.

End Policy.

(** X20.  The retry policy of the call to the [new_user] endpoint, once its
    HTTP client is entered: an attempt is made again only after a status of
    500 or more or a read timeout, up to three attempts in all; a 200, any
    other status below 500 and any other exception end the attempts.  The
    pauses are one fewer than the attempts: one between two attempts and
    none after the last one. *)
Theorem new_user_retry_policy (w : OAuth.Web) (user_id : Json.t) :
  OAuth.client_enter w 1 = Eff.Val tt ->
  let url := (OAuth.API_BASE ++ "/new_user/" ++ OAuth.format w user_id)%string in
  let tried k := Flow.retryable (OAuth.new_user_post w k url) in
  let steps := snd (OAuth.call_new_user w user_id) in
  Flow.times OAuth.is_new_user_post steps
    = (if tried 0 then if tried 1 then 3 else 2 else 1) /\
  Flow.times OAuth.is_sleep steps = Flow.times OAuth.is_new_user_post steps - 1.
Proof.
  intros Henter. cbv zeta.
  destruct (call_new_user_steps w user_id Henter)
    as (before & after & -> & Hb1 & Hb2 & Ha1 & Ha2).
  destruct (attempts_policy w (OAuth.API_BASE ++ "/new_user/" ++ OAuth.format w user_id)%string)
    as (Hposts & Hsleeps).
  cbv zeta in *. rewrite !times_app, Hb1, Hb2, Ha1, Ha2, Hsleeps, Hposts.
  split; lia.
Qed.

Lemma new_user_retry_policy_witness :
  let w := WebCases.web 200 WebCases.recovering in
  let steps := snd (OAuth.call_new_user w (Json.JStr "u1")) in
  Flow.times OAuth.is_new_user_post steps = 3 /\
  Flow.times OAuth.is_sleep steps = Flow.times OAuth.is_new_user_post steps - 1.
Proof.
  exact (new_user_retry_policy (WebCases.web 200 WebCases.recovering) (Json.JStr "u1")
           eq_refl).
Defined.

(** X21.  Nothing the [new_user] endpoint does can fail the callback: when
    the state is valid, the token exchange answers 200 with a JSON object,
    the tokens are stored and the HTTP client closes, the callback
    redirects to [FRONTEND_URL/excel-tasks] -- whatever the endpoint
    answers, however its requests fail, and even when its HTTP client
    cannot be created or closed. *)
Theorem callback_survives_new_user
    (w : OAuth.Web) (c s : string) (user_id environment : Json.t)
    (response : OAuth.Response) (tokens : list (string * Json.t)) :
  c <> "" -> s <> "" ->
  Flow.state_holds w s user_id environment ->
  OAuth.client_enter w 0 = Eff.Val tt ->
  OAuth.client_exit w 0 = Eff.Val tt ->
  OAuth.token_post w (Flow.token_url_of environment) (OAuth.token_data w c)
    = Eff.Val response ->
  OAuth.status_code response = 200 ->
  OAuth.json response = Eff.Val (Json.JDict tokens) ->
  OAuth.db_update w user_id (OAuth.lookup tokens "access_token")
    (OAuth.lookup tokens "refresh_token") (OAuth.lookup tokens "instance_url")
    = Eff.Val tt ->
  fst (OAuth.oauth_callback w (Some c) (Some s))
    = Eff.Val (OAuth.FRONTEND_URL w ++ "/excel-tasks")%string.
Proof.
  intros Hc Hs Hstate Henter Hexit Hpost Hstatus Hjson Hdb.
  rewrite (oauth_callback_valid w c s user_id environment Hc Hs Hstate).
  unfold Eff.with_context. rewrite Henter, Hexit.
  unfold Eff.bind at 1, Eff.perform at 1. rewrite Hpost, Hstatus. cbn [Nat.eqb negb].
  rewrite Hjson, bind_lift_val. cbn [OAuth.get]. rewrite !bind_lift_val.
  unfold Eff.bind at 1, Eff.perform at 1. rewrite Hdb.
  pose proof (call_new_user_returns w user_id) as Hret.
  unfold Eff.bind, Eff.ret.
  destruct (OAuth.call_new_user w user_id) as [r steps]. cbn [fst] in Hret. now subst r.
Qed.

Lemma callback_survives_new_user_witness :
  fst (OAuth.oauth_callback (WebCases.web 200 WebCases.refusing)
         (Some "abc") (Some "u1|sandbox"))
    = Eff.Val "https://app.example.com/excel-tasks".
Proof.
  apply (callback_survives_new_user (WebCases.web 200 WebCases.refusing)
           "abc" "u1|sandbox" (Json.JStr "u1") (Json.JStr "sandbox")
           (WebCases.answer 200 WebCases.tokens)
           [("access_token", Json.JStr "00D...");
            ("refresh_token", Json.JStr "5Aep...");
            ("instance_url", Json.JStr "https://na1.salesforce.com")]);
    try reflexivity; try discriminate.
  eexists. repeat split; reflexivity.
Defined.

(** X22.  When the token exchange answers with any status other than 200
    (201 and 302 included), the callback fails with status 400 and
    [Failed to obtain access token]: the HTTP client is closed, nothing is
    stored and the [new_user] endpoint is not called. *)
Theorem callback_rejects_token_failure
    (w : OAuth.Web) (c s : string) (user_id environment : Json.t)
    (response : OAuth.Response) :
  c <> "" -> s <> "" ->
  Flow.state_holds w s user_id environment ->
  OAuth.client_enter w 0 = Eff.Val tt ->
  OAuth.client_exit w 0 = Eff.Val tt ->
  OAuth.token_post w (Flow.token_url_of environment) (OAuth.token_data w c)
    = Eff.Val response ->
  OAuth.status_code response <> 200 ->
  OAuth.oauth_callback w (Some c) (Some s) =
    (Eff.Exc (OAuth.HTTPException 400 "Failed to obtain access token"),
     [OAuth.OaEnter 0;
      OAuth.OaTokenPost (Flow.token_url_of environment) (OAuth.token_data w c);
      OAuth.OaExit 0]).
Proof.
  intros Hc Hs Hstate Henter Hexit Hpost Hstatus.
  rewrite (oauth_callback_valid w c s user_id environment Hc Hs Hstate).
  unfold Eff.with_context. rewrite Henter, Hexit.
  unfold Eff.bind at 1, Eff.perform at 1. rewrite Hpost.
  apply Nat.eqb_neq in Hstatus. rewrite Hstatus. reflexivity.
Qed.

Lemma callback_rejects_token_failure_witness :
  OAuth.oauth_callback (WebCases.web 201 WebCases.refusing) (Some "abc") (Some "u1|sandbox") =
    (Eff.Exc (OAuth.HTTPException 400 "Failed to obtain access token"),
     [OAuth.OaEnter 0;
      OAuth.OaTokenPost "https://test.salesforce.com/services/oauth2/token"
        (OAuth.token_data (WebCases.web 201 WebCases.refusing) "abc");
      OAuth.OaExit 0]).
Proof.
  apply (callback_rejects_token_failure (WebCases.web 201 WebCases.refusing)
           "abc" "u1|sandbox" (Json.JStr "u1") (Json.JStr "sandbox")
           (WebCases.answer 201 WebCases.tokens));
    try reflexivity; try discriminate.
  eexists. repeat split; reflexivity.
Defined.


(** X24.  In every run of the callback there is at most one token request,
    at most one update of the stored tokens, at most three requests to the
    [new_user] endpoint and at most two pauses; and the endpoint is called
    only when the token request was made and the tokens were stored. *)
Theorem callback_step_bounds (w : OAuth.Web) (code state : option string) :
  let steps := snd (OAuth.oauth_callback w code state) in
  Flow.times OAuth.is_token_post steps <= 1 /\
  Flow.times OAuth.is_db_update steps <= 1 /\
  Flow.times OAuth.is_new_user_post steps <= 3 /\
  Flow.times OAuth.is_sleep steps <= 2 /\
  (0 < Flow.times OAuth.is_new_user_post steps ->
   Flow.times OAuth.is_token_post steps = 1 /\
   Flow.times OAuth.is_db_update steps = 1).
Proof.
  cbv zeta.
  destruct (oauth_callback_steps w code state)
    as [->|[->|(c & s & u & e & middle & _ & _ & _ & _ & _ & -> & Hmiddle)]];
    try (cbn; repeat split; lia).
  destruct (call_new_user_bounds w u) as (Hposts & Hsleeps & Hdb & Htok).
  change (OAuth.OaEnter 0 :: OAuth.OaTokenPost (Flow.token_url_of e) (OAuth.token_data w c)
            :: middle ++ [OAuth.OaExit 0])
    with ([OAuth.OaEnter 0; OAuth.OaTokenPost (Flow.token_url_of e) (OAuth.token_data w c)]
            ++ middle ++ [OAuth.OaExit 0]).
  rewrite !times_app.
  destruct Hmiddle as [->|(a & r & i & [->| ->])].
  - cbn; repeat split; lia.
  - cbn; repeat split; lia.
  - change (OAuth.OaDbUpdate u a r i :: snd (OAuth.call_new_user w u))
      with ([OAuth.OaDbUpdate u a r i] ++ snd (OAuth.call_new_user w u)).
    rewrite !times_app. cbn [Flow.times filter OAuth.is_token_post OAuth.is_db_update
                               OAuth.is_new_user_post OAuth.is_sleep List.length].
    repeat split; lia.
Qed.

(** X25.  The token request goes to the test host of Salesforce exactly
    when the environment held by the state is the string [sandbox]; for
    every other value -- [Sandbox], [production], a number -- it goes to
    the login host.  It carries the authorization code of the request. *)
Theorem token_host_follows_environment
    (w : OAuth.Web) (code state : option string)
    (url : string) (data : list (string * string)) :
  In (OAuth.OaTokenPost url data) (snd (OAuth.oauth_callback w code state)) ->
  exists c s user_id environment,
    code = Some c /\ state = Some s /\
    Flow.state_holds w s user_id environment /\
    data = [("grant_type", "authorization_code");
            ("client_id", OAuth.CLIENT_ID w);
            ("client_secret", OAuth.CLIENT_SECRET w);
            ("redirect_uri", OAuth.REDIRECT_URI w);
            ("code", c)] /\
    ((environment = Json.JStr "sandbox" /\
      url = "https://test.salesforce.com/services/oauth2/token") \/
     (environment <> Json.JStr "sandbox" /\
      url = "https://login.salesforce.com/services/oauth2/token")).
Proof.
  intros Hin.
  destruct (oauth_callback_steps w code state)
    as [H|[H|(c & s & u & e & middle & -> & _ & -> & _ & Hstate & H & Hmiddle)]];
    cbv zeta in H; rewrite H in Hin.
  - destruct Hin.
  - destruct Hin as [Hin|[]]. discriminate.
  - destruct (call_new_user_bounds w u) as (_ & _ & _ & Htok).
    assert (Hhere : OAuth.OaTokenPost url data
                    = OAuth.OaTokenPost (Flow.token_url_of e) (OAuth.token_data w c)).
    { destruct Hin as [Hin|[Hin|Hin]]; [discriminate|now symmetry|].
      exfalso. apply in_app_or in Hin as [Hin|[Hin|[]]]; [|discriminate].
      destruct Hmiddle as [->|(a & r & i & [->| ->])].
      - destruct Hin.
      - destruct Hin as [Hin|[]]. discriminate.
      - destruct Hin as [Hin|Hin]; [discriminate|].
        unfold Flow.times in Htok.
        assert (Hf : In (OAuth.OaTokenPost url data)
                       (filter OAuth.is_token_post (snd (OAuth.call_new_user w u))))
          by (apply filter_In; now split).
        destruct (filter _ _); [destruct Hf|discriminate]. }
    injection Hhere as -> ->.
    exists c, s, u, e. repeat split; try assumption.
    unfold Flow.token_url_of, OAuth.is_sandbox.
    destruct e as [|b|n|str|l|d]; try (right; split; [discriminate|reflexivity]).
    destruct (String.eqb_spec str "sandbox") as [->|Hne].
    + now left.
    + right. split; [congruence|reflexivity].
Qed.

Lemma token_host_follows_environment_witness :
  let w := WebCases.web 200 WebCases.refusing in
  exists c s user_id environment,
    Some "abc" = Some c /\ Some "u1|sandbox" = Some s /\
    Flow.state_holds w s user_id environment /\
    OAuth.token_data w "abc" =
      [("grant_type", "authorization_code");
       ("client_id", OAuth.CLIENT_ID w);
       ("client_secret", OAuth.CLIENT_SECRET w);
       ("redirect_uri", OAuth.REDIRECT_URI w);
       ("code", c)] /\
    ((environment = Json.JStr "sandbox" /\
      "https://test.salesforce.com/services/oauth2/token"
        = "https://test.salesforce.com/services/oauth2/token") \/
     (environment <> Json.JStr "sandbox" /\
      "https://test.salesforce.com/services/oauth2/token"
        = "https://login.salesforce.com/services/oauth2/token")).
Proof.
  exact (token_host_follows_environment (WebCases.web 200 WebCases.refusing)
           (Some "abc") (Some "u1|sandbox")
           "https://test.salesforce.com/services/oauth2/token"
           (OAuth.token_data (WebCases.web 200 WebCases.refusing) "abc")
           (or_intror (or_introl eq_refl))).
Defined.

Section RoundTrip.
Import OAuth Flow.
Variable w : Web.

(** The updates of the stored tokens in a run of the callback are for the
    user id the state holds. *)
Lemma db_update_for_state_user code state u a r i :
  In (OaDbUpdate u a r i) (snd (oauth_callback w code state)) ->
  exists s environment, state = Some s /\ state_holds w s u environment.
Proof.
  intros Hin.
  destruct (oauth_callback_steps w code state)
    as [H|[H|(c & s & u' & e & middle & _ & _ & -> & _ & Hstate & H & Hmiddle)]];
    cbv zeta in H; rewrite H in Hin.
  - destruct Hin.
  - destruct Hin as [Hin|[]]. discriminate.
  - destruct (call_new_user_bounds w u') as (_ & _ & Hdb & _).
    assert (Hu : u = u').
    { destruct Hin as [Hin|[Hin|Hin]]; [discriminate|discriminate|].
      apply in_app_or in Hin as [Hin|[Hin|[]]]; [|discriminate].
      destruct Hmiddle as [->|(a' & r' & i' & [->| ->])].
      - destruct Hin.
      - destruct Hin as [Hin|[]]. now injection Hin.
      - destruct Hin as [Hin|Hin]; [now injection Hin|].
        exfalso. unfold times in Hdb.
        assert (Hf : In (OaDbUpdate u a r i)
                       (filter is_db_update (snd (call_new_user w u'))))
          by (apply filter_In; now split).
        destruct (filter _ _); [destruct Hf|discriminate]. }
    subst u'. now exists s, e.
Qed.

End RoundTrip.

(** X26.  The state that [/connect] puts into the redirect is the state the
    callback expects.  For a user id and an environment that are not empty,
    and a codec that decodes this state to what was encoded: [/connect]
    redirects to the authorization page of the test host when the
    environment is [sandbox] and of the login host otherwise, with that
    state among the parameters; and the callback called with that state
    sends the token request to the same host and stores tokens for no other
    user than the one who asked to connect. *)
Theorem callback_reads_back_connect_state
    (w : OAuth.Web) (environment userId c : string) :
  let state :=
    OAuth.encode_state w
      (Json.JDict [("userId", Json.JStr userId); ("environment", Json.JStr environment)]) in
  let params :=
    [("response_type", "code"); ("client_id", OAuth.CLIENT_ID w);
     ("redirect_uri", OAuth.REDIRECT_URI w); ("scope", "full refresh_token");
     ("state", state)] in
  let steps := snd (OAuth.oauth_callback w (Some c) (Some state)) in
  userId <> "" -> environment <> "" -> c <> "" -> state <> "" ->
  OAuth.decode_state w state
    = Eff.Val (Json.JDict [("userId", Json.JStr userId);
                           ("environment", Json.JStr environment)]) ->
  OAuth.client_enter w 0 = Eff.Val tt ->
  exists host,
    (host = if String.eqb environment "sandbox"
            then "https://test.salesforce.com" else "https://login.salesforce.com") /\
    OAuth.connect_to_salesforce w environment userId =
      (Eff.Val (host ++ "/services/oauth2/authorize" ++ "?" ++ OAuth.query_string w params)%string,
       []) /\
    (exists rest,
        steps = OAuth.OaEnter 0
                  :: OAuth.OaTokenPost (host ++ "/services/oauth2/token")%string
                       (OAuth.token_data w c)
                  :: rest) /\
    (forall u a r i, In (OAuth.OaDbUpdate u a r i) steps -> u = Json.JStr userId).
Proof.
  cbv zeta. intros Hu He Hc Hs Hdecode Henter.
  set (state := OAuth.encode_state w _) in *.
  assert (Hstate : Flow.state_holds w state (Json.JStr userId) (Json.JStr environment)).
  { eexists. split; [exact Hdecode|]. cbn.
    apply String.eqb_neq in Hu, He. rewrite Hu, He. now repeat split. }
  exists (if String.eqb environment "sandbox"
          then "https://test.salesforce.com" else "https://login.salesforce.com")%string.
  split; [reflexivity|]. split; [|split].
  - unfold OAuth.connect_to_salesforce, OAuth.get_salesforce_urls, OAuth.is_sandbox.
    fold state.
    destruct (String.eqb environment "sandbox"); reflexivity.
  - rewrite (oauth_callback_valid w c state _ _ Hc Hs Hstate).
    unfold Eff.with_context. rewrite Henter.
    unfold Eff.bind at 1, Eff.perform at 1.
    assert (Hurl : Flow.token_url_of (Json.JStr environment)
                   = ((if String.eqb environment "sandbox"
                       then "https://test.salesforce.com"
                       else "https://login.salesforce.com")
                        ++ "/services/oauth2/token")%string).
    { unfold Flow.token_url_of, OAuth.is_sandbox.
      now destruct (String.eqb environment "sandbox"). }
    rewrite Hurl.
    destruct (OAuth.token_post w _ _) as [response|x].
    + match goal with
      | |- context [if ?b then ?x else ?y] =>
          lazymatch b with negb _ => destruct (if b then x else y) as [r l] end
      end.
      destruct (OAuth.client_exit w 0) as [[]|x]; eexists; reflexivity.
    + destruct (OAuth.client_exit w 0) as [[]|x']; eexists; reflexivity.
  - intros u a r i Hin.
    destruct (db_update_for_state_user w _ _ u a r i Hin)
      as (s & e & Heq & (d & Hd & -> & _)).
    injection Heq as <-. rewrite Hdecode in Hd. injection Hd as <-. reflexivity.
Qed.

Lemma callback_reads_back_connect_state_witness :
  let w := WebCases.web 200 WebCases.refusing in
  let params :=
    [("response_type", "code"); ("client_id", "client");
     ("redirect_uri", "https://api.example.com/oauth/callback");
     ("scope", "full refresh_token"); ("state", "u1|sandbox")] in
  let steps := snd (OAuth.oauth_callback w (Some "abc") (Some "u1|sandbox")) in
  exists host,
    (host = "https://test.salesforce.com") /\
    OAuth.connect_to_salesforce w "sandbox" "u1" =
      (Eff.Val (host ++ "/services/oauth2/authorize" ++ "?" ++ OAuth.query_string w params)%string,
       []) /\
    (exists rest,
        steps = OAuth.OaEnter 0
                  :: OAuth.OaTokenPost (host ++ "/services/oauth2/token")%string
                       (OAuth.token_data w "abc")
                  :: rest) /\
    (forall u a r i, In (OAuth.OaDbUpdate u a r i) steps -> u = Json.JStr "u1").
Proof.
  apply (callback_reads_back_connect_state (WebCases.web 200 WebCases.refusing)
           "sandbox" "u1" "abc");
    solve [discriminate | reflexivity].
Defined.
